(** * Vision benchmark worker: metrics, model cache, benchmark run, job handler

    Shallow embedding of the two benchmark workers of the repository
    ([backend/runpod/enhanced_vision_benchmark_worker.py], the "enhanced"
    worker, and [runpod/vision_benchmark_worker.py], the "legacy" worker)
    and the properties the design document states about them.

    Numbers.  Python floats are modelled by exact rationals [Q]; every
    statement about a float-valued result is a statement about the
    rational the same sequence of operations denotes.  Python integers
    are [Z], lengths are [nat].

    Effects.  Python exceptions are the [Raise] branch of [result];
    true division by zero raises [ZeroDivisionError].  The mutable
    objects the workers share (the model cache, the monitor flag, the
    database table) and everything observable they do (constructing a
    model, starting the monitor, ...) live in a [World] threaded through
    a state-and-exception monad. *)

From Stdlib Require Import ZArith QArith Qminmax Qabs Lqa Lia List Ascii String.
From stdpp Require Import gmap strings.

Local Open Scope Z_scope.

(** ** Python-level primitives *)

Module Py.

Inductive exn : Type :=
| ZeroDivisionError
| ValueError (msg : string)
| KeyError (key : string)
| OSError (msg : string)
| RuntimeError (msg : string).

(** [str(e)] as the handlers print it into the error record. *)
Definition str (e : exn) : string :=
  match e with
  | ZeroDivisionError => "float division by zero"
  | ValueError msg => msg
  | KeyError key => String.append "'" (String.append key "'")
  | OSError msg => msg
  | RuntimeError msg => msg
  end.

Inductive result (A : Type) : Type :=
| Ok (a : A)
| Raise (e : exn).

Arguments Ok {A} a.
Arguments Raise {A} e.

Definition bind {A B : Type} (r : result A) (k : A -> result B) : result B :=
  match r with
  | Ok a => k a
  | Raise e => Raise e
  end.

(** [a < b] and [a <= b] on floats, as booleans. *)
Definition ltb (a b : Q) : bool :=
  match (a ?= b)%Q with Lt => true | _ => false end.

Definition leb (a b : Q) : bool :=
  match (a ?= b)%Q with Gt => false | _ => true end.

(** [a / b]: true division raises on a zero divisor. *)
Definition truediv (a b : Q) : result Q :=
  if Qeq_bool b 0 then Raise ZeroDivisionError else Ok (a / b)%Q.

(** The builtins [max(a, b)] and [min(a, b)]: the first argument is kept
    unless the second is strictly larger (smaller). *)
Definition max (a b : Q) : Q := if ltb a b then b else a.
Definition min (a b : Q) : Q := if ltb b a then b else a.

(** [sum(l)] and [numpy.mean(l)] of a non-empty list. *)
Definition sum (l : list Q) : Q := fold_left Qplus l 0%Q.

Definition mean (l : list Q) : Q := (sum l / inject_Z (Z.of_nat (length l)))%Q.

End Py.

Import Py.

#[global] Instance result_ret : MRet result := @Ok.
#[global] Instance result_bind : MBind result :=
  fun A B k r => Py.bind r k.

(** Decimal literal [n / 10^k], for constants such as [0.001]. *)
Definition dec (n : Z) (d : positive) : Q := Qmake n d.

(** ** Strings: [s.lower()] and [sub in s] *)

Definition lower_ascii (c : ascii) : ascii :=
  let n := nat_of_ascii c in
  if (Nat.leb 65 n && Nat.leb n 90)%bool then ascii_of_nat (n + 32) else c.

Fixpoint lower (s : string) : string :=
  match s with
  | EmptyString => EmptyString
  | String c s' => String (lower_ascii c) (lower s')
  end.

Fixpoint contains (sub s : string) : bool :=
  (String.prefix sub s ||
   match s with
   | EmptyString => false
   | String _ s' => contains sub s'
   end)%bool.

(** ** The world the workers act on *)

(** The constructor call a loader makes to materialise a model. *)
Inductive Ctor : Type :=
| YOLO (weights : string)
| TimmCreateModel (arch : string)
| DefaultPredictor (config : string)
| MockModel.

(** A loaded model: which constructor built it and the identity of the
    object ([model_obj] is the number of constructions before it, so two
    constructions never yield the same object). *)
Record Model : Type := mkModel {
  model_ctor : Ctor;
  model_obj : nat
}.

#[global] Instance Ctor_eq_dec : EqDecision Ctor.
Proof. solve_decision. Defined.

#[global] Instance Model_eq_dec : EqDecision Model.
Proof. solve_decision. Defined.

(** [image_data['image']]: a path or an in-memory blob. *)
Inductive ImageRef : Type :=
| Path (p : string)
| Blob (bytes : list Byte.byte).

#[global] Instance byte_eq_dec : EqDecision Byte.byte := Byte.byte_eq_dec.

#[global] Instance ImageRef_eq_dec : EqDecision ImageRef.
Proof. solve_decision. Defined.

Inductive Layout : Type := RGB | BGR | Normalized224.

(** A decoded image: the decoder's picture and the layout the
    preprocessing left it in. *)
Record Image : Type := mkImage {
  img_id : nat;
  img_layout : Layout
}.

(** What a model call returns before the worker filters it. *)
Record Box : Type := mkBox {
  box_cls : Z;
  box_conf : Q;
  box_xyxy : list Q
}.

Inductive RawOutput : Type :=
| Boxes (bs : list Box)
| CarProbability (p : Q).

Inductive Event : Type :=
| EvMonitorStart
| EvMonitorStop
| EvMonitorUpdate
| EvMonitorGetMetrics
| EvConstruct (c : Ctor)
| EvImageOpen (r : ImageRef)
| EvModelCall (m : Model)
| EvDbConnect
| EvDbExecute
| EvDbCommit
| EvDbRollback.

#[global] Instance Event_eq_dec : EqDecision Event.
Proof. solve_decision. Defined.

(** What the libraries and the machine do: everything the workers ask of
    their collaborators, as functions the run cannot influence. *)
Record Env : Type := mkEnv {
  DETECTRON2_AVAILABLE : bool;
  CARBON_TRACKING : bool;
  cuda_is_available : bool;
  (** does the [n]-th construction of the process fail? *)
  construct_fails : Ctor -> nat -> option exn;
  image_open : ImageRef -> result nat;
  model_call : Model -> Image -> result RawOutput;
  model_size : Model -> string -> Q;
  (** wall time in ms of image [i] of a run of a model *)
  image_ms : string -> nat -> Q;
  run_seconds : string -> Q;
  peak_memory_mb : string -> Q;
  avg_cpu_percent : string -> Q;
  max_gpu_memory_mb : string -> Q;
  (** tracker started? and what [final_emissions_data] gives *)
  tracker_emissions : string -> option (result Q);
  db_connect_ok : bool;
  db_execute_fails : option exn
}.

(** ** Computations that update a state and may raise *)

Definition St (S A : Type) : Type := S -> result A * S.

Definition ret {S A : Type} (a : A) : St S A := fun w => (Ok a, w).

Definition raise {S A : Type} (e : exn) : St S A := fun w => (Raise e, w).

Definition bindM {S A B : Type} (c : St S A) (k : A -> St S B) : St S B :=
  fun w =>
    match c w with
    | (Ok a, w') => k a w'
    | (Raise e, w') => (Raise e, w')
    end.

Definition lift {S A : Type} (r : result A) : St S A := fun w => (r, w).

Definition get {S : Type} : St S S := fun w => (Ok w, w).

Definition modify {S : Type} (f : S -> S) : St S unit := fun w => (Ok tt, f w).

(** [try: body finally: fin], with a [fin] that does not raise. *)
Definition try_finally {S A : Type} (body : St S A) (fin : St S unit) : St S A :=
  fun w =>
    let '(r, w') := body w in
    let '(_, w'') := fin w' in
    (r, w'').

(** [try: body except Exception as e: h e]. *)
Definition try_except {S A : Type} (body : St S A) (h : exn -> St S A) : St S A :=
  fun w =>
    match body w with
    | (Ok a, w') => (Ok a, w')
    | (Raise e, w') => h e w'
    end.

#[global] Instance St_ret {S : Type} : MRet (St S) := @ret S.
#[global] Instance St_bind {S : Type} : MBind (St S) :=
  fun A B k c => bindM c k.

(** ** The enhanced worker: pure metric functions *)

Module Enhanced.

(** One entry of the list [detect_cars] returns. *)
Record Detection : Type := mkDetection {
  det_class : string;
  det_confidence : Q;
  det_bbox : list Q
}.

(** The dict [calculate_detection_metrics] returns. *)
Record DetectionMetrics : Type := mkDetectionMetrics {
  dm_accuracy : Q;
  dm_precision : Q;
  dm_recall : Q;
  dm_f1_score : Q;
  dm_cars_detected : nat
}.

(** [ComprehensiveCarDetectionBenchmark.calculate_detection_metrics]. *)
Definition calculate_detection_metrics
    (detections : list Detection) (ground_truth : Z) : result DetectionMetrics :=
  let detected_count := length detections in
  let d := inject_Z (Z.of_nat detected_count) in
  let t := inject_Z ground_truth in
  apr ←
     (if ground_truth =? 0 then
        Ok (if Nat.eqb detected_count 0 then 1%Q else 0%Q,
            if Nat.eqb detected_count 0 then 1%Q else 0%Q,
            1%Q)
      else
        q ← truediv (Qabs (d - t)) t;
        precision ←
          (if ltb 0 d then r ← truediv t d; Ok (Py.min 1 r) else Ok 0%Q);
        r ← truediv d t;
        Ok (Py.max 0 (1 - q), precision, Py.min 1 r));
  let '(accuracy, precision, recall) := apr in
  f1 ←
    (if ltb 0 (precision + recall)
     then truediv (2 * (precision * recall)) (precision + recall)
     else Ok 0%Q);
  Ok {| dm_accuracy := accuracy;
        dm_precision := precision;
        dm_recall := recall;
        dm_f1_score := f1;
        dm_cars_detected := detected_count |}.

(** [ComprehensiveCarDetectionBenchmark.calculate_green_score]. *)
Definition calculate_green_score
    (carbon_emissions accuracy speed_ms memory_mb : Q) : result Q :=
  let carbon_emissions :=
    if leb carbon_emissions 0 then dec 1 1000 else carbon_emissions in
  let speed_ms := if leb speed_ms 0 then 1%Q else speed_ms in
  let memory_mb := if leb memory_mb 0 then 100%Q else memory_mb in
  let accuracy_score := (accuracy * 40)%Q in
  qs ← truediv 1000 speed_ms;
  let speed_score := Py.min 30 (30 * qs) in
  qm ← truediv 1000 memory_mb;
  let memory_score := Py.min 20 (20 * qm) in
  qc ← truediv (dec 1 10) carbon_emissions;
  let carbon_score := Py.min 10 (10 * qc) in
  let green_score :=
    (accuracy_score + speed_score + memory_score + carbon_score)%Q in
  Ok (Py.min 100 (Py.max 0 green_score)).

(** [calculate_energy_consumption]; [cuda] is [torch.cuda.is_available()]. *)
Definition calculate_energy_consumption
    (cuda : bool) (duration_seconds cpu_percent : Q) : Q :=
  let base_power := 50%Q in
  let cpu_power := (cpu_percent / 100 * 100)%Q in
  let gpu_power := if cuda then 150%Q else 0%Q in
  let total_power := (base_power + cpu_power + gpu_power)%Q in
  (total_power * (duration_seconds / 3600))%Q.

(** ** The enhanced worker: state *)

(** [ComprehensiveBenchmarkMetrics]. *)
Record Metrics : Type := mkMetrics {
  accuracy : Q;
  speed_ms : Q;
  memory_mb : Q;
  carbon_emissions : Q;
  green_score : Q;
  f1_score : Q;
  latency_ms : Q;
  throughput_fps : Q;
  peak_memory_mb_ : Q;
  cpu_usage_percent : Q;
  gpu_memory_mb : Q;
  energy_consumption : Q;
  model_size_mb : Q;
  precision : Q;
  recall : Q;
  cars_detected : nat;
  inference_count : nat;
  test_duration_seconds : Q
}.

(** One row of [vision_benchmark_results], as [save_benchmark_results]
    fills it in. *)
Record Row : Type := mkRow {
  row_test_name : string;
  row_model_a_name : string;
  row_model_b_name : string;
  row_metrics_a : Metrics;
  row_metrics_b : Metrics;
  row_winner : string;
  row_win_margin : Q;
  row_test_images_count : nat
}.

(** The module-level singletons [benchmark] and [database], and the
    events of the process so far (newest first). *)
Record World : Type := mkWorld {
  model_cache : gmap string Model;
  monitoring : bool;
  db_connection : bool;
  db_rows : list Row;
  trace : list Event
}.

Definition initial_world : World :=
  {| model_cache := ∅; monitoring := false; db_connection := false;
     db_rows := []; trace := [] |}.

(** Computations of the enhanced worker. *)
Abbreviation M := (St World).

Definition record_event (e : Event) (w : World) : World :=
  {| model_cache := model_cache w; monitoring := monitoring w;
     db_connection := db_connection w; db_rows := db_rows w;
     trace := e :: trace w |}.

Definition with_monitoring (b : bool) (w : World) : World :=
  {| model_cache := model_cache w; monitoring := b;
     db_connection := db_connection w; db_rows := db_rows w;
     trace := trace w |}.

Definition with_model_cache (c : gmap string Model) (w : World) : World :=
  {| model_cache := c; monitoring := monitoring w;
     db_connection := db_connection w; db_rows := db_rows w;
     trace := trace w |}.

Definition with_db (conn : bool) (rows : list Row) (w : World) : World :=
  {| model_cache := model_cache w; monitoring := monitoring w;
     db_connection := conn; db_rows := rows;
     trace := trace w |}.

Definition emit (e : Event) : M unit := modify (record_event e).

Definition set_monitoring (b : bool) : M unit := modify (with_monitoring b).

Definition set_model_cache (c : gmap string Model) : M unit :=
  modify (with_model_cache c).

Definition set_db (conn : bool) (rows : list Row) : M unit :=
  modify (with_db conn rows).

Definition is_construct (e : Event) : bool :=
  match e with EvConstruct _ => true | _ => false end.

(** Number of model constructions the process has attempted. *)
Definition constructions (w : World) : nat :=
  length (filter (fun e => is_construct e = true) (trace w)).

(** ** [AdvancedSystemMonitor] *)

Definition start_monitoring : M unit :=
  _ ← set_monitoring true; emit EvMonitorStart.

Definition stop_monitoring : M unit :=
  _ ← set_monitoring false; emit EvMonitorStop.

(** ** [EnhancedVisionModelLoader] *)

Record ModelInfo : Type := mkModelInfo {
  mi_type : string;
  mi_version : string;
  mi_task : string
}.

Definition SUPPORTED_MODELS : gmap string ModelInfo :=
  list_to_map
    [ ("Trained_yolov5", mkModelInfo "yolo" "v5" "detection");
      ("Trained_yolov8", mkModelInfo "yolo" "v8" "detection");
      ("efficientnet_b0", mkModelInfo "efficientnet" "b0" "classification");
      ("detectron2", mkModelInfo "detectron2" "rcnn" "detection");
      ("llama2_70b", mkModelInfo "llama" "70b" "text");
      ("opus_mt", mkModelInfo "transformer" "mt" "translation");
      ("roberta_base", mkModelInfo "transformer" "base" "text");
      ("wav2vec2", mkModelInfo "transformer" "v2" "audio") ].

Definition faster_rcnn : string := "COCO-Detection/faster_rcnn_R_50_FPN_3x.yaml".

(** Which constructor [load_model] calls for a registry entry. *)
Definition ctor_of (env : Env) (model_info : ModelInfo) : Ctor :=
  if String.eqb (mi_type model_info) "yolo" then
    if String.eqb (mi_version model_info) "v5" then YOLO "yolov5s.pt"
    else if String.eqb (mi_version model_info) "v8" then YOLO "yolov8s.pt"
    else YOLO "yolov8s.pt"
  else if String.eqb (mi_type model_info) "efficientnet" then
    TimmCreateModel "efficientnet_b0"
  else if (String.eqb (mi_type model_info) "detectron2"
           && DETECTRON2_AVAILABLE env)%bool then
    DefaultPredictor faster_rcnn
  else MockModel.

(** One call of a framework constructor: the attempt is recorded, the
    object is new, and only the mock class cannot fail. *)
Definition construction_failure (env : Env) (c : Ctor) (n : nat) : option exn :=
  match c with
  | MockModel => None
  | _ => construct_fails env c n
  end.

Definition construct (env : Env) (c : Ctor) : M Model :=
  w ← get;
  let n := constructions w in
  _ ← emit (EvConstruct c);
  match construction_failure env c n with
  | Some e => raise e
  | None => ret (mkModel c n)
  end.

(** [EnhancedVisionModelLoader.load_model]. *)
Definition load_model (env : Env) (model_name : string) : M Model :=
  w ← get;
  match model_cache w !! model_name with
  | Some model => ret model
  | None =>
      match SUPPORTED_MODELS !! model_name with
      | None => raise (ValueError (String.append "Unsupported model: " model_name))
      | Some model_info =>
          try_except
            (model ← construct env (ctor_of env model_info);
             w' ← get;
             _ ← set_model_cache (<[model_name := model]> (model_cache w'));
             ret model)
            (fun e => raise e)
      end
  end.

(** ** [ComprehensiveCarDetectionBenchmark] *)

(** One element of [images_data]: the keys ['image'] and
    ['ground_truth_cars'], either of which may be absent. *)
Record ImageData : Type := mkImageData {
  image : option ImageRef;
  ground_truth_cars : option Z
}.

(** [preprocess_image]: a failure to open or decode is logged and
    re-raised. *)
Definition preprocess_image
    (env : Env) (image_path : ImageRef) (model_type : string) : M Image :=
  try_except
    (_ ← emit (EvImageOpen image_path);
     pic ← lift (image_open env image_path);
     let layout :=
       if contains "efficientnet" (lower model_type) then Normalized224
       else if contains "detectron2" (lower model_type) then BGR
       else RGB in
     ret (mkImage pic layout))
    (fun e => raise e).

Definition car_of (b : Box) : Detection :=
  mkDetection "car" (box_conf b) (box_xyxy b).

Definition is_confident_car (b : Box) : bool :=
  ((box_cls b =? 2) && ltb (dec 5 10) (box_conf b))%bool.

(** [detect_cars]: a failing model call is logged and yields no
    detections. *)
Definition detect_cars
    (env : Env) (model : Model) (img : Image) (model_type : string)
    : M (list Detection) :=
  if contains "yolo" (lower model_type) then
    _ ← emit (EvModelCall model);
    match model_call env model img with
    | Ok (Boxes bs) => ret (map car_of (List.filter is_confident_car bs))
    | _ => ret []
    end
  else if (contains "detectron2" (lower model_type)
           && DETECTRON2_AVAILABLE env)%bool then
    _ ← emit (EvModelCall model);
    match model_call env model img with
    | Ok (Boxes bs) => ret (map car_of (List.filter is_confident_car bs))
    | _ => ret []
    end
  else if contains "efficientnet" (lower model_type) then
    _ ← emit (EvModelCall model);
    match model_call env model img with
    | Ok (CarProbability car_confidence) =>
        if ltb (dec 3 10) car_confidence
        then ret [mkDetection "car" car_confidence [50%Q; 50%Q; 200%Q; 200%Q]]
        else ret []
    | _ => ret []
    end
  else ret [].

(** The variables the per-image loop of [benchmark_model] updates. *)
Record LoopState : Type := mkLoopState {
  all_detections : list Detection;
  inference_times : list Q;
  total_ground_truth : Z;
  loop_inference_count : nat
}.

(** The body of [for image_data in images_data]; [i] is the position of
    the next image. *)
Fixpoint process_images
    (env : Env) (model : Model) (model_name : string)
    (images_data : list ImageData) (i : nat) (st : LoopState) : M LoopState :=
  match images_data with
  | [] => ret st
  | image_data :: rest =>
      image_ref ←
        match image image_data with
        | Some r => ret r
        | None => raise (KeyError "image")
        end;
      img ← preprocess_image env image_ref model_name;
      detections ← detect_cars env model img model_name;
      let st' :=
        {| all_detections := all_detections st ++ detections;
           inference_times := inference_times st ++ [image_ms env model_name i];
           total_ground_truth :=
             total_ground_truth st + default 1 (ground_truth_cars image_data);
           loop_inference_count := S (loop_inference_count st) |} in
      process_images env model model_name rest (S i) st'
  end.

(** [benchmark_model]. *)
Definition benchmark_model
    (env : Env) (model_name : string) (images_data : list ImageData) : M Metrics :=
  _ ← start_monitoring;
  let emissions_tracker :=
    if CARBON_TRACKING env then tracker_emissions env model_name else None in
  try_finally
    (try_except
       (model ← load_model env model_name;
        let model_size_mb := model_size env model model_name in
        st ← process_images env model model_name images_data 0
               (mkLoopState [] [] 0 0);
        let speed_ms :=
          match inference_times st with
          | [] => 0%Q
          | _ => Py.mean (inference_times st)
          end in
        throughput_fps ←
          lift (if ltb 0 speed_ms then truediv 1000 speed_ms else Ok 0%Q);
        dm ← lift (calculate_detection_metrics
                     (all_detections st) (total_ground_truth st));
        _ ← emit EvMonitorGetMetrics;
        let peak := peak_memory_mb env model_name in
        let cpu := avg_cpu_percent env model_name in
        let test_duration := run_seconds env model_name in
        let energy :=
          calculate_energy_consumption (cuda_is_available env) test_duration cpu in
        let carbon :=
          match emissions_tracker with
          | Some (Ok emissions) => (emissions * 1000)%Q
          | Some (Raise _) => dec 1 100
          | None => (energy * dec 4 10)%Q
          end in
        green ← lift (calculate_green_score carbon (dm_accuracy dm) speed_ms peak);
        ret {| accuracy := dm_accuracy dm;
               speed_ms := speed_ms;
               memory_mb := peak;
               carbon_emissions := carbon;
               green_score := green;
               f1_score := dm_f1_score dm;
               latency_ms := speed_ms;
               throughput_fps := throughput_fps;
               peak_memory_mb_ := peak;
               cpu_usage_percent := cpu;
               gpu_memory_mb := max_gpu_memory_mb env model_name;
               energy_consumption := energy;
               model_size_mb := model_size_mb;
               precision := dm_precision dm;
               recall := dm_recall dm;
               cars_detected := dm_cars_detected dm;
               inference_count := loop_inference_count st;
               test_duration_seconds := test_duration |})
       (fun e => raise e))
    stop_monitoring.

(** ** [DatabaseIntegration] *)

Record TestConfig : Type := mkTestConfig {
  tc_test_name : option string;
  tc_image_count : option nat
}.

(** [connect]: [True] iff a connection was established. *)
Definition connect (env : Env) : M bool :=
  _ ← emit EvDbConnect;
  if db_connect_ok env then
    w ← get;
    _ ← set_db true (db_rows w);
    ret true
  else ret false.

(** The winner column: lines "Determine winner" of
    [save_benchmark_results]. *)
Definition persisted_winner (metrics_a metrics_b : Metrics) : string :=
  if ltb (accuracy metrics_b) (accuracy metrics_a) then "model_a"
  else if ltb (accuracy metrics_a) (accuracy metrics_b) then "model_b"
  else "tie".

(** [save_benchmark_results]: [True] iff the row was committed. *)
Definition save_benchmark_results
    (env : Env) (model_a model_b : string) (metrics_a metrics_b : Metrics)
    (test_config : TestConfig) : M bool :=
  w ← get;
  if negb (db_connection w) then ret false
  else
    let winner := persisted_winner metrics_a metrics_b in
    let win_margin := (Qabs (accuracy metrics_a - accuracy metrics_b) * 100)%Q in
    let row :=
      {| row_test_name := default "Vision Model Comparison" (tc_test_name test_config);
         row_model_a_name := model_a;
         row_model_b_name := model_b;
         row_metrics_a := metrics_a;
         row_metrics_b := metrics_b;
         row_winner := winner;
         row_win_margin := win_margin;
         row_test_images_count := default 0%nat (tc_image_count test_config) |} in
    _ ← emit EvDbExecute;
    match db_execute_fails env with
    | Some _ => _ ← emit EvDbRollback; ret false
    | None =>
        _ ← set_db true (db_rows w ++ [row]);
        _ ← emit EvDbCommit;
        ret true
    end.

(** ** [handler] *)

Record JobInput : Type := mkJobInput {
  ji_model_a : option string;
  ji_model_b : option string;
  ji_images_data : option (list ImageData);
  ji_test_config : option TestConfig
}.

Record Job : Type := mkJob { job_input : option JobInput }.

(** The dict the handler returns: the comparison with
    ["status": "completed"], or the error record with
    ["status": "failed"] (and a timestamp when it comes from the
    [except] clause). *)
Inductive JobResult : Type :=
| Completed (winner winner_details : string)
            (name_a : string) (metrics_a : Metrics)
            (name_b : string) (metrics_b : Metrics)
            (total_images : nat)
| Failed (error : string) (timestamp : bool).

(** The score of one model: lines "Determine winner based on
    comprehensive scoring" of [handler]. *)
Definition composite_score (m : Metrics) : result Q :=
  q ← truediv 1000 (Py.max (speed_ms m) 1);
  Ok (accuracy m * dec 4 10 + q * dec 3 10 + green_score m / 100 * dec 3 10)%Q.

Definition pick_winner (model_a model_b : string) (score_a score_b : Q)
    : string * string :=
  if ltb score_b score_a then (model_a, "Better overall performance")
  else if ltb score_a score_b then (model_b, "Better overall performance")
  else ("Tie", "Equal performance").

Definition handler (env : Env) (job : Job) : M JobResult :=
  try_except
    (let job_input := default (mkJobInput None None None None) (job_input job) in
     let model_a := default "Trained_yolov5" (ji_model_a job_input) in
     let model_b := default "efficientnet_b0" (ji_model_b job_input) in
     let images_data := default [] (ji_images_data job_input) in
     let test_config := default (mkTestConfig None None) (ji_test_config job_input) in
     match images_data with
     | [] => ret (Failed "No images provided for benchmarking" false)
     | _ :: _ =>
         database_connected ← connect env;
         metrics_a ← benchmark_model env model_a images_data;
         metrics_b ← benchmark_model env model_b images_data;
         score_a ← lift (composite_score metrics_a);
         score_b ← lift (composite_score metrics_b);
         let '(winner, winner_details) :=
           pick_winner model_a model_b score_a score_b in
         let results :=
           Completed winner winner_details model_a metrics_a model_b metrics_b
                     (length images_data) in
         _ ← (if database_connected : bool then
                let test_config :=
                  mkTestConfig
                    (Some (String.append model_a
                             (String.append " vs "
                                (String.append model_b " Comparison"))))
                    (Some (length images_data)) in
                _ ← save_benchmark_results env model_a model_b
                      metrics_a metrics_b test_config;
                ret tt
              else ret tt);
         ret results
     end)
    (fun e => ret (Failed (str e) true)).

End Enhanced.

(** ** The legacy worker ([runpod/vision_benchmark_worker.py]) *)

Module Legacy.

Import Enhanced (Detection, mkDetection, det_class, det_confidence, det_bbox).

(** The dict [calculate_accuracy_metrics] returns. *)
Record AccuracyMetrics : Type := mkAccuracyMetrics {
  am_accuracy : Q;
  am_precision : Q;
  am_recall : Q;
  am_f1_score : Q
}.

(** [CarDetectionBenchmark.calculate_accuracy_metrics]. *)
Definition calculate_accuracy_metrics
    (predictions : list Detection) (ground_truth : Z) : result AccuracyMetrics :=
  let predicted_count := length predictions in
  let d := inject_Z (Z.of_nat predicted_count) in
  let t := inject_Z ground_truth in
  q ← truediv (Qabs (d - t)) (inject_Z (Z.max ground_truth 1));
  let accuracy := (1 - q)%Q in
  let accuracy := Py.max 0 accuracy in
  pr ←
    (if 0 <? ground_truth then
       precision ←
         (if ltb 0 d then r ← truediv d t; Ok (Py.min 1 r) else Ok 0%Q);
       r ← truediv d t;
       Ok (precision, Py.min 1 r)
     else
       Ok (if Nat.eqb predicted_count 0 then 1%Q else 0%Q,
           if Nat.eqb predicted_count 0 then 1%Q else 0%Q));
  let '(precision, recall) := pr in
  f1_score ←
    (if ltb 0 (precision + recall)
     then truediv (2 * (precision * recall)) (precision + recall)
     else Ok 0%Q);
  Ok {| am_accuracy := accuracy;
        am_precision := precision;
        am_recall := recall;
        am_f1_score := f1_score |}.

(** [CarDetectionBenchmark.calculate_green_score] (three arguments). *)
Definition calculate_green_score
    (carbon_emissions accuracy speed_ms : Q) : result Q :=
  let carbon_emissions :=
    if leb carbon_emissions 0 then dec 1 1000 else carbon_emissions in
  denominator ← truediv (carbon_emissions * speed_ms) 1000;
  efficiency ← truediv accuracy denominator;
  let green_score := Py.min 100 (efficiency * 10) in
  Ok green_score.

(** [BenchmarkMetrics]. *)
Record Metrics : Type := mkMetrics {
  accuracy : Q;
  speed_ms : Q;
  memory_mb : Q;
  carbon_emissions : Q;
  green_score : Q;
  f1_score : Q;
  latency_ms : Q;
  throughput_fps : Q;
  precision : Q;
  recall : Q;
  model_size_mb : Q;
  inference_count : nat;
  peak_memory_mb_ : Q;
  avg_cpu_usage : Q;
  gpu_memory_mb : Q
}.

(** The module-level singleton [benchmark] and the events so far
    (newest first). *)
Record World : Type := mkWorld {
  models_cache : gmap string Model;
  trace : list Event
}.

Definition initial_world : World := {| models_cache := ∅; trace := [] |}.

Abbreviation M := (St World).

Definition record_event (e : Event) (w : World) : World :=
  {| models_cache := models_cache w; trace := e :: trace w |}.

Definition with_models_cache (c : gmap string Model) (w : World) : World :=
  {| models_cache := c; trace := trace w |}.

Definition emit (e : Event) : M unit := modify (record_event e).

Definition set_models_cache (c : gmap string Model) : M unit :=
  modify (with_models_cache c).

Definition is_construct (e : Event) : bool :=
  match e with EvConstruct _ => true | _ => false end.

Definition constructions (w : World) : nat :=
  length (filter (fun e => is_construct e = true) (trace w)).

(** [VisionModelLoader.SUPPORTED_MODELS]; [None] marks the entries that
    are not vision models. *)
Definition SUPPORTED_MODELS : gmap string (option string) :=
  list_to_map
    [ ("Trained_yolov5", Some "yolov5s");
      ("Trained_yolov8", Some "yolov8s.pt");
      ("efficientnet_b0", Some "efficientnet_b0");
      ("llama2_70b", None);
      ("detectron2", Some "COCO-Detection/faster_rcnn_R_50_FPN_3x.yaml");
      ("opus_mt", None);
      ("roberta_base", None);
      ("wav2vec2", None) ].

Definition construct (env : Env) (c : Ctor) : M Model :=
  w ← get;
  let n := constructions w in
  _ ← emit (EvConstruct c);
  match construct_fails env c n with
  | Some e => raise e
  | None => ret (mkModel c n)
  end.

(** [self.SUPPORTED_MODELS[model_name]] handed to a constructor: a
    missing key raises, and so does a constructor given [None]. *)
Definition registry_argument (model_name : string) : M string :=
  match SUPPORTED_MODELS !! model_name with
  | None => raise (KeyError model_name)
  | Some None => raise (RuntimeError "model file is None")
  | Some (Some file) => ret file
  end.

(** [VisionModelLoader.load_model]. *)
Definition load_model (env : Env) (model_name : string) : M Model :=
  w ← get;
  match models_cache w !! model_name with
  | Some model => ret model
  | None =>
      try_except
        (model ←
           (if contains "yolov5" (lower model_name) then
              file ← registry_argument model_name; construct env (YOLO file)
            else if contains "yolov8" (lower model_name) then
              file ← registry_argument model_name; construct env (YOLO file)
            else if contains "efficientnet" (lower model_name) then
              file ← registry_argument model_name;
              construct env (TimmCreateModel file)
            else if (contains "detectron2" (lower model_name)
                     && DETECTRON2_AVAILABLE env)%bool then
              file ← registry_argument model_name;
              construct env (DefaultPredictor file)
            else
              raise (ValueError
                       (String.append "Unsupported vision model: " model_name)));
         w' ← get;
         _ ← set_models_cache (<[model_name := model]> (models_cache w'));
         ret model)
        (fun e => raise e)
  end.

(** One element of [images_data]: the keys ['image_path'] and
    ['car_count']. *)
Record ImageData : Type := mkImageData {
  image_path : option ImageRef;
  car_count : option Z
}.

(** [preprocess_image]. *)
Definition preprocess_image
    (env : Env) (image_path : ImageRef) (model_type : string) : M Image :=
  try_except
    (_ ← emit (EvImageOpen image_path);
     pic ← lift (image_open env image_path);
     let layout :=
       if contains "efficientnet" (lower model_type) then Normalized224 else RGB in
     ret (mkImage pic layout))
    (fun e => raise e).

Definition car_of (b : Box) : Detection :=
  mkDetection "car" (box_conf b) (box_xyxy b).

(** [detect_cars]: every class-2 box counts, whatever its confidence;
    the classifier always reports one whole-image car. *)
Definition detect_cars
    (env : Env) (model : Model) (img : Image) (model_type : string)
    : M (list Detection) :=
  if contains "yolo" (lower model_type) then
    _ ← emit (EvModelCall model);
    match model_call env model img with
    | Ok (Boxes bs) => ret (map car_of (List.filter (fun b => box_cls b =? 2) bs))
    | _ => ret []
    end
  else if (contains "detectron2" (lower model_type)
           && DETECTRON2_AVAILABLE env)%bool then
    _ ← emit (EvModelCall model);
    match model_call env model img with
    | Ok (Boxes bs) => ret (map car_of (List.filter (fun b => box_cls b =? 2) bs))
    | _ => ret []
    end
  else if contains "efficientnet" (lower model_type) then
    ret [mkDetection "car" (dec 8 10) [0%Q; 0%Q; 224%Q; 224%Q]]
  else ret [].

(** The running totals of the per-image loop of [benchmark_model]. *)
Record Totals : Type := mkTotals {
  total_inference_time : Q;
  total_accuracy : Q;
  total_precision : Q;
  total_recall : Q;
  total_f1 : Q;
  loop_inference_count : nat
}.

Fixpoint process_images
    (env : Env) (model : Model) (model_name : string)
    (images_data : list ImageData) (i : nat) (st : Totals) : M Totals :=
  match images_data with
  | [] => ret st
  | image_data :: rest =>
      image_ref ←
        match image_path image_data with
        | Some r => ret r
        | None => raise (KeyError "image_path")
        end;
      ground_truth_cars ←
        match car_count image_data with
        | Some n => ret n
        | None => raise (KeyError "car_count")
        end;
      img ← preprocess_image env image_ref model_name;
      _ ← emit EvMonitorUpdate;
      detections ← detect_cars env model img model_name;
      am ← lift (calculate_accuracy_metrics detections ground_truth_cars);
      let st' :=
        {| total_inference_time :=
             (total_inference_time st + image_ms env model_name i)%Q;
           total_accuracy := (total_accuracy st + am_accuracy am)%Q;
           total_precision := (total_precision st + am_precision am)%Q;
           total_recall := (total_recall st + am_recall am)%Q;
           total_f1 := (total_f1 st + am_f1_score am)%Q;
           loop_inference_count := S (loop_inference_count st) |} in
      process_images env model model_name rest (S i) st'
  end.

(** [benchmark_model]. *)
Definition benchmark_model
    (env : Env) (model_name : string) (images_data : list ImageData) : M Metrics :=
  _ ← emit EvMonitorStart;
  emissions_tracker ←
    (if CARBON_TRACKING env then
       match tracker_emissions env model_name with
       | Some final => ret (Some final)
       | None => raise (RuntimeError "emissions tracker failed to start")
       end
     else ret None);
  try_except
    (model ← load_model env model_name;
     let model_size_mb := model_size env model model_name in
     st ← process_images env model model_name images_data 0
            (mkTotals 0 0 0 0 0 0);
     let num_images := inject_Z (Z.of_nat (length images_data)) in
     accuracy ← lift (truediv (total_accuracy st) num_images);
     precision ← lift (truediv (total_precision st) num_images);
     recall ← lift (truediv (total_recall st) num_images);
     f1_score ← lift (truediv (total_f1 st) num_images);
     speed_ms ← lift (truediv (total_inference_time st) num_images);
     throughput_fps ←
       lift (if ltb 0 speed_ms then truediv 1000 speed_ms else Ok 0%Q);
     _ ← emit EvMonitorGetMetrics;
     let peak := peak_memory_mb env model_name in
     let gpu := max_gpu_memory_mb env model_name in
     carbon ←
       match emissions_tracker with
       | Some final => lift final
       | None => ret 0%Q
       end;
     green ← lift (calculate_green_score carbon accuracy speed_ms);
     ret {| accuracy := accuracy;
            speed_ms := speed_ms;
            memory_mb := Py.max peak gpu;
            carbon_emissions := carbon;
            green_score := green;
            f1_score := f1_score;
            latency_ms := speed_ms;
            throughput_fps := throughput_fps;
            precision := precision;
            recall := recall;
            model_size_mb := model_size_mb;
            inference_count := loop_inference_count st;
            peak_memory_mb_ := peak;
            avg_cpu_usage := avg_cpu_percent env model_name;
            gpu_memory_mb := gpu |})
    (fun e => raise e).

Record JobInput : Type := mkJobInput {
  ji_model_a_id : option string;
  ji_model_b_id : option string;
  ji_images_data : option (list ImageData)
}.

Record Job : Type := mkJob { job_input : option JobInput }.

(** The dict the handler returns: the comparison, or [{"error": msg}]. *)
Inductive JobResult : Type :=
| Comparison (model_a_id model_b_id : string)
             (model_a_metrics model_b_metrics : Metrics)
             (winner accuracy_winner speed_winner
              efficiency_winner f1_score_winner : string)
| Error (error : string).

(** [handler]. *)
Definition handler (env : Env) (job : Job) : M JobResult :=
  try_except
    (let job_input := default (mkJobInput None None None) (job_input job) in
     let model_a := default "Trained_yolov5" (ji_model_a_id job_input) in
     let model_b := default "efficientnet_b0" (ji_model_b_id job_input) in
     let images_data := default [] (ji_images_data job_input) in
     match images_data with
     | [] => ret (Error "No images provided for benchmarking")
     | _ :: _ =>
         metrics_a ← benchmark_model env model_a images_data;
         metrics_b ← benchmark_model env model_b images_data;
         let winner :=
           if ltb (f1_score metrics_b) (f1_score metrics_a)
           then "Model A" else "Model B" in
         ret (Comparison model_a model_b metrics_a metrics_b winner
                (if ltb (accuracy metrics_b) (accuracy metrics_a) then "A" else "B")
                (if ltb (speed_ms metrics_a) (speed_ms metrics_b) then "A" else "B")
                (if ltb (green_score metrics_b) (green_score metrics_a)
                 then "A" else "B")
                (if ltb (f1_score metrics_b) (f1_score metrics_a)
                 then "A" else "B"))
     end)
    (fun e => ret (Error (String.append "Job processing failed: " (str e)))).

End Legacy.

(** ** The resource monitors *)

(** What the operating system and the device report on one sampling;
    each query may fail, and there is no device reading without CUDA.
    The sampling thread of the enhanced worker is modelled by the finite
    sequence of iterations it ran between [start] and [stop]. *)
Record Sample : Type := mkSample {
  rss_mb : result Q;
  cpu_percent : result Q;
  gpu_allocated_mb : option (result Q)
}.

(** [numpy.max] of a non-empty list. *)
Definition np_max (l : list Q) : Q :=
  match l with
  | [] => 0%Q
  | x :: rest => fold_left Py.max rest x
  end.

Module AdvancedSystemMonitor.

Record State : Type := mkState {
  initial_memory : Q;
  peak_memory : Q;
  cpu_readings : list Q;
  gpu_memory_readings : list Q;
  monitoring : bool
}.

(** [__init__], given the resident memory at construction. *)
Definition init (rss : Q) : State :=
  {| initial_memory := rss; peak_memory := rss; cpu_readings := [];
     gpu_memory_readings := []; monitoring := false |}.

Definition start_monitoring (st : State) : State :=
  {| initial_memory := initial_memory st; peak_memory := peak_memory st;
     cpu_readings := cpu_readings st;
     gpu_memory_readings := gpu_memory_readings st; monitoring := true |}.

Definition stop_monitoring (st : State) : State :=
  {| initial_memory := initial_memory st; peak_memory := peak_memory st;
     cpu_readings := cpu_readings st;
     gpu_memory_readings := gpu_memory_readings st; monitoring := false |}.

(** One pass through the body of [_monitor_loop]; the boolean is false
    when the outer [except] breaks the loop.  What was stored before the
    failing query stays stored; a failing device query is skipped. *)
Definition tick (s : Sample) (st : State) : State * bool :=
  match rss_mb s with
  | Raise _ => (st, false)
  | Ok current_memory =>
      let peak := Py.max (peak_memory st) current_memory in
      match cpu_percent s with
      | Raise _ =>
          ({| initial_memory := initial_memory st; peak_memory := peak;
              cpu_readings := cpu_readings st;
              gpu_memory_readings := gpu_memory_readings st;
              monitoring := monitoring st |}, false)
      | Ok cpu =>
          ({| initial_memory := initial_memory st; peak_memory := peak;
              cpu_readings := cpu_readings st ++ [cpu];
              gpu_memory_readings :=
                match gpu_allocated_mb s with
                | Some (Ok gpu_memory) => gpu_memory_readings st ++ [gpu_memory]
                | _ => gpu_memory_readings st
                end;
              monitoring := monitoring st |}, true)
      end
  end.

(** [_monitor_loop] over the samplings that happen while the flag is up. *)
Fixpoint monitor_loop (samples : list Sample) (st : State) : State :=
  match samples with
  | [] => st
  | s :: rest =>
      if monitoring st then
        let '(st', continue) := tick s st in
        if continue then monitor_loop rest st' else st'
      else st
  end.

(** The dict [get_metrics] returns. *)
Record Readings : Type := mkReadings {
  peak_memory_mb : Q;
  avg_cpu_percent : Q;
  max_cpu_percent : Q;
  avg_gpu_memory_mb : Q;
  max_gpu_memory_mb : Q
}.

Definition get_metrics (st : State) : Readings :=
  {| peak_memory_mb := peak_memory st;
     avg_cpu_percent :=
       match cpu_readings st with [] => 0%Q | _ => Py.mean (cpu_readings st) end;
     max_cpu_percent :=
       match cpu_readings st with [] => 0%Q | _ => np_max (cpu_readings st) end;
     avg_gpu_memory_mb :=
       match gpu_memory_readings st with
       | [] => 0%Q
       | _ => Py.mean (gpu_memory_readings st)
       end;
     max_gpu_memory_mb :=
       match gpu_memory_readings st with
       | [] => 0%Q
       | _ => np_max (gpu_memory_readings st)
       end |}.

(** One monitored run: [start_monitoring], the samplings, [stop_monitoring]. *)
Definition run (samples : list Sample) (st : State) : State :=
  stop_monitoring (monitor_loop samples (start_monitoring st)).

End AdvancedSystemMonitor.

Module SystemMonitor.

Record State : Type := mkState {
  initial_memory : Q;
  peak_memory : Q;
  cpu_readings : list Q;
  gpu_memory_readings : list Q
}.

(** [start_monitoring], given the resident memory at that moment:
    everything is reset. *)
Definition start_monitoring (rss : Q) (st : State) : State :=
  {| initial_memory := rss; peak_memory := rss; cpu_readings := [];
     gpu_memory_readings := [] |}.

(** [update_metrics]: no query is guarded here, a failure propagates. *)
Definition update_metrics (s : Sample) (st : State) : result State :=
  current_memory ← rss_mb s;
  let peak := Py.max (peak_memory st) current_memory in
  cpu ← cpu_percent s;
  gpu ←
    match gpu_allocated_mb s with
    | Some r => g ← r; Ok (gpu_memory_readings st ++ [g])
    | None => Ok (gpu_memory_readings st)
    end;
  Ok {| initial_memory := initial_memory st; peak_memory := peak;
        cpu_readings := cpu_readings st ++ [cpu];
        gpu_memory_readings := gpu |}.

(** The calls of [update_metrics] a run makes, one per image, until one
    of them raises. *)
Fixpoint update_all (samples : list Sample) (st : State) : result State :=
  match samples with
  | [] => Ok st
  | s :: rest => st' ← update_metrics s st; update_all rest st'
  end.

Record Readings : Type := mkReadings {
  peak_memory_mb : Q;
  avg_cpu_usage : Q;
  gpu_memory_mb : Q
}.

Definition get_metrics (st : State) : Readings :=
  {| peak_memory_mb := peak_memory st;
     avg_cpu_usage :=
       match cpu_readings st with [] => 0%Q | _ => Py.mean (cpu_readings st) end;
     gpu_memory_mb :=
       match gpu_memory_readings st with
       | [] => 0%Q
       | _ => np_max (gpu_memory_readings st)
       end |}.

End SystemMonitor.

(** ** [get_model_size] *)

Module ModelSize.

(** What [hasattr] finds on a model object: a nested torch module (its
    parameters and buffers as pairs of element count and element size), a
    torch module, neither, or an object whose inspection raises. *)
Inductive Shape : Type :=
| Nested (parameters buffers : list (nat * nat))
| Direct (parameters : list (nat * nat))
| Plain
| Broken.

Definition byte_size (tensors : list (nat * nat)) : nat :=
  fold_left (fun acc t => (acc + fst t * snd t)%nat) tensors 0%nat.

Definition mb (bytes : nat) : Q := (inject_Z (Z.of_nat bytes) / 1024 / 1024)%Q.

(** The table of the enhanced worker, in the order the dict is written. *)
Definition enhanced_model_sizes : list (string * Q) :=
  [ ("yolov5", dec 144 10); ("yolov8", dec 225 10);
    ("efficientnet_b0", dec 214 10); ("detectron2", dec 1653 10);
    ("llama2_70b", 140000%Q); ("roberta_base", 498%Q);
    ("wav2vec2", 315%Q); ("opus_mt", 892%Q) ].

(** The table of the legacy worker. *)
Definition legacy_model_sizes : list (string * Q) :=
  [ ("yolov5", 14%Q); ("yolov8", 22%Q);
    ("efficientnet_b0", 21%Q); ("detectron2", 165%Q) ].

(** [for key, size in model_sizes.items(): if key in model_type.lower():
    return size], then [return 50.0]. *)
Fixpoint table_size (model_sizes : list (string * Q)) (model_type : string) : Q :=
  match model_sizes with
  | [] => 50%Q
  | (key, size) :: rest =>
      if contains key (lower model_type) then size
      else table_size rest model_type
  end.

(** [get_model_size] of either worker, given its table. *)
Definition get_model_size
    (model_sizes : list (string * Q)) (shape : Shape) (model_type : string) : Q :=
  match shape with
  | Nested parameters buffers => mb (byte_size parameters + byte_size buffers)
  | Direct parameters => mb (byte_size parameters)
  | Plain => table_size model_sizes model_type
  | Broken => 50%Q
  end.

End ModelSize.

(** ** The formulas of the design document *)

Module Spec.

Local Open Scope Q_scope.

(** [score_detections]: "accuracy = 1 if zero detections else 0" for a
    zero ground truth, else [max(0, 1 - |detected - truth| / truth)]. *)
Definition accuracy (detected : nat) (truth : Z) : Q :=
  let d := inject_Z (Z.of_nat detected) in
  let t := inject_Z truth in
  if (truth =? 0)%Z then (if Nat.eqb detected 0 then 1 else 0)
  else Qmax 0 (1 - Qabs (d - t) / t).

(** "precision = 1 if zero detections else 0", else
    [min(1, truth/detected)] if [detected > 0] else 0. *)
Definition precision (detected : nat) (truth : Z) : Q :=
  let d := inject_Z (Z.of_nat detected) in
  let t := inject_Z truth in
  if (truth =? 0)%Z then (if Nat.eqb detected 0 then 1 else 0)
  else if Nat.ltb 0 detected then Qmin 1 (t / d) else 0.

(** "recall = 1 (vacuously satisfied)", else [min(1, detected/truth)]. *)
Definition recall (detected : nat) (truth : Z) : Q :=
  let d := inject_Z (Z.of_nat detected) in
  let t := inject_Z truth in
  if (truth =? 0)%Z then 1 else Qmin 1 (d / t).

(** [green_score]: inputs clamped upward to their floors, the four
    weighted parts, the sum clamped to [0,100]. *)
Definition green_score (carbon accuracy speed_ms memory_mb : Q) : Q :=
  let carbon := Qmax carbon (dec 1 1000) in
  let speed_ms := Qmax speed_ms 1 in
  let memory_mb := Qmax memory_mb 100 in
  Qmin 100
    (Qmax 0
       (accuracy * 40
        + Qmin 30 (30 * 1000 / speed_ms)
        + Qmin 20 (20 * 1000 / memory_mb)
        + Qmin 10 (10 * dec 1 10 / carbon))).

(** The composite comparison score
    [accuracy*0.4 + (1000/max(speed_ms,1))*0.3 + (green_score/100)*0.3]. *)
Definition composite (accuracy speed_ms green_score : Q) : Q :=
  accuracy * dec 4 10 + (1000 / Qmax speed_ms 1) * dec 3 10
  + (green_score / 100) * dec 3 10.

End Spec.

(** ** Notions used in the statements *)

(** The value of the F1 expression [2 * (p * r) / (p + r) if (p + r) > 0
    else 0.0] once its guard has been decided. *)
Definition f1_value (p r : Q) : Q :=
  if ltb 0 (p + r) then (2 * (p * r) / (p + r))%Q else 0%Q.

(** One part of the green score, as the document words it: the input is
    raised to its floor, then [min(cap, cap * k / input)]. *)
Definition part (cap k floor x : Q) : Q :=
  Qmin cap (cap * k / Qmax x floor).

(** Which constructor call the legacy [load_model] makes for a name that
    is not cached, or which exception it raises before any call. *)
Definition legacy_plan (env : Env) (model_name : string) : result Ctor :=
  let file :=
    match Legacy.SUPPORTED_MODELS !! model_name with
    | None => Raise (KeyError model_name)
    | Some None => Raise (RuntimeError "model file is None")
    | Some (Some f) => Ok f
    end in
  if contains "yolov5" (lower model_name) then f ← file; Ok (YOLO f)
  else if contains "yolov8" (lower model_name) then f ← file; Ok (YOLO f)
  else if contains "efficientnet" (lower model_name) then
    f ← file; Ok (TimmCreateModel f)
  else if (contains "detectron2" (lower model_name)
           && DETECTRON2_AVAILABLE env)%bool then
    f ← file; Ok (DefaultPredictor f)
  else Raise (ValueError (String.append "Unsupported vision model: " model_name)).

(** The images a job carries: [job.get('input', {}).get('images_data', [])]. *)
Definition enhanced_images_data (job : Enhanced.Job) : list Enhanced.ImageData :=
  default []
    (Enhanced.ji_images_data
       (default (Enhanced.mkJobInput None None None None) (Enhanced.job_input job))).

Definition legacy_images_data (job : Legacy.Job) : list Legacy.ImageData :=
  default []
    (Legacy.ji_images_data
       (default (Legacy.mkJobInput None None None) (Legacy.job_input job))).

(** The cache holds registry names only (true of the initial world and
    kept by [load_model], the only writer of the cache). *)
Definition cache_within_registry (w : Enhanced.World) : Prop :=
  dom (Enhanced.model_cache w) ⊆ dom Enhanced.SUPPORTED_MODELS.

(** The image of a batch element cannot be opened. *)
Definition undecodable (env : Env) (image_data : Enhanced.ImageData) : Prop :=
  exists r e, Enhanced.image image_data = Some r /\ image_open env r = Raise e.

(** A metrics record that carries the three fields the composite score
    reads and zero elsewhere. *)
Definition metrics_of (accuracy speed_ms green_score : Q) : Enhanced.Metrics :=
  {| Enhanced.accuracy := accuracy;
     Enhanced.speed_ms := speed_ms;
     Enhanced.memory_mb := 0;
     Enhanced.carbon_emissions := 0;
     Enhanced.green_score := green_score;
     Enhanced.f1_score := 0;
     Enhanced.latency_ms := speed_ms;
     Enhanced.throughput_fps := 0;
     Enhanced.peak_memory_mb_ := 0;
     Enhanced.cpu_usage_percent := 0;
     Enhanced.gpu_memory_mb := 0;
     Enhanced.energy_consumption := 0;
     Enhanced.model_size_mb := 0;
     Enhanced.precision := 0;
     Enhanced.recall := 0;
     Enhanced.cars_detected := 0;
     Enhanced.inference_count := 0;
     Enhanced.test_duration_seconds := 0 |}.

(** Scenario 3 of the document: model A with accuracy 0.87, 42.3 ms and
    green score 78.4; model B with accuracy 0.82, 38.7 ms and 82.1. *)
Definition scenario3_a : Enhanced.Metrics :=
  metrics_of (dec 87 100) (dec 423 10) (dec 784 10).

Definition scenario3_b : Enhanced.Metrics :=
  metrics_of (dec 82 100) (dec 387 10) (dec 821 10).

(** A machine on which everything works except one image file: no GPU,
    no carbon tracker, no detectron2; the detector sees two cars in every
    picture and takes a second per image, the classifier sees one car and
    takes 10 ms; the database accepts every row. *)
Definition lab_env : Env :=
  {| DETECTRON2_AVAILABLE := false;
     CARBON_TRACKING := false;
     cuda_is_available := false;
     construct_fails := fun _ _ => None;
     image_open := fun r =>
       match r with
       | Path p =>
           if String.eqb p "corrupt.jpg"
           then Raise (OSError "cannot identify image file 'corrupt.jpg'")
           else Ok 0%nat
       | Blob _ => Ok 0%nat
       end;
     model_call := fun m _ =>
       match model_ctor m with
       | YOLO _ =>
           Ok (Boxes [mkBox 2 (dec 9 10) [0%Q; 0%Q; 10%Q; 10%Q];
                      mkBox 2 (dec 8 10) [20%Q; 20%Q; 30%Q; 30%Q];
                      mkBox 0 (dec 9 10) [5%Q; 5%Q; 6%Q; 6%Q]])
       | TimmCreateModel _ => Ok (CarProbability (dec 9 10))
       | _ => Ok (Boxes [])
       end;
     model_size := fun _ _ => dec 144 10;
     image_ms := fun name _ =>
       if contains "yolo" (lower name) then 1000%Q else 10%Q;
     run_seconds := fun _ => 2%Q;
     peak_memory_mb := fun _ => 512%Q;
     avg_cpu_percent := fun _ => 50%Q;
     max_gpu_memory_mb := fun _ => 0%Q;
     tracker_emissions := fun _ => None;
     db_connect_ok := true;
     db_execute_fails := None |}.

(** The same machine with weights that are missing on the first
    construction of the process and present afterwards. *)
Definition flaky_env : Env :=
  {| DETECTRON2_AVAILABLE := DETECTRON2_AVAILABLE lab_env;
     CARBON_TRACKING := CARBON_TRACKING lab_env;
     cuda_is_available := cuda_is_available lab_env;
     construct_fails := fun _ n =>
       if Nat.eqb n 0 then Some (OSError "weights file not found") else None;
     image_open := image_open lab_env;
     model_call := model_call lab_env;
     model_size := model_size lab_env;
     image_ms := image_ms lab_env;
     run_seconds := run_seconds lab_env;
     peak_memory_mb := peak_memory_mb lab_env;
     avg_cpu_percent := avg_cpu_percent lab_env;
     max_gpu_memory_mb := max_gpu_memory_mb lab_env;
     tracker_emissions := tracker_emissions lab_env;
     db_connect_ok := db_connect_ok lab_env;
     db_execute_fails := db_execute_fails lab_env |}.

Definition picture (p : string) (cars : Z) : Enhanced.ImageData :=
  Enhanced.mkImageData (Some (Path p)) (Some cars).

(** A batch of three pictures whose second file is corrupt. *)
Definition batch_with_corrupt_image : list Enhanced.ImageData :=
  [picture "street_1.jpg" 2; picture "corrupt.jpg" 1; picture "street_3.jpg" 3].

Definition job_of (model_a model_b : string) (images : list Enhanced.ImageData)
    : Enhanced.Job :=
  Enhanced.mkJob
    (Some (Enhanced.mkJobInput (Some model_a) (Some model_b) (Some images) None)).

(** A computation of the enhanced worker relates every world it starts
    in to the world it leaves, whether it returns or raises. *)
Definition keeps {A : Type}
    (R : Enhanced.World -> Enhanced.World -> Prop) (c : Enhanced.M A) : Prop :=
  forall w, R w (c w).2.

(** Nothing lasting happened: same cache, same number of constructions,
    same database. *)
Definition steady (w w' : Enhanced.World) : Prop :=
  Enhanced.model_cache w' = Enhanced.model_cache w /\
  Enhanced.constructions w' = Enhanced.constructions w /\
  Enhanced.db_rows w' = Enhanced.db_rows w /\
  Enhanced.db_connection w' = Enhanced.db_connection w.

(** Only additions happened: cached handles stay what they are, the
    cache stays inside the registry, rows are only appended. *)
Definition grows (w w' : Enhanced.World) : Prop :=
  (forall name model,
     Enhanced.model_cache w !! name = Some model ->
     Enhanced.model_cache w' !! name = Some model) /\
  (cache_within_registry w -> cache_within_registry w') /\
  (Enhanced.constructions w <= Enhanced.constructions w')%nat /\
  (exists rows, Enhanced.db_rows w' = Enhanced.db_rows w ++ rows).

(** Every image of a batch has its key and can be opened. *)
Definition decodable (env : Env) (image_data : Enhanced.ImageData) : Prop :=
  exists r pic, Enhanced.image image_data = Some r /\ image_open env r = Ok pic.

(** The sum of the ground truths of a batch, a missing one counting 1. *)
Definition ground_truth_sum (images : list Enhanced.ImageData) : Z :=
  fold_right (fun d acc => default 1 (Enhanced.ground_truth_cars d) + acc) 0 images.

(** The name reads as a detector or classifier to [detect_cars]. *)
Definition looks_like_vision (env : Env) (model_type : string) : bool :=
  (contains "yolo" (lower model_type)
   || (contains "detectron2" (lower model_type) && DETECTRON2_AVAILABLE env)
   || contains "efficientnet" (lower model_type))%bool.

Definition is_model_call (e : Event) : bool :=
  match e with EvModelCall _ => true | _ => false end.

(** The two model names of a job, with the handler's defaults. *)
Definition enhanced_model_a (job : Enhanced.Job) : string :=
  default "Trained_yolov5"
    (Enhanced.ji_model_a
       (default (Enhanced.mkJobInput None None None None) (Enhanced.job_input job))).

Definition enhanced_model_b (job : Enhanced.Job) : string :=
  default "efficientnet_b0"
    (Enhanced.ji_model_b
       (default (Enhanced.mkJobInput None None None None) (Enhanced.job_input job))).

(** The [test_config] the handler hands to [save_benchmark_results]. *)
Definition saved_test_config (job : Enhanced.Job) : Enhanced.TestConfig :=
  Enhanced.mkTestConfig
    (Some (String.append (enhanced_model_a job)
             (String.append " vs "
                (String.append (enhanced_model_b job) " Comparison"))))
    (Some (length (enhanced_images_data job))).

(** Both queries of a sampling succeed. *)
Definition healthy (s : Sample) : Prop :=
  (exists m, rss_mb s = Ok m) /\ (exists c, cpu_percent s = Ok c).

(** A score lies in [0,1]. *)
Definition in_unit (x : Q) : Prop := (0 <= x <= 1)%Q.

(** * Properties *)

(** ** Comparisons, [min], [max] and division *)

Lemma ltb_lt (a b : Q) : ltb a b = true <-> (a < b)%Q.
Proof.
  unfold ltb. rewrite Qlt_alt. destruct (a ?= b)%Q; split; congruence.
Qed.

Lemma ltb_ge (a b : Q) : ltb a b = false <-> (b <= a)%Q.
Proof.
  rewrite <- not_true_iff_false, ltb_lt. split.
  - apply Qnot_lt_le.
  - apply Qle_not_lt.
Qed.

Lemma leb_le (a b : Q) : leb a b = true <-> (a <= b)%Q.
Proof.
  unfold leb. rewrite Qle_alt. destruct (a ?= b)%Q; split; congruence.
Qed.

Lemma leb_gt (a b : Q) : leb a b = false <-> (b < a)%Q.
Proof.
  rewrite <- not_true_iff_false, leb_le. split.
  - apply Qnot_le_lt.
  - apply Qlt_not_le.
Qed.

Lemma py_max_Qmax (a b : Q) : Py.max a b = Qmax a b.
Proof.
  unfold Py.max, ltb, Qmax, GenericMinMax.gmax. now destruct (a ?= b)%Q.
Qed.

Lemma py_min_Qmin (a b : Q) : Py.min a b = Qmin a b.
Proof.
  unfold Py.min, ltb, Qmin, GenericMinMax.gmin.
  rewrite <- (Qcompare_antisym a b). now destruct (a ?= b)%Q.
Qed.

Lemma truediv_ok (a b : Q) : ~ (b == 0)%Q -> truediv a b = Ok (a / b)%Q.
Proof.
  intros Hb. unfold truediv.
  destruct (Qeq_bool b 0) eqn:E; [|reflexivity].
  apply Qeq_bool_iff in E. contradiction.
Qed.

Lemma truediv_zero (a b : Q) : (b == 0)%Q -> truediv a b = Raise ZeroDivisionError.
Proof.
  intros Hb. unfold truediv. apply Qeq_bool_iff in Hb. now rewrite Hb.
Qed.

Lemma inject_Z_nonzero (z : Z) : z <> 0 -> ~ (inject_Z z == 0)%Q.
Proof.
  intros Hz H. apply Hz. unfold Qeq in H. simpl in H. lia.
Qed.

Lemma inject_Z_pos (z : Z) : 0 < z -> (0 < inject_Z z)%Q.
Proof. intros Hz. unfold Qlt. simpl. lia. Qed.

Lemma inject_nat_nonneg (n : nat) : (0 <= inject_Z (Z.of_nat n))%Q.
Proof. unfold Qle. simpl. lia. Qed.

Lemma inject_nat_pos (n : nat) : (0 < n)%nat -> (0 < inject_Z (Z.of_nat n))%Q.
Proof. intros Hn. apply inject_Z_pos. lia. Qed.

Lemma Qmax_case_le (a b : Q) :
  ((a <= b)%Q /\ (Qmax a b == b)%Q) \/ ((b <= a)%Q /\ (Qmax a b == a)%Q).
Proof.
  destruct (Qlt_le_dec a b) as [H|H].
  - left. split; [now apply Qlt_le_weak|]. apply Q.max_r. now apply Qlt_le_weak.
  - right. split; [exact H|]. now apply Q.max_l.
Qed.

Lemma Qmin_case_le (a b : Q) :
  ((a <= b)%Q /\ (Qmin a b == a)%Q) \/ ((b <= a)%Q /\ (Qmin a b == b)%Q).
Proof.
  destruct (Qlt_le_dec a b) as [H|H].
  - left. split; [now apply Qlt_le_weak|]. apply Q.min_l. now apply Qlt_le_weak.
  - right. split; [exact H|]. now apply Q.min_r.
Qed.

(** ** The scoring functions never raise *)

Lemma f1_guarded (p r : Q) :
  (if ltb 0 (p + r) then truediv (2 * (p * r)) (p + r) else Ok 0%Q)
  = Ok (f1_value p r).
Proof.
  unfold f1_value. destruct (ltb 0 (p + r)) eqn:E; [|reflexivity].
  apply ltb_lt in E. apply truediv_ok. lra.
Qed.

Lemma enhanced_metrics_zero_truth (detections : list Enhanced.Detection) :
  Enhanced.calculate_detection_metrics detections 0
  = Ok (let z := if Nat.eqb (length detections) 0 then 1%Q else 0%Q in
        Enhanced.mkDetectionMetrics z z 1 (f1_value z 1) (length detections)).
Proof.
  unfold Enhanced.calculate_detection_metrics. cbn [Z.eqb].
  cbn [mbind result_bind Py.bind]. now rewrite f1_guarded.
Qed.

Lemma enhanced_metrics_nonzero_truth
    (detections : list Enhanced.Detection) (t : Z) :
  t <> 0 ->
  Enhanced.calculate_detection_metrics detections t
  = Ok (let d := inject_Z (Z.of_nat (length detections)) in
        let a := Py.max 0 (1 - Qabs (d - inject_Z t) / inject_Z t) in
        let p := if ltb 0 d then Py.min 1 (inject_Z t / d) else 0%Q in
        let r := Py.min 1 (d / inject_Z t) in
        Enhanced.mkDetectionMetrics a p r (f1_value p r) (length detections)).
Proof.
  intros Ht. unfold Enhanced.calculate_detection_metrics.
  destruct (t =? 0) eqn:E; [apply Z.eqb_eq in E; contradiction|].
  pose proof (inject_Z_nonzero t Ht) as Hq.
  rewrite !(truediv_ok _ (inject_Z t)) by exact Hq.
  cbn [mbind result_bind Py.bind].
  destruct (ltb 0 (inject_Z (Z.of_nat (length detections)))) eqn:Ed.
  - apply ltb_lt in Ed.
    rewrite truediv_ok by lra.
    cbn [mbind result_bind Py.bind]. rewrite f1_guarded.
    cbn [mbind result_bind Py.bind]. reflexivity.
  - cbn [mbind result_bind Py.bind]. rewrite f1_guarded.
    cbn [mbind result_bind Py.bind]. reflexivity.
Qed.

Lemma legacy_metrics_value (predictions : list Enhanced.Detection) (t : Z) :
  Legacy.calculate_accuracy_metrics predictions t
  = Ok (let d := inject_Z (Z.of_nat (length predictions)) in
        let a := Py.max 0 (1 - Qabs (d - inject_Z t) / inject_Z (Z.max t 1)) in
        let p :=
          if 0 <? t
          then (if ltb 0 d then Py.min 1 (d / inject_Z t) else 0%Q)
          else (if Nat.eqb (length predictions) 0 then 1%Q else 0%Q) in
        let r :=
          if 0 <? t
          then Py.min 1 (d / inject_Z t)
          else (if Nat.eqb (length predictions) 0 then 1%Q else 0%Q) in
        Legacy.mkAccuracyMetrics a p r (f1_value p r)).
Proof.
  unfold Legacy.calculate_accuracy_metrics.
  rewrite (truediv_ok _ (inject_Z (Z.max t 1)))
    by (apply inject_Z_nonzero; lia).
  cbn [mbind result_bind Py.bind].
  destruct (0 <? t) eqn:Et.
  - apply Z.ltb_lt in Et.
    rewrite !(truediv_ok _ (inject_Z t)) by (apply inject_Z_nonzero; lia).
    destruct (ltb 0 (inject_Z (Z.of_nat (length predictions)))) eqn:Ed;
      cbn [mbind result_bind Py.bind]; rewrite f1_guarded;
      cbn [mbind result_bind Py.bind]; reflexivity.
  - cbn [mbind result_bind Py.bind]. rewrite f1_guarded.
    cbn [mbind result_bind Py.bind]. reflexivity.
Qed.

(** ** Ranges of the scores *)

Lemma Qdiv_pos (a b : Q) : (0 < a)%Q -> (0 < b)%Q -> (0 < a / b)%Q.
Proof. intros Ha Hb. apply Qlt_shift_div_l; [exact Hb | lra]. Qed.

Lemma Qdiv_nonneg (a b : Q) : (0 <= a)%Q -> (0 < b)%Q -> (0 <= a / b)%Q.
Proof. intros Ha Hb. apply Qle_shift_div_l; [exact Hb | lra]. Qed.

Lemma Qdiv_zero_l (b : Q) : (0 / b == 0)%Q.
Proof. unfold Qdiv. ring. Qed.

Lemma Qmax0_range (x : Q) : (x <= 1)%Q -> (0 <= Qmax 0 x <= 1)%Q.
Proof.
  intros Hx. split.
  - apply Q.le_max_l.
  - apply Q.max_lub; [lra | exact Hx].
Qed.

Lemma Qmin1_range (x : Q) : (0 <= x)%Q -> (0 <= Qmin 1 x <= 1)%Q.
Proof.
  intros Hx. split.
  - apply Q.min_glb; [lra | exact Hx].
  - apply Q.le_min_l.
Qed.

Lemma Qmin1_pos (x : Q) : (0 < x)%Q -> (0 < Qmin 1 x)%Q.
Proof.
  intros Hx. destruct (Qmin_case_le 1 x) as [[_ E]|[_ E]]; rewrite E; lra.
Qed.

Lemma f1_value_range (p r : Q) :
  (0 <= p <= 1)%Q -> (0 <= r <= 1)%Q -> (0 <= f1_value p r <= 1)%Q.
Proof.
  intros [Hp0 Hp1] [Hr0 Hr1]. unfold f1_value.
  destruct (ltb 0 (p + r)) eqn:E; [|lra].
  apply ltb_lt in E. split.
  - apply Qdiv_nonneg; [|exact E].
    assert (0 <= p * r)%Q by (apply Qmult_le_0_compat; assumption). lra.
  - apply Qle_shift_div_r; [exact E|].
    nra.
Qed.

Lemma f1_value_zero_iff (p r : Q) :
  (0 <= p)%Q -> (0 <= r)%Q -> ((0 < p)%Q <-> (0 < r)%Q) ->
  ((f1_value p r == 0)%Q <-> (p + r == 0)%Q).
Proof.
  intros Hp Hr Hpr. unfold f1_value.
  destruct (ltb 0 (p + r)) eqn:E.
  - apply ltb_lt in E.
    assert (Hp' : (0 < p)%Q).
    { destruct (Qlt_le_dec 0 p) as [H|H]; [exact H|].
      apply Hpr. lra. }
    assert (Hr' : (0 < r)%Q) by now apply Hpr.
    assert (Hprod : (0 < p * r)%Q) by (apply Qmult_lt_0_compat; assumption).
    assert (Hf : (0 < 2 * (p * r) / (p + r))%Q) by (apply Qdiv_pos; lra).
    split; intros H; lra.
  - apply ltb_ge in E. split; intros _; [lra | reflexivity].
Qed.

Lemma ltb_inject_nat (n : nat) :
  ltb 0 (inject_Z (Z.of_nat n)) = Nat.ltb 0 n.
Proof.
  destruct n as [|n]; [reflexivity|].
  apply ltb_lt. apply inject_nat_pos. lia.
Qed.

Lemma accuracy_expr_range (d t m : Q) :
  (0 < m)%Q -> in_unit (Qmax 0 (1 - Qabs (d - t) / m)).
Proof.
  intros Hm. apply Qmax0_range.
  assert (0 <= Qabs (d - t) / m)%Q
    by (apply Qdiv_nonneg; [apply Qabs_nonneg | exact Hm]).
  lra.
Qed.

Lemma recall_expr_range (d t : Q) :
  (0 <= d)%Q -> (0 < t)%Q -> in_unit (Qmin 1 (d / t)).
Proof. intros Hd Ht. apply Qmin1_range. now apply Qdiv_nonneg. Qed.

Lemma recall_expr_pos_iff (d t : Q) :
  (0 <= d)%Q -> (0 < t)%Q -> ((0 < Qmin 1 (d / t))%Q <-> (0 < d)%Q).
Proof.
  intros Hd Ht. split.
  - intros H. destruct (Qlt_le_dec 0 d) as [Hp|Hn]; [exact Hp|].
    assert (E : (d == 0)%Q) by lra.
    assert (E' : (d / t == 0)%Q) by (rewrite E; apply Qdiv_zero_l).
    assert (Qmin 1 (d / t) <= d / t)%Q by apply Q.le_min_r. lra.
  - intros H. apply Qmin1_pos. now apply Qdiv_pos.
Qed.

(** ** C1 *)





(** The scoring function of the legacy worker is a different formula:
    it agrees with the document on accuracy, and on recall for a positive
    ground truth, but its precision is [min(1, d/t)] and its recall for a
    zero ground truth is 0 when something was detected. *)
Example legacy_scoring_differs :
  let two := repeat (Enhanced.mkDetection "car" (dec 9 10) []) 2 in
  (exists m, Legacy.calculate_accuracy_metrics two 1 = Ok m /\
             (Legacy.am_precision m == 1)%Q /\
             (Spec.precision 2 1 == dec 5 10)%Q) /\
  (exists m, Legacy.calculate_accuracy_metrics two 0 = Ok m /\
             (Legacy.am_recall m == 0)%Q /\
             (Spec.recall 2 0 == 1)%Q).
Proof.
  split; eexists; (split; [vm_compute; reflexivity|]); split; reflexivity.
Qed.


(** ** C6 *)

(** The five range facts of C6 for one set of scores. *)
Lemma count_scores_in_range (a p r : Q) :
  in_unit a -> in_unit p -> in_unit r -> ((0 < p)%Q <-> (0 < r)%Q) ->
  in_unit a /\ in_unit p /\ in_unit r /\ in_unit (f1_value p r) /\
  ((f1_value p r == 0)%Q <-> (p + r == 0)%Q).
Proof.
  intros Ha Hp Hr Hpr. repeat split; try apply Ha; try apply Hp; try apply Hr.
  - now apply f1_value_range.
  - now apply f1_value_range.
  - apply f1_value_zero_iff; [apply Hp | apply Hr | exact Hpr].
  - apply f1_value_zero_iff; [apply Hp | apply Hr | exact Hpr].
Qed.

(** C6.  For every list of detections and every ground truth count
    [t > 0], the detection-scoring function returns scores with accuracy,
    precision, recall and F1 in [0,1], and F1 is 0 exactly when
    precision + recall is 0.  This holds for the scoring function of the
    enhanced worker and for that of the legacy worker. *)
Theorem detection_scores_in_unit_interval
    (detections : list Enhanced.Detection) (t : Z) :
  0 < t ->
  (exists m,
     Enhanced.calculate_detection_metrics detections t = Ok m /\
     in_unit (Enhanced.dm_accuracy m) /\
     in_unit (Enhanced.dm_precision m) /\
     in_unit (Enhanced.dm_recall m) /\
     in_unit (Enhanced.dm_f1_score m) /\
     ((Enhanced.dm_f1_score m == 0)%Q <->
      (Enhanced.dm_precision m + Enhanced.dm_recall m == 0)%Q)) /\
  (exists m,
     Legacy.calculate_accuracy_metrics detections t = Ok m /\
     in_unit (Legacy.am_accuracy m) /\
     in_unit (Legacy.am_precision m) /\
     in_unit (Legacy.am_recall m) /\
     in_unit (Legacy.am_f1_score m) /\
     ((Legacy.am_f1_score m == 0)%Q <->
      (Legacy.am_precision m + Legacy.am_recall m == 0)%Q)).
Proof.
  intros Ht.
  pose proof (inject_Z_pos t Ht) as Htq.
  pose proof (inject_nat_nonneg (length detections)) as Hd.
  split.
  - rewrite enhanced_metrics_nonzero_truth by lia.
    eexists. split; [reflexivity|]. cbv zeta.
    cbn [Enhanced.dm_accuracy Enhanced.dm_precision Enhanced.dm_recall
         Enhanced.dm_f1_score].
    rewrite py_max_Qmax, !py_min_Qmin.
    apply count_scores_in_range.
    + now apply accuracy_expr_range.
    + destruct (ltb 0 (inject_Z (Z.of_nat (length detections)))) eqn:E.
      * apply ltb_lt in E. apply Qmin1_range. apply Qdiv_nonneg; lra.
      * unfold in_unit. lra.
    + now apply recall_expr_range.
    + rewrite recall_expr_pos_iff by assumption.
      destruct (ltb 0 (inject_Z (Z.of_nat (length detections)))) eqn:E.
      * apply ltb_lt in E. split; intros _; [exact E|].
        apply Qmin1_pos. now apply Qdiv_pos.
      * apply ltb_ge in E. split; intros H; lra.
  - rewrite legacy_metrics_value.
    eexists. split; [reflexivity|]. cbv zeta.
    cbn [Legacy.am_accuracy Legacy.am_precision Legacy.am_recall
         Legacy.am_f1_score].
    assert (Et : (0 <? t) = true) by now apply Z.ltb_lt.
    rewrite Et, py_max_Qmax, !py_min_Qmin.
    apply count_scores_in_range.
    + apply accuracy_expr_range. apply inject_Z_pos. lia.
    + destruct (ltb 0 (inject_Z (Z.of_nat (length detections)))) eqn:E.
      * now apply recall_expr_range.
      * unfold in_unit. lra.
    + now apply recall_expr_range.
    + rewrite recall_expr_pos_iff by assumption.
      destruct (ltb 0 (inject_Z (Z.of_nat (length detections)))) eqn:E.
      * apply recall_expr_pos_iff; assumption.
      * apply ltb_ge in E. split; intros H; lra.
Qed.

Lemma detection_scores_in_unit_interval_witness :
  (exists m,
     Enhanced.calculate_detection_metrics
       (repeat (Enhanced.mkDetection "car" (dec 9 10) []) 5) 2 = Ok m /\
     in_unit (Enhanced.dm_accuracy m) /\
     in_unit (Enhanced.dm_precision m) /\
     in_unit (Enhanced.dm_recall m) /\
     in_unit (Enhanced.dm_f1_score m) /\
     ((Enhanced.dm_f1_score m == 0)%Q <->
      (Enhanced.dm_precision m + Enhanced.dm_recall m == 0)%Q)) /\
  (exists m,
     Legacy.calculate_accuracy_metrics
       (repeat (Enhanced.mkDetection "car" (dec 9 10) []) 5) 2 = Ok m /\
     in_unit (Legacy.am_accuracy m) /\
     in_unit (Legacy.am_precision m) /\
     in_unit (Legacy.am_recall m) /\
     in_unit (Legacy.am_f1_score m) /\
     ((Legacy.am_f1_score m == 0)%Q <->
      (Legacy.am_precision m + Legacy.am_recall m == 0)%Q)).
Proof.
  apply (detection_scores_in_unit_interval
           (repeat (Enhanced.mkDetection "car" (dec 9 10) []) 5) 2).
  lia.
Defined.

(** ** The green score *)

Lemma Qdiv_antitone (n x y : Q) :
  (0 <= n)%Q -> (0 < x)%Q -> (x <= y)%Q -> (n / y <= n / x)%Q.
Proof.
  intros Hn Hx Hxy.
  apply Qle_shift_div_r; [lra|].
  assert (Hq : (0 <= n / x)%Q) by now apply Qdiv_nonneg.
  assert (E : (n / x * x == n)%Q) by (field; lra).
  nra.
Qed.

(** One part as the code computes it: only a non-positive input is
    replaced by the floor.  The result is the same, because between 0 and
    the floor the quotient already exceeds the cap. *)
Lemma part_of_guarded_input (cap k floor x : Q) :
  (0 < cap)%Q -> (0 < floor)%Q -> (floor <= k)%Q ->
  (Qmin cap (cap * (k / (if leb x 0 then floor else x))) == part cap k floor x)%Q.
Proof.
  intros Hcap Hfloor Hk. unfold part.
  destruct (leb x 0) eqn:E.
  - apply leb_le in E.
    assert (Em : (Qmax x floor == floor)%Q) by (apply Q.max_r; lra).
    rewrite Em. apply Q.min_compat; [reflexivity|]. field. lra.
  - apply leb_gt in E.
    destruct (Qlt_le_dec x floor) as [Hlt|Hge].
    + assert (Em : (Qmax x floor == floor)%Q) by (apply Q.max_r; lra).
      rewrite Em.
      assert (H1 : (1 <= k / floor)%Q) by (apply Qle_shift_div_l; lra).
      assert (H2 : (k / floor <= k / x)%Q) by (apply Qdiv_antitone; lra).
      assert (E1 : (cap * k / floor == cap * (k / floor))%Q) by (field; lra).
      rewrite E1.
      rewrite (Q.min_l cap (cap * (k / x))) by nra.
      rewrite (Q.min_l cap (cap * (k / floor))) by nra.
      reflexivity.
    + assert (Em : (Qmax x floor == x)%Q) by (apply Q.max_l; lra).
      rewrite Em. apply Q.min_compat; [reflexivity|]. field. lra.
Qed.

Lemma part_range (cap k floor x : Q) :
  (0 < cap)%Q -> (0 < floor)%Q -> (0 <= k)%Q -> (0 <= part cap k floor x <= cap)%Q.
Proof.
  intros Hcap Hfloor Hk. unfold part. split; [|apply Q.le_min_l].
  assert (Hm : (floor <= Qmax x floor)%Q) by apply Q.le_max_r.
  apply Q.min_glb; [lra|].
  apply Qdiv_nonneg; [nra | lra].
Qed.

Lemma part_antitone (cap k floor x y : Q) :
  (0 < cap)%Q -> (0 < floor)%Q -> (0 <= k)%Q -> (x <= y)%Q ->
  (part cap k floor y <= part cap k floor x)%Q.
Proof.
  intros Hcap Hfloor Hk Hxy. unfold part.
  apply Q.min_le_compat_l.
  assert (Hm : (floor <= Qmax x floor)%Q) by apply Q.le_max_r.
  apply Qdiv_antitone; [nra | lra |].
  now apply Q.max_le_compat_r.
Qed.

Lemma spec_green_score_parts (carbon accuracy speed_ms memory_mb : Q) :
  Spec.green_score carbon accuracy speed_ms memory_mb
  = Qmin 100
      (Qmax 0
         (accuracy * 40 + part 30 1000 1 speed_ms
          + part 20 1000 100 memory_mb
          + part 10 (dec 1 10) (dec 1 1000) carbon)).
Proof. reflexivity. Qed.

(** The code never divides by zero and computes the document's value. *)
Lemma enhanced_green_score_value (carbon accuracy speed_ms memory_mb : Q) :
  exists g,
    Enhanced.calculate_green_score carbon accuracy speed_ms memory_mb = Ok g /\
    (g == Spec.green_score carbon accuracy speed_ms memory_mb)%Q.
Proof.
  unfold Enhanced.calculate_green_score.
  assert (Hs : ~ ((if leb speed_ms 0 then 1 else speed_ms) == 0)%Q).
  { destruct (leb speed_ms 0) eqn:E; [lra|]. apply leb_gt in E. lra. }
  assert (Hm : ~ ((if leb memory_mb 0 then 100 else memory_mb) == 0)%Q).
  { destruct (leb memory_mb 0) eqn:E; [lra|]. apply leb_gt in E. lra. }
  assert (Hc : ~ ((if leb carbon 0 then dec 1 1000 else carbon) == 0)%Q).
  { destruct (leb carbon 0) eqn:E; [unfold dec; lra|]. apply leb_gt in E. lra. }
  rewrite (truediv_ok _ _ Hs). cbn [mbind result_bind Py.bind].
  rewrite (truediv_ok _ _ Hm). cbn [mbind result_bind Py.bind].
  rewrite (truediv_ok _ _ Hc). cbn [mbind result_bind Py.bind].
  eexists. split; [reflexivity|].
  rewrite spec_green_score_parts, py_max_Qmax, !py_min_Qmin.
  rewrite (part_of_guarded_input 30 1000 1 speed_ms) by lra.
  rewrite (part_of_guarded_input 20 1000 100 memory_mb) by lra.
  rewrite (part_of_guarded_input 10 (dec 1 10) (dec 1 1000) carbon)
    by (unfold dec; lra).
  reflexivity.
Qed.

Lemma spec_green_score_range (carbon accuracy speed_ms memory_mb : Q) :
  (0 <= Spec.green_score carbon accuracy speed_ms memory_mb <= 100)%Q.
Proof.
  unfold Spec.green_score. split.
  - apply Q.min_glb; [lra | apply Q.le_max_l].
  - apply Q.le_min_l.
Qed.

Lemma clamp_monotone (x y : Q) :
  (x <= y)%Q -> (Qmin 100 (Qmax 0 x) <= Qmin 100 (Qmax 0 y))%Q.
Proof.
  intros H. apply Q.min_le_compat_l. now apply Q.max_le_compat_l.
Qed.

Lemma spec_green_score_accuracy (carbon speed_ms memory_mb a a' : Q) :
  (a <= a')%Q ->
  (Spec.green_score carbon a speed_ms memory_mb
   <= Spec.green_score carbon a' speed_ms memory_mb)%Q.
Proof.
  intros H. rewrite !spec_green_score_parts. apply clamp_monotone. lra.
Qed.

Lemma spec_green_score_carbon (accuracy speed_ms memory_mb c c' : Q) :
  (c <= c')%Q ->
  (Spec.green_score c' accuracy speed_ms memory_mb
   <= Spec.green_score c accuracy speed_ms memory_mb)%Q.
Proof.
  intros H. rewrite !spec_green_score_parts. apply clamp_monotone.
  assert (part 10 (dec 1 10) (dec 1 1000) c' <= part 10 (dec 1 10) (dec 1 1000) c)%Q
    by (apply part_antitone; unfold dec; lra).
  lra.
Qed.

Lemma spec_green_score_speed (carbon accuracy memory_mb s s' : Q) :
  (s <= s')%Q ->
  (Spec.green_score carbon accuracy s' memory_mb
   <= Spec.green_score carbon accuracy s memory_mb)%Q.
Proof.
  intros H. rewrite !spec_green_score_parts. apply clamp_monotone.
  assert (part 30 1000 1 s' <= part 30 1000 1 s)%Q
    by (apply part_antitone; lra).
  lra.
Qed.

Lemma spec_green_score_memory (carbon accuracy speed_ms m m' : Q) :
  (m <= m')%Q ->
  (Spec.green_score carbon accuracy speed_ms m'
   <= Spec.green_score carbon accuracy speed_ms m)%Q.
Proof.
  intros H. rewrite !spec_green_score_parts. apply clamp_monotone.
  assert (part 20 1000 100 m' <= part 20 1000 100 m)%Q
    by (apply part_antitone; lra).
  lra.
Qed.

(** The three-argument green score of the legacy worker is another
    formula, [min(100, 10 * accuracy / (carbon * speed_ms / 1000))]: it is
    0 where the composite of the enhanced worker is at least 30, and it
    divides by zero for a zero speed. *)
Example legacy_green_score_differs :
  (exists g, Legacy.calculate_green_score 1 0 1000 = Ok g /\ (g == 0)%Q) /\
  Legacy.calculate_green_score 1 (dec 9 10) 0 = Raise ZeroDivisionError /\
  (exists g, Enhanced.calculate_green_score 1 0 1000 100 = Ok g /\ (g == 51)%Q).
Proof.
  split; [eexists; split; [vm_compute; reflexivity | reflexivity]|].
  split; [reflexivity|].
  eexists. split; [vm_compute; reflexivity | reflexivity].
Qed.

(** ** C4 *)

Lemma part_pos (cap k floor x : Q) :
  (0 < cap)%Q -> (0 < floor)%Q -> (0 < k)%Q -> (0 < part cap k floor x)%Q.
Proof.
  intros Hcap Hfloor Hk. unfold part.
  assert (Hm : (floor <= Qmax x floor)%Q) by apply Q.le_max_r.
  assert (Hq : (0 < cap * k / Qmax x floor)%Q) by (apply Qdiv_pos; [nra | lra]).
  destruct (Qmin_case_le cap (cap * k / Qmax x floor)) as [[_ E]|[_ E]];
    rewrite E; lra.
Qed.

(** The document's composite is positive even for a zero accuracy: the
    speed, memory and carbon parts are positive for every input. *)
Lemma spec_green_score_pos (carbon accuracy speed_ms memory_mb : Q) :
  (0 <= accuracy)%Q ->
  (0 < Spec.green_score carbon accuracy speed_ms memory_mb)%Q.
Proof.
  intros Ha. rewrite spec_green_score_parts.
  assert (H1 : (0 < part 30 1000 1 speed_ms)%Q) by (apply part_pos; lra).
  assert (H2 : (0 < part 20 1000 100 memory_mb)%Q) by (apply part_pos; lra).
  assert (H3 : (0 < part 10 (dec 1 10) (dec 1 1000) carbon)%Q)
    by (apply part_pos; unfold dec; lra).
  set (x := (accuracy * 40 + part 30 1000 1 speed_ms
             + part 20 1000 100 memory_mb
             + part 10 (dec 1 10) (dec 1 1000) carbon)%Q).
  assert (Hx : (0 < x)%Q) by (unfold x; lra).
  assert (Hmax : (x <= Qmax 0 x)%Q) by apply Q.le_max_r.
  destruct (Qmin_case_le 100 (Qmax 0 x)) as [[_ E]|[_ E]]; rewrite E; lra.
Qed.

(** C4.  For all inputs the four-argument green-score function of the
    enhanced worker returns (no division by zero), and its result equals
    the document's weighted composite: with carbon raised to at least
    0.001, speed_ms to at least 1.0 and memory_mb to at least 100, the sum
    [accuracy*40 + min(30, 30*1000/speed_ms) + min(20, 20*1000/memory_mb)
     + min(10, 10*0.1/carbon)] clamped into [0,100].  The three-argument
    green-score function of the legacy worker is another function: it
    raises [ZeroDivisionError] for a zero speed_ms, and otherwise returns
    [min(100, 10 * accuracy / (carbon * speed_ms / 1000))], where only a
    non-positive carbon is replaced by 0.001; it has no memory term, no
    floor for the speed and no lower clamp, and for a zero accuracy it is
    0 where the document's composite is positive. *)
Theorem green_score_of_both_workers (carbon accuracy speed_ms memory_mb : Q) :
  (exists g,
     Enhanced.calculate_green_score carbon accuracy speed_ms memory_mb = Ok g /\
     (g == Spec.green_score carbon accuracy speed_ms memory_mb)%Q /\
     (g == Qmin 100
             (Qmax 0
                (accuracy * 40
                 + Qmin 30 (30 * 1000 / Qmax speed_ms 1)
                 + Qmin 20 (20 * 1000 / Qmax memory_mb 100)
                 + Qmin 10 (10 * dec 1 10 / Qmax carbon (dec 1 1000)))))%Q) /\
  ((speed_ms == 0)%Q ->
   Legacy.calculate_green_score carbon accuracy speed_ms
   = Raise ZeroDivisionError) /\
  (~ (speed_ms == 0)%Q ->
   exists g,
     Legacy.calculate_green_score carbon accuracy speed_ms = Ok g /\
     (g == Qmin 100
             (10 * (accuracy
                    / ((if leb carbon 0 then dec 1 1000 else carbon)
                       * speed_ms / 1000))))%Q /\
     (g <= 100)%Q /\
     ((accuracy == 0)%Q ->
      (g == 0)%Q /\
      (0 < Spec.green_score carbon accuracy speed_ms memory_mb)%Q)).
Proof.
  split; [|split].
  - destruct (enhanced_green_score_value carbon accuracy speed_ms memory_mb)
      as (g & Hg & Hspec).
    exists g. split; [exact Hg|]. split; [exact Hspec|].
    rewrite Hspec. unfold Spec.green_score. reflexivity.
  - intros Hs. unfold Legacy.calculate_green_score.
    rewrite (truediv_ok _ 1000) by lra. cbn [mbind result_bind Py.bind].
    rewrite truediv_zero; [reflexivity|]. rewrite Hs. field.
  - intros Hs. unfold Legacy.calculate_green_score.
    set (c := if leb carbon 0 then dec 1 1000 else carbon).
    assert (Hc : (0 < c)%Q).
    { unfold c. destruct (leb carbon 0) eqn:E; [unfold dec; lra|].
      now apply leb_gt in E. }
    assert (Hden : ~ (c * speed_ms / 1000 == 0)%Q).
    { intros H. apply Hs.
      assert (E : (c * speed_ms == 0)%Q).
      { assert (c * speed_ms / 1000 * 1000 == c * speed_ms)%Q by field. lra. }
      nra. }
    rewrite (truediv_ok _ 1000) by lra. cbn [mbind result_bind Py.bind].
    rewrite truediv_ok by exact Hden. cbn [mbind result_bind Py.bind].
    eexists. split; [reflexivity|]. rewrite py_min_Qmin.
    split; [apply Q.min_compat; [reflexivity | ring]|].
    split; [apply Q.le_min_l|].
    intros Ha. split.
    + assert (E : (accuracy / (c * speed_ms / 1000) * 10 == 0)%Q)
        by (rewrite Ha; field; split; [exact Hs | lra]).
      rewrite E. apply Q.min_r. lra.
    + apply spec_green_score_pos. lra.
Qed.

Lemma green_score_of_both_workers_witness :
  Legacy.calculate_green_score (dec 1 1000) (dec 9 10) 0
  = Raise ZeroDivisionError /\
  (exists g,
     Legacy.calculate_green_score 1 0 1000 = Ok g /\
     (g == Qmin 100 (10 * (0 / ((if leb 1 0 then dec 1 1000 else 1) * 1000 / 1000))))%Q /\
     (g <= 100)%Q /\
     ((0 == 0)%Q ->
      (g == 0)%Q /\ (0 < Spec.green_score 1 0 1000 100)%Q)).
Proof.
  split.
  - apply (proj1 (proj2 (green_score_of_both_workers (dec 1 1000) (dec 9 10) 0 100))).
    reflexivity.
  - apply (proj2 (proj2 (green_score_of_both_workers 1 0 1000 100))).
    unfold Qeq; simpl; lia.
Defined.

(** The claim as stated fails for the legacy worker: its green score is
    not the document's composite.  With carbon 1, accuracy 0 and a speed
    of 1000 ms it returns 0 where the composite (for 100 MB) is 51, and
    for a zero speed it raises instead of returning. *)
Lemma legacy_green_score_is_not_the_composite :
  ~ (forall carbon accuracy speed_ms memory_mb : Q,
       exists g,
         Legacy.calculate_green_score carbon accuracy speed_ms = Ok g /\
         (g == Spec.green_score carbon accuracy speed_ms memory_mb)%Q).
Proof.
  intros H. destruct (H 1 0 1000 100)%Q as (g & Hg & He).
  vm_compute in Hg. injection Hg as <-.
  vm_compute in He. discriminate He.
Qed.

(** ** C5 *)

(** C5.  The green score of the enhanced worker always lies in [0,100];
    raising the accuracy alone never lowers it; raising the carbon
    emissions alone, the speed_ms alone or the memory_mb alone never
    raises it. *)
Theorem green_score_monotone_and_bounded
    (carbon accuracy speed_ms memory_mb carbon' accuracy' speed_ms' memory_mb' : Q) :
  (accuracy <= accuracy')%Q -> (carbon <= carbon')%Q ->
  (speed_ms <= speed_ms')%Q -> (memory_mb <= memory_mb')%Q ->
  exists g ga gc gs gm,
    Enhanced.calculate_green_score carbon accuracy speed_ms memory_mb = Ok g /\
    Enhanced.calculate_green_score carbon accuracy' speed_ms memory_mb = Ok ga /\
    Enhanced.calculate_green_score carbon' accuracy speed_ms memory_mb = Ok gc /\
    Enhanced.calculate_green_score carbon accuracy speed_ms' memory_mb = Ok gs /\
    Enhanced.calculate_green_score carbon accuracy speed_ms memory_mb' = Ok gm /\
    (0 <= g <= 100)%Q /\
    (g <= ga)%Q /\ (gc <= g)%Q /\ (gs <= g)%Q /\ (gm <= g)%Q.
Proof.
  intros Ha Hc Hs Hm.
  destruct (enhanced_green_score_value carbon accuracy speed_ms memory_mb)
    as (g & Eg & Hg).
  destruct (enhanced_green_score_value carbon accuracy' speed_ms memory_mb)
    as (ga & Ega & Hga).
  destruct (enhanced_green_score_value carbon' accuracy speed_ms memory_mb)
    as (gc & Egc & Hgc).
  destruct (enhanced_green_score_value carbon accuracy speed_ms' memory_mb)
    as (gs & Egs & Hgs).
  destruct (enhanced_green_score_value carbon accuracy speed_ms memory_mb')
    as (gm & Egm & Hgm).
  exists g, ga, gc, gs, gm.
  repeat (split; [assumption|]).
  rewrite Hg, Hga, Hgc, Hgs, Hgm.
  split; [apply spec_green_score_range|].
  split; [now apply spec_green_score_accuracy|].
  split; [now apply spec_green_score_carbon|].
  split; [now apply spec_green_score_speed|].
  now apply spec_green_score_memory.
Qed.

Lemma green_score_monotone_and_bounded_witness :
  exists g ga gc gs gm,
    Enhanced.calculate_green_score (dec 5 100) (dec 50 100) 2000 5000 = Ok g /\
    Enhanced.calculate_green_score (dec 5 100) (dec 85 100) 2000 5000 = Ok ga /\
    Enhanced.calculate_green_score (dec 50 100) (dec 50 100) 2000 5000 = Ok gc /\
    Enhanced.calculate_green_score (dec 5 100) (dec 50 100) 4000 5000 = Ok gs /\
    Enhanced.calculate_green_score (dec 5 100) (dec 50 100) 2000 8000 = Ok gm /\
    (0 <= g <= 100)%Q /\
    (g <= ga)%Q /\ (gc <= g)%Q /\ (gs <= g)%Q /\ (gm <= g)%Q.
Proof.
  apply (green_score_monotone_and_bounded
           (dec 5 100) (dec 50 100) 2000 5000
           (dec 50 100) (dec 85 100) 4000 8000);
    unfold dec, Qle; simpl; lia.
Defined.

(** ** The model cache *)

(** Unfold the monad of state and exceptions down to pairs. *)
Ltac st_unfold :=
  unfold mbind, St_bind, bindM, get, ret, raise, lift, modify,
    try_except, try_finally;
  cbv beta iota.

Lemma enhanced_constructions_event (c : Ctor) (w : Enhanced.World) :
  Enhanced.constructions (Enhanced.record_event (EvConstruct c) w)
  = S (Enhanced.constructions w).
Proof.
  unfold Enhanced.constructions. cbn [Enhanced.record_event Enhanced.trace].
  now rewrite filter_cons_True.
Qed.

Lemma enhanced_constructions_cache (m : gmap string Model) (w : Enhanced.World) :
  Enhanced.constructions (Enhanced.with_model_cache m w) = Enhanced.constructions w.
Proof. reflexivity. Qed.

Lemma enhanced_load_cached (env : Env) (name : string) (w : Enhanced.World) model :
  Enhanced.model_cache w !! name = Some model ->
  Enhanced.load_model env name w = (Ok model, w).
Proof.
  intros H. unfold Enhanced.load_model. st_unfold. now rewrite H.
Qed.

Lemma enhanced_load_unsupported (env : Env) (name : string) (w : Enhanced.World) :
  Enhanced.model_cache w !! name = None ->
  Enhanced.SUPPORTED_MODELS !! name = None ->
  Enhanced.load_model env name w
  = (Raise (ValueError (String.append "Unsupported model: " name)), w).
Proof.
  intros Hc Hs. unfold Enhanced.load_model. st_unfold. now rewrite Hc, Hs.
Qed.

(** A supported model that is not cached is constructed: the attempt is
    recorded, and the cache is written only when it succeeds. *)
Lemma enhanced_load_fresh
    (env : Env) (name : string) (w : Enhanced.World) (info : Enhanced.ModelInfo) :
  Enhanced.model_cache w !! name = None ->
  Enhanced.SUPPORTED_MODELS !! name = Some info ->
  let c := Enhanced.ctor_of env info in
  let n := Enhanced.constructions w in
  let w' := Enhanced.record_event (EvConstruct c) w in
  Enhanced.load_model env name w
  = match Enhanced.construction_failure env c n with
    | Some e => (Raise e, w')
    | None =>
        (Ok (mkModel c n),
         Enhanced.with_model_cache
           (<[name := mkModel c n]> (Enhanced.model_cache w)) w')
    end.
Proof.
  intros Hc Hs. unfold Enhanced.load_model. st_unfold. rewrite Hc, Hs.
  unfold Enhanced.construct, Enhanced.emit, Enhanced.set_model_cache.
  st_unfold.
  destruct (Enhanced.construction_failure env (Enhanced.ctor_of env info)
              (Enhanced.constructions w)); reflexivity.
Qed.

Lemma legacy_constructions_event (c : Ctor) (w : Legacy.World) :
  Legacy.constructions (Legacy.record_event (EvConstruct c) w)
  = S (Legacy.constructions w).
Proof.
  unfold Legacy.constructions. cbn [Legacy.record_event Legacy.trace].
  now rewrite filter_cons_True.
Qed.

Lemma legacy_constructions_cache (m : gmap string Model) (w : Legacy.World) :
  Legacy.constructions (Legacy.with_models_cache m w) = Legacy.constructions w.
Proof. reflexivity. Qed.

Lemma legacy_load_cached (env : Env) (name : string) (w : Legacy.World) model :
  Legacy.models_cache w !! name = Some model ->
  Legacy.load_model env name w = (Ok model, w).
Proof.
  intros H. unfold Legacy.load_model. st_unfold. now rewrite H.
Qed.

Lemma legacy_load_fresh (env : Env) (name : string) (w : Legacy.World) :
  Legacy.models_cache w !! name = None ->
  let n := Legacy.constructions w in
  Legacy.load_model env name w
  = match legacy_plan env name with
    | Raise e => (Raise e, w)
    | Ok c =>
        let w' := Legacy.record_event (EvConstruct c) w in
        match construct_fails env c n with
        | Some e => (Raise e, w')
        | None =>
            (Ok (mkModel c n),
             Legacy.with_models_cache
               (<[name := mkModel c n]> (Legacy.models_cache w)) w')
        end
    end.
Proof.
  intros Hc. unfold Legacy.load_model, legacy_plan. st_unfold. rewrite Hc.
  unfold Legacy.registry_argument, Legacy.construct, Legacy.emit,
    Legacy.set_models_cache.
  st_unfold.
  repeat match goal with
         | |- context [if ?b then _ else _] => destruct b
         end;
    try reflexivity;
    destruct (Legacy.SUPPORTED_MODELS !! name) as [[file|]|];
    cbn [mbind result_bind Py.bind]; try reflexivity;
    match goal with
    | |- context [construct_fails ?e ?c ?n] => destruct (construct_fails e c n)
    end; reflexivity.
Qed.

(** ** C9 *)

(** C9.  For both loaders, every model name and every state of the
    process.  If [load_model] returns a handle, the handle is in the cache
    under that name, and a second call with the same name returns that
    same handle and changes nothing: if the name was cached already, the
    first call returned the cached handle and changed nothing either; if
    it was not, the first call made exactly one construction attempt,
    which succeeded, and stored the new handle, so that the two calls
    together construct once.  If [load_model] raises, the name was not
    cached and the cache is exactly what it was: either the call was
    refused before any construction (an unknown name), nothing changed
    and a retry is refused alike, or one construction was attempted and
    failed with the exception raised, and a retry attempts the
    construction again, returning the new handle if the framework now
    succeeds and raising its exception otherwise. *)
Theorem model_cache_idempotent_and_failure_atomic (env : Env) (name : string) :
  (forall w : Enhanced.World,
     match Enhanced.load_model env name w with
     | (Ok model, w1) =>
         Enhanced.load_model env name w1 = (Ok model, w1) /\
         (Enhanced.constructions w1 <= S (Enhanced.constructions w))%nat /\
         Enhanced.model_cache w1 !! name = Some model /\
         match Enhanced.model_cache w !! name with
         | Some cached => model = cached /\ w1 = w
         | None =>
             Enhanced.constructions w1 = S (Enhanced.constructions w) /\
             Enhanced.model_cache w1
             = <[name := model]> (Enhanced.model_cache w) /\
             exists info,
               Enhanced.SUPPORTED_MODELS !! name = Some info /\
               Enhanced.construction_failure
                 env (Enhanced.ctor_of env info) (Enhanced.constructions w)
               = None /\
               model = mkModel (Enhanced.ctor_of env info)
                               (Enhanced.constructions w)
         end
     | (Raise e, w1) =>
         Enhanced.model_cache w1 = Enhanced.model_cache w /\
         (Enhanced.constructions (Enhanced.load_model env name w1).2
          + Enhanced.constructions w
          = Enhanced.constructions w1 + Enhanced.constructions w1)%nat /\
         (is_Some (Enhanced.SUPPORTED_MODELS !! name) <->
          Enhanced.constructions w1 = S (Enhanced.constructions w)) /\
         Enhanced.model_cache w !! name = None /\
         match Enhanced.SUPPORTED_MODELS !! name with
         | None =>
             w1 = w /\
             e = ValueError (String.append "Unsupported model: " name)
         | Some info =>
             let c := Enhanced.ctor_of env info in
             let n := Enhanced.constructions w in
             Enhanced.constructions w1 = S n /\
             Enhanced.construction_failure env c n = Some e /\
             Enhanced.constructions (Enhanced.load_model env name w1).2
             = S (S n) /\
             (Enhanced.load_model env name w1).1
             = match Enhanced.construction_failure env c (S n) with
               | Some e' => Raise e'
               | None => Ok (mkModel c (S n))
               end
         end
     end) /\
  (forall w : Legacy.World,
     match Legacy.load_model env name w with
     | (Ok model, w1) =>
         Legacy.load_model env name w1 = (Ok model, w1) /\
         (Legacy.constructions w1 <= S (Legacy.constructions w))%nat /\
         Legacy.models_cache w1 !! name = Some model /\
         match Legacy.models_cache w !! name with
         | Some cached => model = cached /\ w1 = w
         | None =>
             Legacy.constructions w1 = S (Legacy.constructions w) /\
             Legacy.models_cache w1
             = <[name := model]> (Legacy.models_cache w) /\
             exists c,
               legacy_plan env name = Ok c /\
               construct_fails env c (Legacy.constructions w) = None /\
               model = mkModel c (Legacy.constructions w)
         end
     | (Raise e, w1) =>
         Legacy.models_cache w1 = Legacy.models_cache w /\
         (Legacy.constructions (Legacy.load_model env name w1).2
          + Legacy.constructions w
          = Legacy.constructions w1 + Legacy.constructions w1)%nat /\
         Legacy.models_cache w !! name = None /\
         match legacy_plan env name with
         | Raise e' => w1 = w /\ e = e'
         | Ok c =>
             let n := Legacy.constructions w in
             Legacy.constructions w1 = S n /\
             construct_fails env c n = Some e /\
             Legacy.constructions (Legacy.load_model env name w1).2
             = S (S n) /\
             (Legacy.load_model env name w1).1
             = match construct_fails env c (S n) with
               | Some e' => Raise e'
               | None => Ok (mkModel c (S n))
               end
         end
     end).
Proof.
  split; intros w.
  - destruct (Enhanced.model_cache w !! name) as [m|] eqn:Hc.
    { rewrite (enhanced_load_cached env name w m Hc).
      split; [now apply enhanced_load_cached|]. split; [lia|].
      split; [exact Hc|]. split; reflexivity. }
    destruct (Enhanced.SUPPORTED_MODELS !! name) as [info|] eqn:Hs.
    + rewrite (enhanced_load_fresh env name w info Hc Hs). cbv zeta.
      destruct (Enhanced.construction_failure env (Enhanced.ctor_of env info)
                  (Enhanced.constructions w)) as [e|] eqn:Hf.
      * split; [reflexivity|].
        rewrite (enhanced_load_fresh env name _ info) by (exact Hc || exact Hs).
        cbv zeta. rewrite enhanced_constructions_event.
        split.
        { destruct (Enhanced.construction_failure env (Enhanced.ctor_of env info)
                      (S (Enhanced.constructions w)));
            cbn [snd];
            rewrite ?enhanced_constructions_cache, ?enhanced_constructions_event;
            lia. }
        split; [split; [reflexivity | eauto]|].
        split; [reflexivity|]. split; [reflexivity|]. split; [reflexivity|].
        destruct (Enhanced.construction_failure env (Enhanced.ctor_of env info)
                    (S (Enhanced.constructions w)));
          cbn [fst snd];
          rewrite ?enhanced_constructions_cache, ?enhanced_constructions_event;
          split; reflexivity.
      * split; [apply enhanced_load_cached; cbn; apply lookup_insert_eq|].
        rewrite enhanced_constructions_cache, enhanced_constructions_event.
        split; [lia|].
        split; [cbn; apply lookup_insert_eq|].
        split; [reflexivity|]. split; [reflexivity|].
        exists info. repeat split. exact Hf.
    + rewrite (enhanced_load_unsupported env name w Hc Hs).
      split; [reflexivity|].
      rewrite (enhanced_load_unsupported env name w Hc Hs). cbn [snd].
      split; [lia|]. split.
      * split; [intros [x Hx]; discriminate | intros H; lia].
      * repeat split.
  - destruct (Legacy.models_cache w !! name) as [m|] eqn:Hc.
    { rewrite (legacy_load_cached env name w m Hc).
      split; [now apply legacy_load_cached|]. split; [lia|].
      split; [exact Hc|]. split; reflexivity. }
    rewrite (legacy_load_fresh env name w Hc). cbv zeta.
    destruct (legacy_plan env name) as [c|e] eqn:Hp.
    + destruct (construct_fails env c (Legacy.constructions w)) as [e|] eqn:Hf.
      * split; [reflexivity|].
        rewrite (legacy_load_fresh env name _) by exact Hc.
        cbv zeta. rewrite Hp, legacy_constructions_event.
        split.
        { destruct (construct_fails env c (S (Legacy.constructions w)));
            cbn [snd];
            rewrite ?legacy_constructions_cache, ?legacy_constructions_event;
            lia. }
        split; [reflexivity|]. split; [reflexivity|]. split; [reflexivity|].
        destruct (construct_fails env c (S (Legacy.constructions w)));
          cbn [fst snd];
          rewrite ?legacy_constructions_cache, ?legacy_constructions_event;
          split; reflexivity.
      * split; [apply legacy_load_cached; cbn; apply lookup_insert_eq|].
        rewrite legacy_constructions_cache, legacy_constructions_event.
        split; [lia|].
        split; [cbn; apply lookup_insert_eq|].
        split; [reflexivity|]. split; [reflexivity|].
        exists c. repeat split. exact Hf.
    + split; [reflexivity|].
      rewrite (legacy_load_fresh env name w Hc). cbv zeta. rewrite Hp.
      cbn [snd]. split; [lia|]. repeat split.
Qed.

(** The loader on a machine whose first construction fails: the failed
    load leaves the cache empty, the retry constructs again and succeeds,
    and the third call returns the cached handle without constructing. *)
Example enhanced_loader_retry_then_cached :
  let '(r1, w1) := Enhanced.load_model flaky_env "Trained_yolov8" Enhanced.initial_world in
  let '(r2, w2) := Enhanced.load_model flaky_env "Trained_yolov8" w1 in
  let '(r3, w3) := Enhanced.load_model flaky_env "Trained_yolov8" w2 in
  r1 = Raise (OSError "weights file not found") /\
  Enhanced.model_cache w1 = ∅ /\
  r2 = Ok (mkModel (YOLO "yolov8s.pt") 1) /\
  r3 = r2 /\
  w3 = w2 /\
  Enhanced.constructions w3 = 2%nat.
Proof. vm_compute. repeat split. Qed.

Example legacy_loader_retry_then_cached :
  let '(r1, w1) := Legacy.load_model flaky_env "Trained_yolov8" Legacy.initial_world in
  let '(r2, w2) := Legacy.load_model flaky_env "Trained_yolov8" w1 in
  let '(r3, w3) := Legacy.load_model flaky_env "Trained_yolov8" w2 in
  r1 = Raise (OSError "weights file not found") /\
  Legacy.models_cache w1 = ∅ /\
  r2 = Ok (mkModel (YOLO "yolov8s.pt") 1) /\
  r3 = r2 /\
  w3 = w2 /\
  Legacy.constructions w3 = 2%nat.
Proof. vm_compute. repeat split. Qed.

(** The legacy loader has no registry check of its own: a non-vision
    registry name is refused, a name that merely looks like a detector is
    a missing key. *)
Example legacy_loader_unsupported :
  (Legacy.load_model lab_env "roberta_base" Legacy.initial_world).1
  = Raise (ValueError "Unsupported vision model: roberta_base") /\
  (Legacy.load_model lab_env "my_yolov5" Legacy.initial_world).1
  = Raise (KeyError "my_yolov5").
Proof. vm_compute. split; reflexivity. Qed.

(** ** Running computations *)

Lemma st_bind_ok {S A B : Type} (c : St S A) (k : A -> St S B) (w w' : S) (a : A) :
  c w = (Ok a, w') -> (c ≫= k) w = k a w'.
Proof. intros H. unfold mbind, St_bind, bindM. now rewrite H. Qed.

Lemma st_bind_raise {S A B : Type} (c : St S A) (k : A -> St S B) (w w' : S) e :
  c w = (Raise e, w') -> (c ≫= k) w = (Raise e, w').
Proof. intros H. unfold mbind, St_bind, bindM. now rewrite H. Qed.

Lemma st_bind_ret {S A B : Type} (a : A) (k : A -> St S B) (w : S) :
  (ret a ≫= k) w = k a w.
Proof. reflexivity. Qed.

(** ** C7 *)

(** C7.  For every job whose [images_data] is empty (or absent), either
    handler returns the error record "No images provided for benchmarking"
    (with status "failed" in the enhanced worker) and leaves the process
    exactly as it was: no database connection, no monitor, no model load,
    no benchmark. *)
Theorem empty_batch_fails_before_any_work :
  (forall (env : Env) (job : Enhanced.Job) (w : Enhanced.World),
     enhanced_images_data job = [] ->
     Enhanced.handler env job w
     = (Ok (Enhanced.Failed "No images provided for benchmarking" false), w)) /\
  (forall (env : Env) (job : Legacy.Job) (w : Legacy.World),
     legacy_images_data job = [] ->
     Legacy.handler env job w
     = (Ok (Legacy.Error "No images provided for benchmarking"), w)).
Proof.
  split; intros env job w H.
  - unfold Enhanced.handler, enhanced_images_data in *. cbv zeta.
    unfold try_except. now rewrite H.
  - unfold Legacy.handler, legacy_images_data in *. cbv zeta.
    unfold try_except. now rewrite H.
Qed.

Lemma empty_batch_fails_before_any_work_witness :
  Enhanced.handler lab_env (job_of "Trained_yolov5" "efficientnet_b0" [])
    Enhanced.initial_world
  = (Ok (Enhanced.Failed "No images provided for benchmarking" false),
     Enhanced.initial_world) /\
  Legacy.handler lab_env (Legacy.mkJob None) Legacy.initial_world
  = (Ok (Legacy.Error "No images provided for benchmarking"),
     Legacy.initial_world).
Proof.
  split.
  - apply (proj1 empty_batch_fails_before_any_work). reflexivity.
  - apply (proj2 empty_batch_fails_before_any_work). reflexivity.
Defined.

(** ** C8 *)

Lemma not_cached_outside_registry (w : Enhanced.World) (name : string) :
  cache_within_registry w ->
  Enhanced.SUPPORTED_MODELS !! name = None ->
  Enhanced.model_cache w !! name = None.
Proof.
  intros Hw Hs. apply not_elem_of_dom. intros Hin.
  apply Hw in Hin. apply elem_of_dom in Hin. rewrite Hs in Hin.
  destruct Hin as [x Hx]. discriminate.
Qed.

(** The loader keeps the cache inside the registry. *)
Lemma load_model_keeps_cache_within_registry
    (env : Env) (name : string) (w : Enhanced.World) :
  cache_within_registry w ->
  cache_within_registry (Enhanced.load_model env name w).2.
Proof.
  intros Hw.
  destruct (Enhanced.model_cache w !! name) as [m|] eqn:Hc.
  { now rewrite (enhanced_load_cached env name w m Hc). }
  destruct (Enhanced.SUPPORTED_MODELS !! name) as [info|] eqn:Hs.
  - rewrite (enhanced_load_fresh env name w info Hc Hs). cbv zeta.
    destruct (Enhanced.construction_failure _ _ _); [exact Hw|].
    unfold cache_within_registry in *. cbn. rewrite dom_insert_L.
    apply union_subseteq. split; [|exact Hw].
    apply singleton_subseteq_l. apply elem_of_dom. eauto.
  - now rewrite (enhanced_load_unsupported env name w Hc Hs).
Qed.

(** C8 (as the code has it).  In a process whose cache holds registry
    names only, a benchmark run for a name outside the registry raises
    the unsupported-model error; it constructs no model, opens no image
    and never asks the monitor for its readings (no aggregation).  The
    monitor, however, is started before the model is looked up and is
    stopped again on the way out: the run adds exactly the two events
    "monitor started" and "monitor stopped". *)
Theorem unsupported_model_run
    (env : Env) (name : string) (images : list Enhanced.ImageData)
    (w : Enhanced.World) :
  cache_within_registry w ->
  Enhanced.SUPPORTED_MODELS !! name = None ->
  exists w',
    Enhanced.benchmark_model env name images w
    = (Raise (ValueError (String.append "Unsupported model: " name)), w') /\
    Enhanced.trace w' = EvMonitorStop :: EvMonitorStart :: Enhanced.trace w /\
    Enhanced.monitoring w' = false /\
    Enhanced.model_cache w' = Enhanced.model_cache w /\
    Enhanced.constructions w' = Enhanced.constructions w.
Proof.
  intros Hw Hs.
  pose proof (not_cached_outside_registry w name Hw Hs) as Hc.
  unfold Enhanced.benchmark_model, Enhanced.start_monitoring,
    Enhanced.stop_monitoring, Enhanced.set_monitoring, Enhanced.emit.
  st_unfold.
  rewrite (enhanced_load_unsupported env name _) by (exact Hc || exact Hs).
  cbv beta iota.
  eexists. split; [reflexivity|]. repeat split.
Qed.

Lemma unsupported_model_run_witness :
  exists w',
    Enhanced.benchmark_model lab_env "resnet50" [picture "street_1.jpg" 2]
      Enhanced.initial_world
    = (Raise (ValueError "Unsupported model: resnet50"), w') /\
    Enhanced.trace w' = [EvMonitorStop; EvMonitorStart] /\
    Enhanced.monitoring w' = false /\
    Enhanced.model_cache w' = ∅ /\
    Enhanced.constructions w' = 0%nat.
Proof.
  apply (unsupported_model_run lab_env "resnet50" [picture "street_1.jpg" 2]
           Enhanced.initial_world).
  - unfold cache_within_registry. cbn. set_solver.
  - reflexivity.
Defined.

(** The claim as stated fails: the run for an unregistered name does
    start the monitor. *)
Lemma unsupported_model_run_starts_monitor :
  exists e w',
    Enhanced.benchmark_model lab_env "resnet50" [picture "street_1.jpg" 2]
      Enhanced.initial_world = (Raise e, w') /\
    In EvMonitorStart (Enhanced.trace w').
Proof.
  eexists. eexists. split; [vm_compute; reflexivity|].
  cbn. right. left. reflexivity.
Qed.

(** ** C3 *)

Lemma preprocess_image_raises
    (env : Env) (r : ImageRef) (name : string) (w : Enhanced.World) e :
  image_open env r = Raise e ->
  Enhanced.preprocess_image env r name w
  = (Raise e, Enhanced.record_event (EvImageOpen r) w).
Proof.
  intros H. unfold Enhanced.preprocess_image, Enhanced.emit. st_unfold.
  now rewrite H.
Qed.

Lemma preprocess_image_returns
    (env : Env) (r : ImageRef) (name : string) (w : Enhanced.World) pic :
  image_open env r = Ok pic ->
  exists img,
    Enhanced.preprocess_image env r name w
    = (Ok img, Enhanced.record_event (EvImageOpen r) w).
Proof.
  intros H. unfold Enhanced.preprocess_image, Enhanced.emit. st_unfold.
  rewrite H. eexists. reflexivity.
Qed.

(** Detection is best effort: [detect_cars] never raises. *)
Lemma detect_cars_returns
    (env : Env) (model : Model) (img : Image) (name : string) (w : Enhanced.World) :
  exists ds w', Enhanced.detect_cars env model img name w = (Ok ds, w').
Proof.
  unfold Enhanced.detect_cars, Enhanced.emit. st_unfold.
  repeat match goal with
         | |- context [if ?b then _ else _] => destruct b
         end;
    try (eexists; eexists; reflexivity);
    destruct (model_call env model img) as [[bs|p]|e];
    try (eexists; eexists; reflexivity);
    destruct (ltb (dec 3 10) p); eexists; eexists; reflexivity.
Qed.

(** The loop has no handler of its own: an image that cannot be opened
    ends it with an exception, whatever came before. *)
Lemma process_images_raises
    (env : Env) (model : Model) (name : string) (images : list Enhanced.ImageData) :
  (exists d, In d images /\ undecodable env d) ->
  forall i st w,
    exists e w', Enhanced.process_images env model name images i st w = (Raise e, w').
Proof.
  induction images as [|d0 rest IH]; intros (d & Hin & Hbad) i st w.
  { destruct Hin. }
  cbn [Enhanced.process_images].
  destruct (Enhanced.image d0) as [r|] eqn:Hr.
  2:{ eexists. eexists. apply st_bind_raise. reflexivity. }
  destruct (image_open env r) as [pic|e] eqn:Hopen.
  2:{ exists e. eexists. rewrite st_bind_ret.
      apply st_bind_raise. apply preprocess_image_raises. exact Hopen. }
  destruct (preprocess_image_returns env r name w pic Hopen) as (img & Himg).
  destruct (detect_cars_returns env model img name
              (Enhanced.record_event (EvImageOpen r) w)) as (ds & w1 & Hds).
  assert (Hrest : exists d, In d rest /\ undecodable env d).
  { destruct Hin as [<-|Hin].
    - destruct Hbad as (r' & e & Hr' & He). congruence.
    - exists d. split; assumption. }
  destruct (IH Hrest (S i)
              {| Enhanced.all_detections := Enhanced.all_detections st ++ ds;
                 Enhanced.inference_times :=
                   Enhanced.inference_times st ++ [image_ms env name i];
                 Enhanced.total_ground_truth :=
                   Enhanced.total_ground_truth st
                   + default 1 (Enhanced.ground_truth_cars d0);
                 Enhanced.loop_inference_count :=
                   S (Enhanced.loop_inference_count st) |} w1)
    as (e & w2 & Hloop).
  exists e, w2.
  rewrite st_bind_ret.
  rewrite (st_bind_ok _ _ _ _ _ Himg).
  rewrite (st_bind_ok _ _ _ _ _ Hds).
  exact Hloop.
Qed.

Lemma benchmark_model_raises_on_undecodable
    (env : Env) (name : string) (images : list Enhanced.ImageData)
    (w : Enhanced.World) :
  (exists d, In d images /\ undecodable env d) ->
  exists e w',
    Enhanced.benchmark_model env name images w = (Raise e, w') /\
    Enhanced.monitoring w' = false.
Proof.
  intros Hbad. unfold Enhanced.benchmark_model.
  destruct (Enhanced.load_model env name
              (Enhanced.record_event EvMonitorStart
                 (Enhanced.with_monitoring true w)))
    as [[model|e] w1] eqn:Hload.
  - destruct (process_images_raises env model name images Hbad 0%nat
                (Enhanced.mkLoopState [] [] 0 0) w1) as (e & w2 & Hloop).
    exists e. eexists.
    rewrite (st_bind_ok Enhanced.start_monitoring _ w _ tt eq_refl).
    unfold try_finally, try_except.
    rewrite (st_bind_ok _ _ _ _ _ Hload).
    rewrite (st_bind_raise _ _ _ _ _ Hloop).
    split; reflexivity.
  - exists e. eexists.
    rewrite (st_bind_ok Enhanced.start_monitoring _ w _ tt eq_refl).
    unfold try_finally, try_except.
    rewrite (st_bind_raise _ _ _ _ _ Hload).
    split; reflexivity.
Qed.

Lemma connect_returns (env : Env) (w : Enhanced.World) :
  exists b w', Enhanced.connect env w = (Ok b, w').
Proof.
  unfold Enhanced.connect, Enhanced.emit, Enhanced.set_db. st_unfold.
  destruct (db_connect_ok env); eexists; eexists; reflexivity.
Qed.

(** C3 (as the code has it).  A batch that contains an image whose
    reference cannot be opened or decoded is not finished: the benchmark
    run raises (it returns no metrics, hence no inference count), the
    monitor is stopped, and the handler answers with the error record of
    its [except] clause, status "failed", instead of a comparison. *)
Theorem undecodable_image_fails_job
    (env : Env) (job : Enhanced.Job) (w : Enhanced.World) :
  (exists d, In d (enhanced_images_data job) /\ undecodable env d) ->
  (forall name w0,
     exists e w',
       Enhanced.benchmark_model env name (enhanced_images_data job) w0
       = (Raise e, w') /\
       Enhanced.monitoring w' = false) /\
  (exists msg w',
     Enhanced.handler env job w = (Ok (Enhanced.Failed msg true), w')).
Proof.
  intros Hbad. split.
  { intros name w0. now apply benchmark_model_raises_on_undecodable. }
  unfold Enhanced.handler. cbv zeta.
  fold (enhanced_images_data job).
  destruct (enhanced_images_data job) as [|d0 rest] eqn:Himgs.
  { destruct Hbad as (d & [] & _). }
  destruct (connect_returns env w) as (b & w1 & Hconn).
  destruct (benchmark_model_raises_on_undecodable env
              (default "Trained_yolov5"
                 (Enhanced.ji_model_a
                    (default (Enhanced.mkJobInput None None None None)
                       (Enhanced.job_input job))))
              (d0 :: rest) w1 Hbad) as (e & w2 & Hrun & _).
  exists (str e), w2.
  unfold try_except at 1.
  rewrite (st_bind_ok _ _ _ _ _ Hconn).
  rewrite (st_bind_raise _ _ _ _ _ Hrun).
  reflexivity.
Qed.

Lemma undecodable_image_fails_job_witness :
  (forall name w0,
     exists e w',
       Enhanced.benchmark_model lab_env name batch_with_corrupt_image w0
       = (Raise e, w') /\
       Enhanced.monitoring w' = false) /\
  (exists msg w',
     Enhanced.handler lab_env
       (job_of "Trained_yolov5" "efficientnet_b0" batch_with_corrupt_image)
       Enhanced.initial_world
     = (Ok (Enhanced.Failed msg true), w')).
Proof.
  apply (undecodable_image_fails_job lab_env
           (job_of "Trained_yolov5" "efficientnet_b0" batch_with_corrupt_image)
           Enhanced.initial_world).
  exists (picture "corrupt.jpg" 1). split.
  - cbn. right. left. reflexivity.
  - exists (Path "corrupt.jpg"), (OSError "cannot identify image file 'corrupt.jpg'").
    split; reflexivity.
Defined.

(** The claim as stated fails: with exactly one undecodable image in a
    batch of three, the job does not complete with two inferences; it
    fails with that image's error. *)
Lemma corrupt_image_job_is_not_completed :
  exists w',
    Enhanced.handler lab_env
      (job_of "Trained_yolov5" "efficientnet_b0" batch_with_corrupt_image)
      Enhanced.initial_world
    = (Ok (Enhanced.Failed "cannot identify image file 'corrupt.jpg'" true), w').
Proof. eexists. vm_compute. reflexivity. Qed.

(** ** C2 *)

Lemma composite_score_value (m : Enhanced.Metrics) :
  exists s,
    Enhanced.composite_score m = Ok s /\
    (s == Spec.composite (Enhanced.accuracy m) (Enhanced.speed_ms m)
            (Enhanced.green_score m))%Q.
Proof.
  unfold Enhanced.composite_score.
  assert (H1 : (1 <= Py.max (Enhanced.speed_ms m) 1)%Q)
    by (rewrite py_max_Qmax; apply Q.le_max_r).
  rewrite truediv_ok by lra. cbn [mbind result_bind Py.bind].
  eexists. split; [reflexivity|].
  unfold Spec.composite. rewrite py_max_Qmax. reflexivity.
Qed.

(** C2 (as the arithmetic has it).  For model A with accuracy 0.87,
    42.3 ms and green score 78.4 against model B with accuracy 0.82,
    38.7 ms and green score 82.1, the composite formula of the job handler
    gives score A = 7.675... and score B = 8.326..., so the handler names
    model B the winner: the speed term [1000/speed_ms * 0.3] is about 7.09
    for A and 7.75 for B and outweighs the other two terms. *)
Theorem scenario3_winner_is_model_b :
  exists score_a score_b,
    Enhanced.composite_score scenario3_a = Ok score_a /\
    Enhanced.composite_score scenario3_b = Ok score_b /\
    (score_a == Spec.composite (dec 87 100) (dec 423 10) (dec 784 10))%Q /\
    (score_b == Spec.composite (dec 82 100) (dec 387 10) (dec 821 10))%Q /\
    (dec 7675 1000 < score_a < dec 7676 1000)%Q /\
    (dec 8326 1000 < score_b < dec 8327 1000)%Q /\
    Enhanced.pick_winner "model A" "model B" score_a score_b
    = ("model B", "Better overall performance").
Proof.
  eexists. eexists.
  split; [vm_compute; reflexivity|].
  split; [vm_compute; reflexivity|].
  repeat split; vm_compute; reflexivity.
Qed.

(** The claim as stated fails: the handler's formula does not make
    model A the winner of scenario 3. *)
Lemma scenario3_winner_is_not_model_a :
  ~ (exists score_a score_b,
       Enhanced.composite_score scenario3_a = Ok score_a /\
       Enhanced.composite_score scenario3_b = Ok score_b /\
       fst (Enhanced.pick_winner "model A" "model B" score_a score_b) = "model A").
Proof.
  intros (sa & sb & Ha & Hb & Hw).
  vm_compute in Ha. vm_compute in Hb.
  injection Ha as <-. injection Hb as <-.
  vm_compute in Hw. discriminate.
Qed.

(** ** C10 *)

Lemma persisted_winner_cases (ma mb : Enhanced.Metrics) :
  ((Enhanced.accuracy mb < Enhanced.accuracy ma)%Q /\
   Enhanced.persisted_winner ma mb = "model_a") \/
  ((Enhanced.accuracy ma < Enhanced.accuracy mb)%Q /\
   Enhanced.persisted_winner ma mb = "model_b") \/
  ((Enhanced.accuracy ma == Enhanced.accuracy mb)%Q /\
   Enhanced.persisted_winner ma mb = "tie").
Proof.
  unfold Enhanced.persisted_winner.
  destruct (ltb (Enhanced.accuracy mb) (Enhanced.accuracy ma)) eqn:E1.
  { left. split; [now apply ltb_lt | reflexivity]. }
  destruct (ltb (Enhanced.accuracy ma) (Enhanced.accuracy mb)) eqn:E2.
  { right. left. split; [now apply ltb_lt | reflexivity]. }
  right. right. apply ltb_ge in E1, E2. split; [lra | reflexivity].
Qed.

(** What [save_benchmark_results] does on an open connection. *)
Lemma save_benchmark_results_row
    (env : Env) (a b : string) (ma mb : Enhanced.Metrics)
    (tc : Enhanced.TestConfig) (w : Enhanced.World) :
  Enhanced.db_connection w = true ->
  db_execute_fails env = None ->
  exists row w',
    Enhanced.save_benchmark_results env a b ma mb tc w = (Ok true, w') /\
    Enhanced.db_rows w' = Enhanced.db_rows w ++ [row] /\
    Enhanced.row_metrics_a row = ma /\
    Enhanced.row_metrics_b row = mb /\
    Enhanced.row_winner row = Enhanced.persisted_winner ma mb /\
    Enhanced.row_win_margin row
    = (Qabs (Enhanced.accuracy ma - Enhanced.accuracy mb) * 100)%Q.
Proof.
  intros Hconn Hexec.
  unfold Enhanced.save_benchmark_results, Enhanced.emit, Enhanced.set_db.
  st_unfold. rewrite Hconn, Hexec. cbn [negb]. cbv beta iota.
  eexists. eexists. split; [reflexivity|]. repeat split.
Qed.

(** C10.  The winner written to the database row is decided by the two
    accuracies alone: "model_a" if A's accuracy is larger, "model_b" if
    B's is larger, "tie" if they are equal, with win margin
    [|accuracy_a - accuracy_b| * 100]; two pairs of metrics with the same
    accuracies get the same persisted winner whatever their speed and
    green score.  The winner of the returned job result comes from the
    composite score instead, and the two can name different models: on
    the machine [lab_env], for the classifier against the detector on one
    picture with two cars, the job result names model A (the faster,
    less accurate classifier) while the row it saves says "model_b". *)
Theorem persisted_winner_ignores_composite_score :
  (forall ma mb : Enhanced.Metrics,
     (Enhanced.persisted_winner ma mb = "model_a" <->
      (Enhanced.accuracy mb < Enhanced.accuracy ma)%Q) /\
     (Enhanced.persisted_winner ma mb = "model_b" <->
      (Enhanced.accuracy ma < Enhanced.accuracy mb)%Q) /\
     (Enhanced.persisted_winner ma mb = "tie" <->
      (Enhanced.accuracy ma == Enhanced.accuracy mb)%Q)) /\
  (forall ma mb ma' mb' : Enhanced.Metrics,
     Enhanced.accuracy ma = Enhanced.accuracy ma' ->
     Enhanced.accuracy mb = Enhanced.accuracy mb' ->
     Enhanced.persisted_winner ma mb = Enhanced.persisted_winner ma' mb') /\
  (forall (env : Env) (a b : string) (ma mb : Enhanced.Metrics)
          (tc : Enhanced.TestConfig) (w : Enhanced.World),
     Enhanced.db_connection w = true ->
     db_execute_fails env = None ->
     exists row w',
       Enhanced.save_benchmark_results env a b ma mb tc w = (Ok true, w') /\
       Enhanced.db_rows w' = Enhanced.db_rows w ++ [row] /\
       Enhanced.row_winner row = Enhanced.persisted_winner ma mb /\
       Enhanced.row_win_margin row
       = (Qabs (Enhanced.accuracy ma - Enhanced.accuracy mb) * 100)%Q) /\
  (exists details ma mb n row w',
     Enhanced.handler lab_env
       (job_of "efficientnet_b0" "Trained_yolov5" [picture "street_1.jpg" 2])
       Enhanced.initial_world
     = (Ok (Enhanced.Completed "efficientnet_b0" details
              "efficientnet_b0" ma "Trained_yolov5" mb n), w') /\
     Enhanced.db_rows w' = [row] /\
     Enhanced.row_model_a_name row = "efficientnet_b0" /\
     Enhanced.row_model_b_name row = "Trained_yolov5" /\
     Enhanced.row_winner row = "model_b").
Proof.
  split; [|split; [|split]].
  - intros ma mb.
    destruct (persisted_winner_cases ma mb) as [[H E]|[[H E]|[H E]]];
      rewrite E; repeat split; intros H'; try discriminate; try reflexivity;
      try exact H; lra.
  - intros ma mb ma' mb' Ha Hb. unfold Enhanced.persisted_winner.
    now rewrite Ha, Hb.
  - intros env a b ma mb tc w Hconn Hexec.
    destruct (save_benchmark_results_row env a b ma mb tc w Hconn Hexec)
      as (row & w' & Hsave & Hrows & _ & _ & Hwin & Hmargin).
    exists row, w'. repeat split; assumption.
  - do 6 eexists. split; [vm_compute; reflexivity|].
    repeat split.
Qed.

Lemma persisted_winner_ignores_composite_score_witness :
  Enhanced.persisted_winner
    (metrics_of (dec 5 10) 10 80) (metrics_of 1 1000 100)
  = Enhanced.persisted_winner
      (metrics_of (dec 5 10) 900 20) (metrics_of 1 5 100).
Proof.
  apply (proj1 (proj2 persisted_winner_ignores_composite_score)
           (metrics_of (dec 5 10) 10 80) (metrics_of 1 1000 100)
           (metrics_of (dec 5 10) 900 20) (metrics_of 1 5 100));
    reflexivity.
Defined.

(** * Further properties of the workers *)

(** ** Closed forms of the count-based scores *)

Lemma Qmin_l_eq (a b : Q) : (a <= b)%Q -> (Qmin a b == a)%Q.
Proof. apply Q.min_l. Qed.

Lemma Qmin_r_eq (a b : Q) : (b <= a)%Q -> (Qmin a b == b)%Q.
Proof. apply Q.min_r. Qed.

Lemma f1_value_closed (p r : Q) :
  (0 < p + r)%Q -> (f1_value p r == 2 * (p * r) / (p + r))%Q.
Proof.
  intros H. unfold f1_value. apply ltb_lt in H. now rewrite H.
Qed.

Lemma f1_value_compat (p p' r r' : Q) :
  (p == p')%Q -> (r == r')%Q -> (f1_value p r == f1_value p' r')%Q.
Proof.
  intros Hp Hr. unfold f1_value.
  destruct (ltb 0 (p + r)) eqn:E; destruct (ltb 0 (p' + r')) eqn:E'.
  - now rewrite Hp, Hr.
  - apply ltb_lt in E. apply ltb_ge in E'. lra.
  - apply ltb_ge in E. apply ltb_lt in E'. lra.
  - reflexivity.
Qed.

(** When fewer objects are detected than labelled, precision is 1 and
    accuracy and recall are both the fraction found; when more are
    detected, recall is 1, precision is the fraction that can be right,
    and accuracy falls linearly to 0 at twice the ground truth.  In both
    cases F1 is [2 * min(d, t) / (d + t)]. *)
Theorem count_scores_closed_form
    (detections : list Enhanced.Detection) (t : Z) :
  (0 < length detections)%nat -> 0 < t ->
  let d := inject_Z (Z.of_nat (length detections)) in
  let tq := inject_Z t in
  exists m,
    Enhanced.calculate_detection_metrics detections t = Ok m /\
    (Enhanced.dm_precision m == Qmin 1 (tq / d))%Q /\
    (Enhanced.dm_recall m == Qmin 1 (d / tq))%Q /\
    (Enhanced.dm_f1_score m == 2 * Qmin d tq / (d + tq))%Q /\
    ((d <= tq)%Q ->
     (Enhanced.dm_accuracy m == d / tq)%Q /\
     (Enhanced.dm_precision m == 1)%Q /\
     (Enhanced.dm_recall m == d / tq)%Q) /\
    ((tq <= d)%Q ->
     (Enhanced.dm_accuracy m == Qmax 0 (2 - d / tq))%Q /\
     (Enhanced.dm_precision m == tq / d)%Q /\
     (Enhanced.dm_recall m == 1)%Q) /\
    ((2 * tq <= d)%Q -> (Enhanced.dm_accuracy m == 0)%Q).
Proof.
  intros Hd Ht d tq.
  assert (Hdq : (0 < d)%Q) by now apply inject_nat_pos.
  assert (Htq : (0 < tq)%Q) by now apply inject_Z_pos.
  rewrite enhanced_metrics_nonzero_truth by lia.
  eexists. split; [reflexivity|]. cbv zeta.
  cbn [Enhanced.dm_accuracy Enhanced.dm_precision Enhanced.dm_recall
       Enhanced.dm_f1_score].
  fold d tq.
  assert (Ed : ltb 0 d = true) by now apply ltb_lt.
  rewrite Ed, py_max_Qmax, !py_min_Qmin.
  assert (Hdt : (d / tq * tq == d)%Q) by (field; lra).
  assert (Htd : (tq / d * d == tq)%Q) by (field; lra).
  assert (Hpos1 : (0 < d / tq)%Q) by now apply Qdiv_pos.
  assert (Hpos2 : (0 < tq / d)%Q) by now apply Qdiv_pos.
  assert (Hunder : (d <= tq)%Q ->
            (Qmin 1 (tq / d) == 1)%Q /\ (Qmin 1 (d / tq) == d / tq)%Q).
  { intros Hle. split.
    - apply Qmin_l_eq. apply Qle_shift_div_l; lra.
    - apply Qmin_r_eq. apply Qle_shift_div_r; lra. }
  assert (Hover : (tq <= d)%Q ->
            (Qmin 1 (tq / d) == tq / d)%Q /\ (Qmin 1 (d / tq) == 1)%Q).
  { intros Hle. split.
    - apply Qmin_r_eq. apply Qle_shift_div_r; lra.
    - apply Qmin_l_eq. apply Qle_shift_div_l; lra. }
  split; [reflexivity|]. split; [reflexivity|]. split; [|split; [|split]].
  - destruct (Qlt_le_dec d tq) as [Hlt|Hge].
    + destruct Hunder as [Ep Er]; [lra|].
      rewrite (f1_value_compat _ 1 _ (d / tq) Ep Er).
      rewrite f1_value_closed by lra.
      rewrite (Qmin_l_eq d tq) by lra. field. lra.
    + destruct Hover as [Ep Er]; [lra|].
      rewrite (f1_value_compat _ (tq / d) _ 1 Ep Er).
      rewrite f1_value_closed by lra.
      rewrite (Qmin_r_eq d tq) by lra. field. lra.
  - intros Hle. destruct (Hunder Hle) as [Ep Er].
    split; [|split; assumption].
    rewrite Qabs_neg by lra.
    assert (E : (1 - - (d - tq) / tq == d / tq)%Q) by (field; lra).
    rewrite E. apply Q.max_r. lra.
  - intros Hle. destruct (Hover Hle) as [Ep Er].
    split; [|split; assumption].
    rewrite Qabs_pos by lra.
    assert (E : (1 - (d - tq) / tq == 2 - d / tq)%Q) by (field; lra).
    now rewrite E.
  - intros Hle. rewrite Qabs_pos by lra.
    apply Q.max_l.
    assert (E : (1 - (d - tq) / tq == 2 - d / tq)%Q) by (field; lra).
    rewrite E.
    assert (2 <= d / tq)%Q by (apply Qle_shift_div_l; lra). lra.
Qed.

Lemma count_scores_closed_form_witness :
  let detections := repeat (Enhanced.mkDetection "car" (dec 9 10) []) 3 in
  let d := inject_Z (Z.of_nat (length detections)) in
  let tq := inject_Z 2 in
  exists m,
    Enhanced.calculate_detection_metrics detections 2 = Ok m /\
    (Enhanced.dm_precision m == Qmin 1 (tq / d))%Q /\
    (Enhanced.dm_recall m == Qmin 1 (d / tq))%Q /\
    (Enhanced.dm_f1_score m == 2 * Qmin d tq / (d + tq))%Q /\
    ((d <= tq)%Q ->
     (Enhanced.dm_accuracy m == d / tq)%Q /\
     (Enhanced.dm_precision m == 1)%Q /\
     (Enhanced.dm_recall m == d / tq)%Q) /\
    ((tq <= d)%Q ->
     (Enhanced.dm_accuracy m == Qmax 0 (2 - d / tq))%Q /\
     (Enhanced.dm_precision m == tq / d)%Q /\
     (Enhanced.dm_recall m == 1)%Q) /\
    ((2 * tq <= d)%Q -> (Enhanced.dm_accuracy m == 0)%Q).
Proof.
  apply (count_scores_closed_form
           (repeat (Enhanced.mkDetection "car" (dec 9 10) []) 3) 2).
  - simpl. lia.
  - lia.
Defined.

(** In the legacy worker precision is computed by the same expression as
    recall, so for a positive ground truth the three of precision, recall
    and F1 coincide. *)
Theorem legacy_precision_is_recall
    (predictions : list Enhanced.Detection) (t : Z) :
  0 < t ->
  exists m,
    Legacy.calculate_accuracy_metrics predictions t = Ok m /\
    (Legacy.am_precision m == Legacy.am_recall m)%Q /\
    (Legacy.am_f1_score m == Legacy.am_recall m)%Q /\
    (Legacy.am_recall m
     == Qmin 1 (inject_Z (Z.of_nat (length predictions)) / inject_Z t))%Q.
Proof.
  intros Ht.
  pose proof (inject_Z_pos t Ht) as Htq.
  pose proof (inject_nat_nonneg (length predictions)) as Hd.
  rewrite legacy_metrics_value. eexists. split; [reflexivity|]. cbv zeta.
  cbn [Legacy.am_precision Legacy.am_recall Legacy.am_f1_score].
  assert (Et : (0 <? t) = true) by now apply Z.ltb_lt.
  rewrite Et, !py_min_Qmin.
  set (d := inject_Z (Z.of_nat (length predictions))) in *.
  set (r := Qmin 1 (d / inject_Z t)).
  assert (Hr : ((0 < r)%Q <-> (0 < d)%Q)) by now apply recall_expr_pos_iff.
  assert (Hr0 : (0 <= r)%Q) by (apply (recall_expr_range d (inject_Z t)); assumption).
  destruct (ltb 0 d) eqn:Ed.
  - apply ltb_lt in Ed. apply Hr in Ed.
    split; [reflexivity|]. split; [|reflexivity].
    rewrite f1_value_closed by lra. field. lra.
  - apply ltb_ge in Ed.
    assert (E0 : (r == 0)%Q).
    { destruct (Qlt_le_dec 0 r) as [H|H]; [apply Hr in H; lra | lra]. }
    split; [now rewrite E0|]. split; [|reflexivity].
    unfold f1_value.
    destruct (ltb 0 (0 + r)) eqn:E; [apply ltb_lt in E; lra | now rewrite E0].
Qed.

Lemma legacy_precision_is_recall_witness :
  exists m,
    Legacy.calculate_accuracy_metrics
      (repeat (Enhanced.mkDetection "car" (dec 9 10) []) 3) 2 = Ok m /\
    (Legacy.am_precision m == Legacy.am_recall m)%Q /\
    (Legacy.am_f1_score m == Legacy.am_recall m)%Q /\
    (Legacy.am_recall m == Qmin 1 (inject_Z (Z.of_nat 3) / inject_Z 2))%Q.
Proof.
  apply (legacy_precision_is_recall
           (repeat (Enhanced.mkDetection "car" (dec 9 10) []) 3) 2).
  lia.
Defined.

(** ** More on the green score and the energy estimate *)

Lemma part_saturated (cap k floor x : Q) :
  (0 < cap)%Q -> (0 < floor)%Q -> (floor <= k)%Q -> (x <= k)%Q ->
  (part cap k floor x == cap)%Q.
Proof.
  intros Hcap Hfloor Hk Hx. unfold part. apply Q.min_l.
  assert (Hm1 : (floor <= Qmax x floor)%Q) by apply Q.le_max_r.
  assert (Hm2 : (Qmax x floor <= k)%Q) by (apply Q.max_lub; assumption).
  apply Qle_shift_div_l; [lra | nra].
Qed.

(** The speed, memory and carbon parts are already at their caps for any
    run faster than a second per image, below 1000 MB and below 0.1 of
    carbon: there the green score is [accuracy * 40 + 60], so two such
    runs differ in green score by 40 times their difference in accuracy
    and by nothing else. *)
Theorem green_score_saturates
    (carbon accuracy speed_ms memory_mb : Q) :
  (0 <= accuracy <= 1)%Q ->
  (speed_ms <= 1000)%Q -> (memory_mb <= 1000)%Q -> (carbon <= dec 1 10)%Q ->
  exists g,
    Enhanced.calculate_green_score carbon accuracy speed_ms memory_mb = Ok g /\
    (g == accuracy * 40 + 60)%Q.
Proof.
  intros Ha Hs Hm Hc.
  destruct (enhanced_green_score_value carbon accuracy speed_ms memory_mb)
    as (g & Hg & Hspec).
  exists g. split; [exact Hg|].
  rewrite Hspec, spec_green_score_parts.
  rewrite (part_saturated 30 1000 1 speed_ms) by lra.
  rewrite (part_saturated 20 1000 100 memory_mb) by lra.
  rewrite (part_saturated 10 (dec 1 10) (dec 1 1000) carbon)
    by (unfold dec in *; lra).
  rewrite (Q.max_r 0 (accuracy * 40 + 30 + 20 + 10)) by lra.
  rewrite Q.min_r by lra. ring.
Qed.

Lemma green_score_saturates_witness :
  exists g,
    Enhanced.calculate_green_score (dec 5 100) (dec 85 100) 45 512 = Ok g /\
    (g == dec 85 100 * 40 + 60)%Q.
Proof.
  apply (green_score_saturates (dec 5 100) (dec 85 100) 45 512);
    unfold dec; try split; unfold Qle; simpl; lia.
Defined.

(** The energy estimate is [(50 + cpu_percent + gpu) * seconds / 3600]
    watt-hours with [gpu] 150 on a CUDA machine and 0 otherwise: it is 0
    for a zero duration, non-negative and non-decreasing in load and
    duration, and a CUDA device adds [150 * seconds / 3600] whatever the
    load. *)
Theorem energy_estimate_shape (seconds seconds' cpu cpu' : Q) :
  (0 <= seconds <= seconds')%Q -> (0 <= cpu <= cpu')%Q ->
  (Enhanced.calculate_energy_consumption false seconds cpu
   == (50 + cpu) * seconds / 3600)%Q /\
  (Enhanced.calculate_energy_consumption true seconds cpu
   == Enhanced.calculate_energy_consumption false seconds cpu
      + 150 * seconds / 3600)%Q /\
  (Enhanced.calculate_energy_consumption false 0 cpu == 0)%Q /\
  (Enhanced.calculate_energy_consumption true 0 cpu == 0)%Q /\
  (forall cuda,
     (0 <= Enhanced.calculate_energy_consumption cuda seconds cpu)%Q /\
     (Enhanced.calculate_energy_consumption cuda seconds cpu
      <= Enhanced.calculate_energy_consumption cuda seconds' cpu)%Q /\
     (Enhanced.calculate_energy_consumption cuda seconds cpu
      <= Enhanced.calculate_energy_consumption cuda seconds cpu')%Q).
Proof.
  intros [Hs Hs'] [Hc Hc'].
  unfold Enhanced.calculate_energy_consumption.
  split; [field|]. split; [field|]. split; [field|]. split; [field|].
  intros cuda.
  assert (E : forall p s : Q, (p * (s / 3600) == p * s / 3600)%Q)
    by (intros; field).
  assert (Hdiv : forall x y : Q, (x <= y)%Q -> (x / 3600 <= y / 3600)%Q).
  { intros x y H. apply Qle_shift_div_l; [lra|].
    assert (Ex : (x / 3600 * 3600 == x)%Q) by field. lra. }
  assert (Ecpu : forall c : Q, (c / 100 * 100 == c)%Q) by (intros; field).
  rewrite !E, !Ecpu.
  destruct cuda; repeat split;
    try (apply Qdiv_nonneg; [nra | lra]); apply Hdiv; nra.
Qed.

Lemma energy_estimate_shape_witness :
  (Enhanced.calculate_energy_consumption false 2 50 == (50 + 50) * 2 / 3600)%Q.
Proof.
  apply (energy_estimate_shape 2 4 50 60); split; unfold Qle; simpl; lia.
Defined.

(** ** The legacy green score *)

(** The three-argument green score of the legacy worker divides by
    [carbon * speed_ms / 1000], with a non-positive carbon replaced by
    0.001: it raises exactly when the speed is zero, and for a positive
    speed and a non-negative accuracy it is
    [min(100, 10000 * accuracy / (carbon * speed_ms))], between 0 and 100. *)
Theorem legacy_green_score_behaviour (carbon accuracy speed_ms : Q) :
  ((speed_ms == 0)%Q ->
   Legacy.calculate_green_score carbon accuracy speed_ms = Raise ZeroDivisionError) /\
  (~ (speed_ms == 0)%Q ->
   exists g, Legacy.calculate_green_score carbon accuracy speed_ms = Ok g) /\
  ((0 < speed_ms)%Q -> (0 <= accuracy)%Q ->
   exists g,
     Legacy.calculate_green_score carbon accuracy speed_ms = Ok g /\
     (0 <= g <= 100)%Q /\
     (g == Qmin 100
             (10000 * accuracy
              / ((if leb carbon 0 then dec 1 1000 else carbon) * speed_ms)))%Q).
Proof.
  unfold Legacy.calculate_green_score.
  set (c := if leb carbon 0 then dec 1 1000 else carbon).
  assert (Hc : (0 < c)%Q).
  { unfold c. destruct (leb carbon 0) eqn:E; [unfold dec; lra|].
    now apply leb_gt in E. }
  rewrite (truediv_ok _ 1000) by lra. cbn [mbind result_bind Py.bind].
  split; [|split].
  - intros Hs. rewrite truediv_zero; [reflexivity|]. rewrite Hs. field.
  - intros Hs. rewrite truediv_ok; [cbn; eexists; reflexivity|].
    intros H. apply Hs.
    assert (E : (c * speed_ms == 0)%Q).
    { assert (c * speed_ms / 1000 * 1000 == c * speed_ms)%Q by field. lra. }
    nra.
  - intros Hs Ha.
    assert (Hden : (0 < c * speed_ms / 1000)%Q)
      by (apply Qdiv_pos; [nra | lra]).
    rewrite truediv_ok by lra. cbn [mbind result_bind Py.bind].
    eexists. split; [reflexivity|]. rewrite py_min_Qmin.
    assert (Hq : (0 <= accuracy / (c * speed_ms / 1000))%Q)
      by now apply Qdiv_nonneg.
    split.
    + split; [apply Q.min_glb; lra | apply Q.le_min_l].
    + apply Q.min_compat; [reflexivity|]. field. nra.
Qed.

Lemma legacy_green_score_behaviour_witness :
  Legacy.calculate_green_score (dec 1 1000) (dec 9 10) 0 = Raise ZeroDivisionError /\
  (exists g,
     Legacy.calculate_green_score (dec 1 1000) (dec 9 10) 50 = Ok g /\
     (0 <= g <= 100)%Q /\
     (g == Qmin 100
             (10000 * dec 9 10
              / ((if leb (dec 1 1000) 0 then dec 1 1000 else dec 1 1000) * 50)))%Q).
Proof.
  split.
  - apply (proj1 (legacy_green_score_behaviour (dec 1 1000) (dec 9 10) 0)).
    reflexivity.
  - apply (proj2 (proj2 (legacy_green_score_behaviour (dec 1 1000) (dec 9 10) 50)));
      unfold dec, Qlt, Qle; simpl; lia.
Defined.

(** ** The composite comparison *)

Lemma pick_winner_cases (a b : string) (sa sb : Q) :
  ((sb < sa)%Q /\ Enhanced.pick_winner a b sa sb = (a, "Better overall performance")) \/
  ((sa < sb)%Q /\ Enhanced.pick_winner a b sa sb = (b, "Better overall performance")) \/
  ((sa == sb)%Q /\ Enhanced.pick_winner a b sa sb = ("Tie", "Equal performance")).
Proof.
  unfold Enhanced.pick_winner.
  destruct (ltb sb sa) eqn:E1.
  { left. split; [now apply ltb_lt | reflexivity]. }
  destruct (ltb sa sb) eqn:E2.
  { right. left. split; [now apply ltb_lt | reflexivity]. }
  right. right. apply ltb_ge in E1, E2. split; [lra | reflexivity].
Qed.

(** The reported winner does not depend on which model was submitted as
    A and which as B: swapping the two models together with their scores
    names the same winner, with the same explanation. *)
Theorem reported_winner_is_symmetric (a b : string) (sa sb : Q) :
  Enhanced.pick_winner a b sa sb = Enhanced.pick_winner b a sb sa.
Proof.
  destruct (pick_winner_cases a b sa sb) as [[H E]|[[H E]|[H E]]];
    destruct (pick_winner_cases b a sb sa) as [[H' E']|[[H' E']|[H' E']]];
    rewrite E, E'; try reflexivity; lra.
Qed.

(** The composite score never raises.  For scores in their documented
    ranges the speed term
    [300 / max(speed_ms, 1)] outweighs the other two, which together span
    0.7: a model whose speed term leads by more than 0.7 wins whatever
    the accuracies and green scores. *)
Theorem speed_term_decides_winner (a b : string) (ma mb : Enhanced.Metrics) :
  in_unit (Enhanced.accuracy ma) -> in_unit (Enhanced.accuracy mb) ->
  (0 <= Enhanced.green_score ma <= 100)%Q ->
  (0 <= Enhanced.green_score mb <= 100)%Q ->
  (300 / Qmax (Enhanced.speed_ms mb) 1 + dec 7 10
   < 300 / Qmax (Enhanced.speed_ms ma) 1)%Q ->
  exists sa sb,
    Enhanced.composite_score ma = Ok sa /\
    Enhanced.composite_score mb = Ok sb /\
    (0 <= sb < sa)%Q /\ (sa <= dec 3007 10)%Q /\
    Enhanced.pick_winner a b sa sb = (a, "Better overall performance").
Proof.
  intros [Ha0 Ha1] [Hb0 Hb1] [Hga0 Hga1] [Hgb0 Hgb1] Hlead.
  destruct (composite_score_value ma) as (sa & Esa & Hsa).
  destruct (composite_score_value mb) as (sb & Esb & Hsb).
  exists sa, sb. split; [exact Esa|]. split; [exact Esb|].
  unfold Spec.composite, dec in *.
  set (xa := Qmax (Enhanced.speed_ms ma) 1) in *.
  set (xb := Qmax (Enhanced.speed_ms mb) 1) in *.
  assert (Hxa : (1 <= xa)%Q) by apply Q.le_max_r.
  assert (Hxb : (1 <= xb)%Q) by apply Q.le_max_r.
  assert (Eta : (1000 / xa * (3 # 10) == 300 / xa)%Q) by (field; lra).
  assert (Etb : (1000 / xb * (3 # 10) == 300 / xb)%Q) by (field; lra).
  assert (Hta : (300 / xa <= 300)%Q) by (apply Qle_shift_div_r; lra).
  assert (Htb : (0 <= 300 / xb)%Q) by (apply Qdiv_nonneg; lra).
  assert (Ega : (Enhanced.green_score ma / 100 * 100 == Enhanced.green_score ma)%Q)
    by field.
  assert (Egb : (Enhanced.green_score mb / 100 * 100 == Enhanced.green_score mb)%Q)
    by field.
  assert (Hlt : (0 <= sb < sa)%Q) by (split; lra).
  split; [exact Hlt|]. split; [lra|].
  destruct (pick_winner_cases a b sa sb) as [[H E]|[[H E]|[H E]]];
    [exact E | lra | lra].
Qed.

Lemma speed_term_decides_winner_witness :
  exists sa sb,
    Enhanced.composite_score (metrics_of (dec 5 10) 10 50) = Ok sa /\
    Enhanced.composite_score (metrics_of 1 1000 100) = Ok sb /\
    (0 <= sb < sa)%Q /\ (sa <= dec 3007 10)%Q /\
    Enhanced.pick_winner "fast" "accurate" sa sb
    = ("fast", "Better overall performance").
Proof.
  apply (speed_term_decides_winner "fast" "accurate"
           (metrics_of (dec 5 10) 10 50) (metrics_of 1 1000 100));
    unfold in_unit; try split; vm_compute; congruence.
Defined.

(** ** What a computation leaves behind *)

Section Keeps.

Variable R : Enhanced.World -> Enhanced.World -> Prop.
Hypothesis R_refl : forall w, R w w.
Hypothesis R_trans : forall w1 w2 w3, R w1 w2 -> R w2 w3 -> R w1 w3.

Lemma keeps_ret {A : Type} (a : A) : keeps R (ret a).
Proof. intros w. apply R_refl. Qed.

Lemma keeps_raise {A : Type} (e : exn) : keeps R (raise (A := A) e).
Proof. intros w. apply R_refl. Qed.

Lemma keeps_lift {A : Type} (r : result A) : keeps R (lift r).
Proof. intros w. apply R_refl. Qed.

Lemma keeps_get : keeps R get.
Proof. intros w. apply R_refl. Qed.

Lemma keeps_bind {A B : Type} (c : Enhanced.M A) (k : A -> Enhanced.M B) :
  keeps R c -> (forall a, keeps R (k a)) -> keeps R (c ≫= k).
Proof.
  intros Hc Hk w. unfold mbind, St_bind, bindM.
  specialize (Hc w). destruct (c w) as [[a|e] w1]; cbn [snd] in *.
  - eapply R_trans; [exact Hc | apply Hk].
  - exact Hc.
Qed.

Lemma keeps_try_except {A : Type} (c : Enhanced.M A) (h : exn -> Enhanced.M A) :
  keeps R c -> (forall e, keeps R (h e)) -> keeps R (try_except c h).
Proof.
  intros Hc Hh w. unfold try_except.
  specialize (Hc w). destruct (c w) as [[a|e] w1]; cbn [snd] in *.
  - exact Hc.
  - eapply R_trans; [exact Hc | apply Hh].
Qed.

Lemma keeps_try_finally {A : Type} (c : Enhanced.M A) (fin : Enhanced.M unit) :
  keeps R c -> keeps R fin -> keeps R (try_finally c fin).
Proof.
  intros Hc Hf w. unfold try_finally.
  specialize (Hc w). destruct (c w) as [r w1]. cbn [snd] in *.
  specialize (Hf w1). destruct (fin w1) as [u w2]. cbn [snd] in *.
  eapply R_trans; eassumption.
Qed.

Lemma keeps_modify (f : Enhanced.World -> Enhanced.World) :
  (forall w, R w (f w)) -> keeps R (modify f).
Proof. intros H w. apply H. Qed.

End Keeps.

Lemma steady_refl (w : Enhanced.World) : steady w w.
Proof. repeat split. Qed.

Lemma steady_trans (w1 w2 w3 : Enhanced.World) :
  steady w1 w2 -> steady w2 w3 -> steady w1 w3.
Proof.
  intros (A1 & B1 & C1 & D1) (A2 & B2 & C2 & D2).
  repeat split; congruence.
Qed.

Lemma emit_steady (e : Event) :
  Enhanced.is_construct e = false -> keeps steady (Enhanced.emit e).
Proof.
  intros He w. unfold Enhanced.emit, modify. cbn [snd].
  repeat split. unfold Enhanced.constructions.
  cbn [Enhanced.record_event Enhanced.trace].
  rewrite filter_cons_False; [reflexivity|]. now rewrite He.
Qed.

Lemma set_monitoring_steady (b : bool) : keeps steady (Enhanced.set_monitoring b).
Proof. intros w. repeat split. Qed.

Lemma start_monitoring_steady : keeps steady Enhanced.start_monitoring.
Proof.
  unfold Enhanced.start_monitoring.
  apply keeps_bind; [apply steady_trans | apply set_monitoring_steady |].
  intros _. now apply emit_steady.
Qed.

Lemma stop_monitoring_steady : keeps steady Enhanced.stop_monitoring.
Proof.
  unfold Enhanced.stop_monitoring.
  apply keeps_bind; [apply steady_trans | apply set_monitoring_steady |].
  intros _. now apply emit_steady.
Qed.

Lemma preprocess_image_steady (env : Env) (r : ImageRef) (name : string) :
  keeps steady (Enhanced.preprocess_image env r name).
Proof.
  unfold Enhanced.preprocess_image.
  apply keeps_try_except; [apply steady_trans | |].
  - apply keeps_bind; [apply steady_trans | now apply emit_steady |].
    intros _. apply keeps_bind; [apply steady_trans | |].
    + apply keeps_lift, steady_refl.
    + intros pic. apply keeps_ret, steady_refl.
  - intros e. apply keeps_raise, steady_refl.
Qed.

Lemma detect_cars_steady (env : Env) (model : Model) (img : Image) (name : string) :
  keeps steady (Enhanced.detect_cars env model img name).
Proof.
  unfold Enhanced.detect_cars.
  repeat match goal with
         | |- context [if ?b then _ else _] => destruct b
         end;
    try (apply keeps_ret, steady_refl);
    (apply keeps_bind; [apply steady_trans | now apply emit_steady |]);
    intros _; destruct (model_call env model img) as [[bs|p]|e];
    try (apply keeps_ret, steady_refl);
    destruct (ltb (dec 3 10) p); apply keeps_ret, steady_refl.
Qed.

Lemma process_images_steady
    (env : Env) (model : Model) (name : string) (images : list Enhanced.ImageData) :
  forall i st, keeps steady (Enhanced.process_images env model name images i st).
Proof.
  induction images as [|d0 rest IH]; intros i st.
  { apply keeps_ret, steady_refl. }
  cbn [Enhanced.process_images].
  apply keeps_bind; [apply steady_trans | |].
  { destruct (Enhanced.image d0);
      [apply keeps_ret | apply keeps_raise]; apply steady_refl. }
  intros r. apply keeps_bind; [apply steady_trans | apply preprocess_image_steady |].
  intros img. apply keeps_bind; [apply steady_trans | apply detect_cars_steady |].
  intros ds. apply IH.
Qed.

(** The loader touches neither the database nor the monitor. *)
Lemma load_model_leaves_database (env : Env) (name : string) (w : Enhanced.World) :
  Enhanced.db_rows (Enhanced.load_model env name w).2 = Enhanced.db_rows w /\
  Enhanced.db_connection (Enhanced.load_model env name w).2
  = Enhanced.db_connection w /\
  Enhanced.monitoring (Enhanced.load_model env name w).2 = Enhanced.monitoring w.
Proof.
  destruct (Enhanced.model_cache w !! name) as [m|] eqn:Hc.
  { rewrite (enhanced_load_cached env name w m Hc). repeat split. }
  destruct (Enhanced.SUPPORTED_MODELS !! name) as [info|] eqn:Hs.
  - rewrite (enhanced_load_fresh env name w info Hc Hs). cbv zeta.
    destruct (Enhanced.construction_failure _ _ _); repeat split.
  - rewrite (enhanced_load_unsupported env name w Hc Hs). repeat split.
Qed.

(** A run is: start the monitor, load, then steps that leave cache,
    construction count and database alone, then stop the monitor. *)
Lemma benchmark_model_decompose
    (env : Env) (name : string) (images : list Enhanced.ImageData)
    (w : Enhanced.World) :
  exists w2,
    steady (Enhanced.load_model env name (Enhanced.start_monitoring w).2).2 w2 /\
    (Enhanced.benchmark_model env name images w).2
    = (Enhanced.stop_monitoring w2).2 /\
    (forall e,
       (Enhanced.load_model env name (Enhanced.start_monitoring w).2).1 = Raise e ->
       (Enhanced.benchmark_model env name images w).1 = Raise e).
Proof.
  unfold Enhanced.benchmark_model.
  rewrite (st_bind_ok Enhanced.start_monitoring _ w _ tt eq_refl).
  unfold try_finally, try_except.
  match goal with
  | |- context [Enhanced.load_model env name ≫= ?k] =>
      assert (Hk : forall model, keeps steady (k model))
  end.
  { intros model. cbv beta zeta.
    apply keeps_bind; [apply steady_trans | apply process_images_steady |].
    intros st. apply keeps_bind; [apply steady_trans | apply keeps_lift, steady_refl |].
    intros tp. apply keeps_bind; [apply steady_trans | apply keeps_lift, steady_refl |].
    intros dm. apply keeps_bind; [apply steady_trans | now apply emit_steady |].
    intros _. apply keeps_bind; [apply steady_trans | apply keeps_lift, steady_refl |].
    intros g. apply keeps_ret, steady_refl. }
  change (Enhanced.start_monitoring w).2
    with (Enhanced.record_event EvMonitorStart (Enhanced.with_monitoring true w)).
  destruct (Enhanced.load_model env name
              (Enhanced.record_event EvMonitorStart
                 (Enhanced.with_monitoring true w)))
    as [[model|e] w1] eqn:Hload.
  - rewrite (st_bind_ok _ _ _ _ _ Hload).
    match goal with
    | |- context [let '(_, _) := ?c w1 in _] =>
        specialize (Hk model w1); destruct (c w1) as [r w2]
    end.
    exists w2. cbn [snd fst] in *. split; [exact Hk|].
    split; [destruct r; reflexivity | intros e He; discriminate].
  - rewrite (st_bind_raise _ _ _ _ _ Hload).
    exists w1. cbn [snd fst]. split; [apply steady_refl|].
    split; [reflexivity | intros e' He; injection He as <-; reflexivity].
Qed.

Lemma load_model_effect (env : Env) (name : string) (w : Enhanced.World) :
  let w1 := (Enhanced.load_model env name w).2 in
  (forall other, other <> name ->
     Enhanced.model_cache w1 !! other = Enhanced.model_cache w !! other) /\
  (forall model, Enhanced.model_cache w !! name = Some model -> w1 = w) /\
  (forall model, Enhanced.model_cache w !! name = Some model ->
     Enhanced.model_cache w1 !! name = Some model) /\
  (Enhanced.constructions w <= Enhanced.constructions w1
   <= S (Enhanced.constructions w))%nat.
Proof.
  cbv zeta.
  destruct (Enhanced.model_cache w !! name) as [m|] eqn:Hc.
  { rewrite (enhanced_load_cached env name w m Hc). cbn [snd].
    repeat split; try lia. intros model Hm. congruence. }
  destruct (Enhanced.SUPPORTED_MODELS !! name) as [info|] eqn:Hs.
  - rewrite (enhanced_load_fresh env name w info Hc Hs). cbv zeta.
    destruct (Enhanced.construction_failure _ _ _); cbn [snd];
      rewrite ?enhanced_constructions_cache, ?enhanced_constructions_event;
      repeat split; try lia; try discriminate.
    intros other Hne. cbn. now rewrite lookup_insert_ne.
  - rewrite (enhanced_load_unsupported env name w Hc Hs). cbn [snd].
    repeat split; try lia; discriminate.
Qed.

(** ** A benchmark run cleans up and keeps to its own model *)

(** Whatever happens in a run of [benchmark_model] (success, unknown
    model, failed construction, unreadable image), afterwards the
    monitor is stopped and "monitor stopped" is the last thing that
    happened; the database is untouched; at most one model was
    constructed, and none if the model was cached, in which case the cache
    is unchanged; the cache entries of all other models are what they
    were. *)
Theorem benchmark_run_cleans_up
    (env : Env) (name : string) (images : list Enhanced.ImageData)
    (w : Enhanced.World) :
  let w' := (Enhanced.benchmark_model env name images w).2 in
  Enhanced.monitoring w' = false /\
  (exists earlier, Enhanced.trace w' = EvMonitorStop :: earlier) /\
  Enhanced.db_rows w' = Enhanced.db_rows w /\
  Enhanced.db_connection w' = Enhanced.db_connection w /\
  (Enhanced.constructions w <= Enhanced.constructions w'
   <= S (Enhanced.constructions w))%nat /\
  (forall other, other <> name ->
     Enhanced.model_cache w' !! other = Enhanced.model_cache w !! other) /\
  (forall model, Enhanced.model_cache w !! name = Some model ->
     Enhanced.model_cache w' = Enhanced.model_cache w /\
     Enhanced.constructions w' = Enhanced.constructions w).
Proof.
  cbv zeta.
  destruct (benchmark_model_decompose env name images w)
    as (w2 & (Hcache & Hcons & Hrows & Hconn) & -> & _).
  pose proof (start_monitoring_steady w) as (Sc & Sn & Sr & Sd).
  set (w0 := (Enhanced.start_monitoring w).2) in *.
  destruct (load_model_effect env name w0) as (Lother & Lsame & Lkeep & Lcons).
  destruct (load_model_leaves_database env name w0) as (Lrows & Lconn & _).
  set (w1 := (Enhanced.load_model env name w0).2) in *.
  pose proof (stop_monitoring_steady w2) as (Tc & Tn & Tr & Td).
  split; [reflexivity|]. split; [eexists; reflexivity|].
  split; [congruence|]. split; [congruence|].
  split; [lia|]. split.
  - intros other Hne. rewrite Tc, Hcache, (Lother other Hne). now rewrite Sc.
  - intros model Hm. rewrite <- Sc in Hm.
    rewrite Tc, Tn, Hcache, Hcons.
    assert (E : w1 = w0) by (unfold w1; eapply Lsame; exact Hm).
    rewrite E. split; [exact Sc | exact Sn].
Qed.

(** ** What a successful run returns *)

Lemma detect_cars_non_vision
    (env : Env) (model : Model) (img : Image) (name : string) (w : Enhanced.World) :
  looks_like_vision env name = false ->
  Enhanced.detect_cars env model img name w = (Ok [], w).
Proof.
  unfold looks_like_vision, Enhanced.detect_cars. intros H.
  destruct (contains "yolo" (lower name)); [discriminate|].
  destruct (contains "detectron2" (lower name) && DETECTRON2_AVAILABLE env)%bool;
    [discriminate|].
  destruct (contains "efficientnet" (lower name)); [discriminate|].
  reflexivity.
Qed.

Lemma ground_truth_sum_cons (d : Enhanced.ImageData) (rest : list Enhanced.ImageData) :
  ground_truth_sum (d :: rest)
  = default 1 (Enhanced.ground_truth_cars d) + ground_truth_sum rest.
Proof. reflexivity. Qed.

(** The loop returns exactly when every image has its key and opens; it
    then counted every image, timed every image and summed every ground
    truth. *)
Lemma process_images_outcome
    (env : Env) (model : Model) (name : string) (images : list Enhanced.ImageData) :
  forall i st w,
    match Enhanced.process_images env model name images i st w with
    | (Ok st', _) =>
        Forall (decodable env) images /\
        Enhanced.loop_inference_count st'
        = (Enhanced.loop_inference_count st + length images)%nat /\
        Enhanced.total_ground_truth st'
        = Enhanced.total_ground_truth st + ground_truth_sum images /\
        Enhanced.inference_times st'
        = Enhanced.inference_times st
          ++ map (image_ms env name) (seq i (length images)) /\
        (looks_like_vision env name = false ->
         Enhanced.all_detections st' = Enhanced.all_detections st)
    | (Raise _, _) => ~ Forall (decodable env) images
    end.
Proof.
  induction images as [|d0 rest IH]; intros i st w.
  { cbn. repeat split; [constructor | lia | lia | now rewrite app_nil_r]. }
  cbn [Enhanced.process_images].
  destruct (Enhanced.image d0) as [r|] eqn:Hr.
  2:{ rewrite (st_bind_raise (raise (KeyError "image")) _ w w _ eq_refl).
      intros H. inversion H as [|? ? (r & pic & Hr' & _) _]. congruence. }
  rewrite st_bind_ret.
  destruct (image_open env r) as [pic|e] eqn:Hopen.
  2:{ rewrite (st_bind_raise _ _ _ _ _ (preprocess_image_raises env r name w e Hopen)).
      intros H. inversion H as [|? ? (r' & pic & Hr' & Hopen') _]. congruence. }
  destruct (preprocess_image_returns env r name w pic Hopen) as (img & Himg).
  rewrite (st_bind_ok _ _ _ _ _ Himg).
  destruct (detect_cars_returns env model img name
              (Enhanced.record_event (EvImageOpen r) w)) as (ds & w1 & Hds).
  rewrite (st_bind_ok _ _ _ _ _ Hds).
  match goal with
  | |- context [Enhanced.process_images env model name rest (S i) ?s w1] =>
      specialize (IH (S i) s w1);
      destruct (Enhanced.process_images env model name rest (S i) s w1)
        as [[st'|e] w2]
  end.
  - destruct IH as (Hall & Hcount & Hsum & Htimes & Hdets).
    cbn [Enhanced.loop_inference_count Enhanced.total_ground_truth
         Enhanced.inference_times Enhanced.all_detections] in *.
    split; [constructor; [exists r, pic; split; assumption | exact Hall]|].
    split; [rewrite Hcount; cbn [length]; lia|].
    split; [rewrite Hsum, ground_truth_sum_cons; lia|].
    split; [rewrite Htimes, <- app_assoc; reflexivity|].
    intros Hnv. rewrite (Hdets Hnv).
    rewrite (detect_cars_non_vision env model img name _ Hnv) in Hds.
    injection Hds as <- _. now rewrite app_nil_r.
  - intros H. apply IH. now inversion H.
Qed.

Lemma throughput_guarded (speed : Q) :
  (if ltb 0 speed then truediv 1000 speed else Ok 0%Q)
  = Ok (if ltb 0 speed then (1000 / speed)%Q else 0%Q).
Proof.
  destruct (ltb 0 speed) eqn:E; [|reflexivity].
  apply ltb_lt in E. apply truediv_ok. lra.
Qed.

Lemma detection_metrics_returns (detections : list Enhanced.Detection) (t : Z) :
  exists dm,
    Enhanced.calculate_detection_metrics detections t = Ok dm /\
    Enhanced.dm_cars_detected dm = length detections.
Proof.
  destruct (Z.eq_dec t 0) as [->|Hne].
  - rewrite enhanced_metrics_zero_truth. eexists. split; reflexivity.
  - rewrite enhanced_metrics_nonzero_truth by exact Hne.
    eexists. split; reflexivity.
Qed.

Lemma st_bind_lift {S A B : Type} (r : result A) (a : A) (k : A -> St S B) (w : S) :
  r = Ok a -> (lift r ≫= k) w = k a w.
Proof. intros ->. reflexivity. Qed.

(** The record a run returns, once the model is loaded and the loop is
    through. *)
Lemma benchmark_model_metrics
    (env : Env) (name : string) (images : list Enhanced.ImageData)
    (w w1 w2 : Enhanced.World) (model : Model) (st : Enhanced.LoopState) :
  Enhanced.load_model env name (Enhanced.start_monitoring w).2 = (Ok model, w1) ->
  Enhanced.process_images env model name images 0
    (Enhanced.mkLoopState [] [] 0 0) w1 = (Ok st, w2) ->
  exists m w',
    Enhanced.benchmark_model env name images w = (Ok m, w') /\
    Enhanced.inference_count m = Enhanced.loop_inference_count st /\
    Enhanced.speed_ms m
    = match Enhanced.inference_times st with
      | [] => 0%Q
      | _ => Py.mean (Enhanced.inference_times st)
      end /\
    Enhanced.latency_ms m = Enhanced.speed_ms m /\
    Enhanced.throughput_fps m
    = (if ltb 0 (Enhanced.speed_ms m) then (1000 / Enhanced.speed_ms m)%Q else 0%Q) /\
    Enhanced.memory_mb m = Enhanced.peak_memory_mb_ m /\
    Enhanced.calculate_detection_metrics
      (Enhanced.all_detections st) (Enhanced.total_ground_truth st)
    = Ok (Enhanced.mkDetectionMetrics
            (Enhanced.accuracy m) (Enhanced.precision m) (Enhanced.recall m)
            (Enhanced.f1_score m) (Enhanced.cars_detected m)) /\
    Enhanced.calculate_green_score
      (Enhanced.carbon_emissions m) (Enhanced.accuracy m)
      (Enhanced.speed_ms m) (Enhanced.memory_mb m)
    = Ok (Enhanced.green_score m) /\
    Enhanced.energy_consumption m
    = Enhanced.calculate_energy_consumption (cuda_is_available env)
        (Enhanced.test_duration_seconds m) (Enhanced.cpu_usage_percent m) /\
    (CARBON_TRACKING env = false ->
     Enhanced.carbon_emissions m = (Enhanced.energy_consumption m * dec 4 10)%Q).
Proof.
  intros Hload Hloop.
  unfold Enhanced.benchmark_model.
  rewrite (st_bind_ok Enhanced.start_monitoring _ w _ tt eq_refl).
  unfold try_finally, try_except.
  rewrite (st_bind_ok _ _ _ _ _ Hload).
  rewrite (st_bind_ok _ _ _ _ _ Hloop).
  rewrite (st_bind_lift _ _ _ _ (throughput_guarded _)).
  destruct (detection_metrics_returns (Enhanced.all_detections st)
              (Enhanced.total_ground_truth st)) as (dm & Hdm & _).
  rewrite (st_bind_lift _ _ _ _ Hdm).
  rewrite (st_bind_ok (Enhanced.emit EvMonitorGetMetrics) _ w2 _ tt eq_refl).
  match goal with
  | |- context [Enhanced.calculate_green_score ?c ?a ?s ?p] =>
      destruct (enhanced_green_score_value c a s p) as (g & Hg & _)
  end.
  rewrite (st_bind_lift _ _ _ _ Hg).
  eexists. eexists. split; [reflexivity|].
  cbn [Enhanced.inference_count Enhanced.speed_ms Enhanced.latency_ms
       Enhanced.throughput_fps Enhanced.memory_mb Enhanced.peak_memory_mb_
       Enhanced.accuracy Enhanced.precision Enhanced.recall Enhanced.f1_score
       Enhanced.cars_detected Enhanced.carbon_emissions Enhanced.green_score
       Enhanced.energy_consumption Enhanced.test_duration_seconds
       Enhanced.cpu_usage_percent].
  repeat (split; [reflexivity|]).
  split; [destruct dm; exact Hdm|].
  split; [exact Hg|]. split; [reflexivity|].
  intros Hct. now rewrite Hct.
Qed.

Lemma benchmark_model_raise_cases
    (env : Env) (name : string) (images : list Enhanced.ImageData)
    (w w1 : Enhanced.World) :
  (forall e,
     Enhanced.load_model env name (Enhanced.start_monitoring w).2 = (Raise e, w1) ->
     (Enhanced.benchmark_model env name images w).1 = Raise e) /\
  (forall model e w2,
     Enhanced.load_model env name (Enhanced.start_monitoring w).2 = (Ok model, w1) ->
     Enhanced.process_images env model name images 0
       (Enhanced.mkLoopState [] [] 0 0) w1 = (Raise e, w2) ->
     (Enhanced.benchmark_model env name images w).1 = Raise e).
Proof.
  split.
  - intros e Hload. unfold Enhanced.benchmark_model.
    rewrite (st_bind_ok Enhanced.start_monitoring _ w _ tt eq_refl).
    unfold try_finally, try_except.
    rewrite (st_bind_raise _ _ _ _ _ Hload). reflexivity.
  - intros model e w2 Hload Hloop. unfold Enhanced.benchmark_model.
    rewrite (st_bind_ok Enhanced.start_monitoring _ w _ tt eq_refl).
    unfold try_finally, try_except.
    rewrite (st_bind_ok _ _ _ _ _ Hload).
    rewrite (st_bind_raise _ _ _ _ _ Hloop). reflexivity.
Qed.

Lemma detection_metrics_spec_eq
    (detections : list Enhanced.Detection) (t : Z) (a p r f : Q) (n : nat) :
  Enhanced.calculate_detection_metrics detections t
  = Ok (Enhanced.mkDetectionMetrics a p r f n) ->
  n = length detections /\
  f = f1_value p r /\
  (0 <= t ->
   a = Spec.accuracy n t /\ p = Spec.precision n t /\ r = Spec.recall n t).
Proof.
  destruct (Z.eq_dec t 0) as [->|Hne].
  - rewrite enhanced_metrics_zero_truth. cbv zeta. intros H.
    injection H as <- <- <- <- <-.
    split; [reflexivity|]. split; [reflexivity|]. intros _.
    unfold Spec.accuracy, Spec.precision, Spec.recall. cbn. repeat split.
  - rewrite enhanced_metrics_nonzero_truth by exact Hne. cbv zeta. intros H.
    injection H as <- <- <- <- <-.
    split; [reflexivity|]. split; [reflexivity|]. intros _.
    unfold Spec.accuracy, Spec.precision, Spec.recall.
    apply Z.eqb_neq in Hne. rewrite Hne.
    rewrite py_max_Qmax, !py_min_Qmin, ltb_inject_nat. repeat split.
Qed.

(** Whether a run returns is decided by the load and by the images alone:
    if the load raises, the run raises the same exception; if the model is
    loaded, the run returns metrics exactly when every image of the batch
    has its ['image'] key and can be opened.  Nothing downstream (the
    detector, the scoring, the energy and green-score arithmetic) can make
    a run fail. *)
Theorem run_returns_iff_model_loads_and_images_open
    (env : Env) (name : string) (images : list Enhanced.ImageData)
    (w : Enhanced.World) :
  match Enhanced.load_model env name (Enhanced.start_monitoring w).2 with
  | (Raise e, _) => (Enhanced.benchmark_model env name images w).1 = Raise e
  | (Ok _, _) =>
      (exists m, (Enhanced.benchmark_model env name images w).1 = Ok m) <->
      Forall (decodable env) images
  end.
Proof.
  destruct (Enhanced.load_model env name (Enhanced.start_monitoring w).2)
    as [[model|e] w1] eqn:Hload.
  2:{ now apply (proj1 (benchmark_model_raise_cases env name images w w1)). }
  pose proof (process_images_outcome env model name images 0%nat
                (Enhanced.mkLoopState [] [] 0 0) w1) as Hout.
  destruct (Enhanced.process_images env model name images 0
              (Enhanced.mkLoopState [] [] 0 0) w1) as [[st|e] w2] eqn:Hloop.
  - destruct (benchmark_model_metrics env name images w w1 w2 model st Hload Hloop)
      as (m & w' & Hrun & _).
    split; [intros _; apply Hout | intros _; exists m; now rewrite Hrun].
  - pose proof (proj2 (benchmark_model_raise_cases env name images w w1)
                  model e w2 Hload Hloop) as Hraise.
    split; [intros (m & Hm); congruence | intros H; contradiction].
Qed.

(** The record a run returns is consistent with itself and with the
    batch: every image was counted; the speed is the mean of the per-image
    times, the latency repeats it and the throughput is its inverse
    (0 for a zero speed); memory is the peak memory; the detection scores
    are those of the total number of detections against the sum of the
    ground truths (not a mean of per-image scores); the energy and, without
    a carbon tracker, the carbon figure come from the duration and load of
    the record; and the green score is the green score of the record's own
    carbon, accuracy, speed and memory, hence within [0,100]. *)
Theorem returned_metrics_are_consistent
    (env : Env) (name : string) (images : list Enhanced.ImageData)
    (w w' : Enhanced.World) (m : Enhanced.Metrics) :
  Enhanced.benchmark_model env name images w = (Ok m, w') ->
  Enhanced.inference_count m = length images /\
  Enhanced.speed_ms m
  = match images with
    | [] => 0%Q
    | _ => Py.mean (map (image_ms env name) (seq 0 (length images)))
    end /\
  Enhanced.latency_ms m = Enhanced.speed_ms m /\
  Enhanced.throughput_fps m
  = (if ltb 0 (Enhanced.speed_ms m) then (1000 / Enhanced.speed_ms m)%Q else 0%Q) /\
  Enhanced.memory_mb m = Enhanced.peak_memory_mb_ m /\
  Enhanced.f1_score m = f1_value (Enhanced.precision m) (Enhanced.recall m) /\
  (0 <= ground_truth_sum images ->
   Enhanced.accuracy m
   = Spec.accuracy (Enhanced.cars_detected m) (ground_truth_sum images) /\
   Enhanced.precision m
   = Spec.precision (Enhanced.cars_detected m) (ground_truth_sum images) /\
   Enhanced.recall m
   = Spec.recall (Enhanced.cars_detected m) (ground_truth_sum images)) /\
  Enhanced.energy_consumption m
  = Enhanced.calculate_energy_consumption (cuda_is_available env)
      (Enhanced.test_duration_seconds m) (Enhanced.cpu_usage_percent m) /\
  (CARBON_TRACKING env = false ->
   Enhanced.carbon_emissions m = (Enhanced.energy_consumption m * dec 4 10)%Q) /\
  Enhanced.calculate_green_score
    (Enhanced.carbon_emissions m) (Enhanced.accuracy m)
    (Enhanced.speed_ms m) (Enhanced.memory_mb m)
  = Ok (Enhanced.green_score m) /\
  (0 <= Enhanced.green_score m <= 100)%Q.
Proof.
  intros Hrun.
  destruct (Enhanced.load_model env name (Enhanced.start_monitoring w).2)
    as [[model|e] w1] eqn:Hload.
  2:{ pose proof (proj1 (benchmark_model_raise_cases env name images w w1) e Hload)
        as H. rewrite Hrun in H. discriminate. }
  pose proof (process_images_outcome env model name images 0%nat
                (Enhanced.mkLoopState [] [] 0 0) w1) as Hout.
  destruct (Enhanced.process_images env model name images 0
              (Enhanced.mkLoopState [] [] 0 0) w1) as [[st|e] w2] eqn:Hloop.
  2:{ pose proof (proj2 (benchmark_model_raise_cases env name images w w1)
                    model e w2 Hload Hloop) as H.
      rewrite Hrun in H. discriminate. }
  destruct (benchmark_model_metrics env name images w w1 w2 model st Hload Hloop)
    as (m0 & w0 & Hrun0 & Hcount & Hspeed & Hlat & Htp & Hmem & Hdm & Hg & Hen & Hcarbon).
  rewrite Hrun in Hrun0. injection Hrun0 as <- <-.
  destruct Hout as (_ & Ecount & Esum & Etimes & _).
  cbn [Enhanced.loop_inference_count Enhanced.total_ground_truth
       Enhanced.inference_times] in *.
  rewrite Esum, Z.add_0_l in Hdm.
  destruct (detection_metrics_spec_eq _ _ _ _ _ _ _ Hdm) as (_ & Hf1 & Hscores).
  split; [rewrite Hcount, Ecount; lia|].
  split.
  { rewrite Hspeed, Etimes. cbn [app].
    destruct images; reflexivity. }
  split; [exact Hlat|]. split; [exact Htp|]. split; [exact Hmem|].
  split; [exact Hf1|]. split; [exact Hscores|].
  split; [exact Hen|]. split; [exact Hcarbon|]. split; [exact Hg|].
  destruct (enhanced_green_score_value (Enhanced.carbon_emissions m)
              (Enhanced.accuracy m) (Enhanced.speed_ms m) (Enhanced.memory_mb m))
    as (g & Hg' & Hspec).
  rewrite Hg in Hg'. injection Hg' as <-.
  rewrite Hspec. apply spec_green_score_range.
Qed.

Lemma returned_metrics_are_consistent_witness :
  exists m,
    Enhanced.inference_count m = 1%nat /\
    Enhanced.latency_ms m = Enhanced.speed_ms m /\
    (0 <= Enhanced.green_score m <= 100)%Q.
Proof.
  destruct (Enhanced.benchmark_model lab_env "Trained_yolov5"
              [picture "street_1.jpg" 2] Enhanced.initial_world)
    as [[m|e] w'] eqn:Hrun.
  - exists m.
    pose proof (returned_metrics_are_consistent lab_env "Trained_yolov5"
                  [picture "street_1.jpg" 2] Enhanced.initial_world w' m Hrun)
      as (H1 & _ & H3 & _ & _ & _ & _ & _ & _ & _ & H11).
    split; [exact H1|]. split; [exact H3 | exact H11].
  - vm_compute in Hrun. discriminate.
Defined.

(** Called on an empty batch (the handler never does), a run with a
    loadable model still returns: it reports a perfect accuracy,
    precision, recall and F1 of 1 with zero inferences, zero detections,
    zero speed and zero throughput. *)
Theorem empty_batch_run_reports_perfect_scores
    (env : Env) (name : string) (w w1 : Enhanced.World) (model : Model) :
  Enhanced.load_model env name (Enhanced.start_monitoring w).2 = (Ok model, w1) ->
  exists m w',
    Enhanced.benchmark_model env name [] w = (Ok m, w') /\
    Enhanced.inference_count m = 0%nat /\
    Enhanced.cars_detected m = 0%nat /\
    Enhanced.accuracy m = 1%Q /\
    Enhanced.precision m = 1%Q /\
    Enhanced.recall m = 1%Q /\
    (Enhanced.f1_score m == 1)%Q /\
    Enhanced.speed_ms m = 0%Q /\
    Enhanced.throughput_fps m = 0%Q.
Proof.
  intros Hload.
  destruct (benchmark_model_metrics env name [] w w1 w1 model
              (Enhanced.mkLoopState [] [] 0 0) Hload eq_refl)
    as (m & w' & Hrun & Hcount & Hspeed & _ & Htp & _ & Hdm & _).
  exists m, w'. split; [exact Hrun|].
  cbn [Enhanced.loop_inference_count Enhanced.inference_times
       Enhanced.all_detections Enhanced.total_ground_truth] in *.
  rewrite enhanced_metrics_zero_truth in Hdm. cbn in Hdm.
  injection Hdm as Ha Hp Hr Hf Hc.
  rewrite Hspeed in Htp. cbn in Htp.
  repeat split; try congruence.
  - rewrite <- Hf. reflexivity.
  - exact Htp.
Qed.

Lemma empty_batch_run_reports_perfect_scores_witness :
  exists m w',
    Enhanced.benchmark_model lab_env "Trained_yolov8" [] Enhanced.initial_world
    = (Ok m, w') /\
    Enhanced.inference_count m = 0%nat /\
    Enhanced.cars_detected m = 0%nat /\
    Enhanced.accuracy m = 1%Q /\
    Enhanced.precision m = 1%Q /\
    Enhanced.recall m = 1%Q /\
    (Enhanced.f1_score m == 1)%Q /\
    Enhanced.speed_ms m = 0%Q /\
    Enhanced.throughput_fps m = 0%Q.
Proof.
  eapply (empty_batch_run_reports_perfect_scores lab_env "Trained_yolov8"
            Enhanced.initial_world).
  vm_compute. reflexivity.
Defined.

(** ** Models that are not vision models *)

Lemma load_mock_model_returns
    (env : Env) (name : string) (info : Enhanced.ModelInfo) (w : Enhanced.World) :
  Enhanced.SUPPORTED_MODELS !! name = Some info ->
  Enhanced.ctor_of env info = MockModel ->
  exists model w1, Enhanced.load_model env name w = (Ok model, w1).
Proof.
  intros Hs Hctor.
  destruct (Enhanced.model_cache w !! name) as [m|] eqn:Hc.
  { rewrite (enhanced_load_cached env name w m Hc). eexists. eexists. reflexivity. }
  rewrite (enhanced_load_fresh env name w info Hc Hs). cbv zeta.
  rewrite Hctor. cbn [Enhanced.construction_failure].
  eexists. eexists. reflexivity.
Qed.

(** A registry entry that is no vision model (and [detectron2] when the
    library is missing) is given a mock object, so its load cannot fail
    whatever the frameworks do; and since its name reads as neither
    detector nor classifier, a run over a readable batch returns metrics
    with zero cars detected: the model is benchmarked as one that sees
    nothing, with accuracy 0 for any positive total ground truth. *)
Theorem non_vision_model_is_benchmarked_as_blind
    (env : Env) (name : string) (info : Enhanced.ModelInfo)
    (images : list Enhanced.ImageData) (w : Enhanced.World) :
  Enhanced.SUPPORTED_MODELS !! name = Some info ->
  Enhanced.ctor_of env info = MockModel ->
  looks_like_vision env name = false ->
  Forall (decodable env) images ->
  exists m w',
    Enhanced.benchmark_model env name images w = (Ok m, w') /\
    Enhanced.cars_detected m = 0%nat /\
    Enhanced.inference_count m = length images /\
    (0 < ground_truth_sum images ->
     (Enhanced.accuracy m == 0)%Q /\ (Enhanced.precision m == 0)%Q /\
     (Enhanced.recall m == 0)%Q /\ (Enhanced.f1_score m == 0)%Q).
Proof.
  intros Hs Hctor Hnv Hall.
  destruct (load_mock_model_returns env name info
              (Enhanced.start_monitoring w).2 Hs Hctor) as (model & w1 & Hload).
  pose proof (process_images_outcome env model name images 0%nat
                (Enhanced.mkLoopState [] [] 0 0) w1) as Hout.
  destruct (Enhanced.process_images env model name images 0
              (Enhanced.mkLoopState [] [] 0 0) w1) as [[st|e] w2] eqn:Hloop;
    [|contradiction].
  destruct Hout as (_ & Ecount & Esum & _ & Edets).
  specialize (Edets Hnv).
  destruct (benchmark_model_metrics env name images w w1 w2 model st Hload Hloop)
    as (m & w' & Hrun & Hcount & _ & _ & _ & _ & Hdm & _).
  cbn [Enhanced.loop_inference_count Enhanced.total_ground_truth
       Enhanced.all_detections] in *.
  rewrite Edets, Esum, Z.add_0_l in Hdm.
  exists m, w'. split; [exact Hrun|].
  destruct (detection_metrics_spec_eq _ _ _ _ _ _ _ Hdm) as (Hn & Hf & Hscores).
  cbn [length] in Hn.
  split; [exact Hn|]. split; [rewrite Hcount, Ecount; lia|].
  intros Hpos. destruct Hscores as (Ha & Hp & Hr); [lia|].
  rewrite Hn in Ha, Hp, Hr.
  assert (Ht : (0 < inject_Z (ground_truth_sum images))%Q) by now apply inject_Z_pos.
  assert (Hz : (ground_truth_sum images =? 0) = false) by (apply Z.eqb_neq; lia).
  unfold Spec.accuracy, Spec.precision, Spec.recall in *.
  rewrite Hz in Ha, Hp, Hr. cbn [Nat.ltb Nat.leb Z.of_nat] in *.
  change (inject_Z (Z.of_nat 0)) with 0%Q in *.
  assert (Er : (Enhanced.recall m == 0)%Q).
  { rewrite Hr. rewrite Q.min_r; [apply Qdiv_zero_l|].
    assert (0 / inject_Z (ground_truth_sum images) == 0)%Q by apply Qdiv_zero_l.
    lra. }
  assert (Ep : (Enhanced.precision m == 0)%Q) by (rewrite Hp; reflexivity).
  split.
  { rewrite Ha. apply Q.max_l.
    rewrite Qabs_neg by lra.
    assert (1 - - (0 - inject_Z (ground_truth_sum images))
                / inject_Z (ground_truth_sum images) == 0)%Q by (field; lra).
    lra. }
  split; [exact Ep|]. split; [exact Er|].
  rewrite Hf. unfold f1_value.
  destruct (ltb 0 (Enhanced.precision m + Enhanced.recall m)) eqn:E;
    [apply ltb_lt in E; lra | reflexivity].
Qed.

Lemma non_vision_model_is_benchmarked_as_blind_witness :
  exists m w',
    Enhanced.benchmark_model lab_env "roberta_base"
      [picture "street_1.jpg" 2] Enhanced.initial_world = (Ok m, w') /\
    Enhanced.cars_detected m = 0%nat /\
    Enhanced.inference_count m = 1%nat /\
    (0 < ground_truth_sum [picture "street_1.jpg" 2] ->
     (Enhanced.accuracy m == 0)%Q /\ (Enhanced.precision m == 0)%Q /\
     (Enhanced.recall m == 0)%Q /\ (Enhanced.f1_score m == 0)%Q).
Proof.
  apply (non_vision_model_is_benchmarked_as_blind lab_env "roberta_base"
           (Enhanced.mkModelInfo "transformer" "base" "text")).
  - reflexivity.
  - reflexivity.
  - reflexivity.
  - constructor; [|constructor].
    exists (Path "street_1.jpg"), 0%nat. split; reflexivity.
Defined.

(** ** The job handler, step by step *)

Lemma enhanced_constructions_other (e : Event) (w : Enhanced.World) :
  Enhanced.is_construct e = false ->
  Enhanced.constructions (Enhanced.record_event e w) = Enhanced.constructions w.
Proof.
  intros He. unfold Enhanced.constructions.
  cbn [Enhanced.record_event Enhanced.trace].
  rewrite filter_cons_False; [reflexivity|]. now rewrite He.
Qed.

Lemma enhanced_constructions_db (c : bool) (rows : list Enhanced.Row)
    (w : Enhanced.World) :
  Enhanced.constructions (Enhanced.with_db c rows w) = Enhanced.constructions w.
Proof. reflexivity. Qed.

Lemma save_benchmark_results_returns
    (env : Env) (a b : string) (ma mb : Enhanced.Metrics)
    (tc : Enhanced.TestConfig) (w : Enhanced.World) :
  exists saved w',
    Enhanced.save_benchmark_results env a b ma mb tc w = (Ok saved, w') /\
    Enhanced.model_cache w' = Enhanced.model_cache w /\
    Enhanced.constructions w' = Enhanced.constructions w /\
    Enhanced.monitoring w' = Enhanced.monitoring w /\
    Enhanced.db_connection w' = Enhanced.db_connection w /\
    ((saved = false /\ Enhanced.db_rows w' = Enhanced.db_rows w) \/
     (saved = true /\ Enhanced.db_connection w = true /\
      db_execute_fails env = None /\
      Enhanced.db_rows w'
      = Enhanced.db_rows w
        ++ [Enhanced.mkRow
              (default "Vision Model Comparison" (Enhanced.tc_test_name tc))
              a b ma mb (Enhanced.persisted_winner ma mb)
              (Qabs (Enhanced.accuracy ma - Enhanced.accuracy mb) * 100)%Q
              (default 0%nat (Enhanced.tc_image_count tc))])).
Proof.
  unfold Enhanced.save_benchmark_results, Enhanced.emit, Enhanced.set_db.
  st_unfold.
  destruct (Enhanced.db_connection w) eqn:Hconn; cbn [negb]; cbv beta iota.
  - destruct (db_execute_fails env) eqn:Hexec; cbv beta iota;
      eexists; eexists; (split; [reflexivity|]);
      rewrite ?enhanced_constructions_other, ?enhanced_constructions_db
        by reflexivity;
      (split; [reflexivity|]); (split; [reflexivity|]);
      (split; [reflexivity|]); (split; [cbn; congruence|]).
    + left. split; reflexivity.
    + right. repeat split.
  - eexists. eexists. split; [reflexivity|].
    repeat (split; [reflexivity || congruence|]).
    left. split; reflexivity.
Qed.

Lemma connect_effect (env : Env) (w : Enhanced.World) :
  exists w1,
    Enhanced.connect env w = (Ok (db_connect_ok env), w1) /\
    Enhanced.model_cache w1 = Enhanced.model_cache w /\
    Enhanced.constructions w1 = Enhanced.constructions w /\
    Enhanced.monitoring w1 = Enhanced.monitoring w /\
    Enhanced.db_rows w1 = Enhanced.db_rows w /\
    (db_connect_ok env = true -> Enhanced.db_connection w1 = true).
Proof.
  unfold Enhanced.connect, Enhanced.emit, Enhanced.set_db. st_unfold.
  destruct (db_connect_ok env); eexists; (split; [reflexivity|]);
    rewrite ?enhanced_constructions_db, ?enhanced_constructions_other
      by reflexivity;
    repeat split; discriminate.
Qed.

(** The handler on a non-empty batch: connect, run A, run B, score,
    save; the first run that raises decides the error record. *)
Lemma handler_steps (env : Env) (job : Enhanced.Job) (w : Enhanced.World) :
  enhanced_images_data job <> [] ->
  let images := enhanced_images_data job in
  let a := enhanced_model_a job in
  let b := enhanced_model_b job in
  let w1 := (Enhanced.connect env w).2 in
  match Enhanced.benchmark_model env a images w1 with
  | (Raise e, w2) => Enhanced.handler env job w = (Ok (Enhanced.Failed (str e) true), w2)
  | (Ok ma, w2) =>
      match Enhanced.benchmark_model env b images w2 with
      | (Raise e, w3) =>
          Enhanced.handler env job w = (Ok (Enhanced.Failed (str e) true), w3)
      | (Ok mb, w3) =>
          exists sa sb,
            Enhanced.composite_score ma = Ok sa /\
            Enhanced.composite_score mb = Ok sb /\
            Enhanced.handler env job w
            = (Ok (Enhanced.Completed
                     (Enhanced.pick_winner a b sa sb).1
                     (Enhanced.pick_winner a b sa sb).2
                     a ma b mb (length images)),
               if db_connect_ok env
               then (Enhanced.save_benchmark_results env a b ma mb
                       (saved_test_config job) w3).2
               else w3)
      end
  end.
Proof.
  intros Hne. cbv zeta.
  destruct (connect_effect env w) as (w1 & Hconn & _).
  rewrite Hconn. cbn [snd].
  destruct (enhanced_images_data job) as [|d0 rest] eqn:Himgs; [congruence|].
  assert (Hunfold :
    Enhanced.handler env job w
    = try_except
        (Enhanced.connect env ≫= λ database_connected : bool,
         Enhanced.benchmark_model env (enhanced_model_a job) (d0 :: rest)
         ≫= λ metrics_a,
         Enhanced.benchmark_model env (enhanced_model_b job) (d0 :: rest)
         ≫= λ metrics_b,
         lift (Enhanced.composite_score metrics_a) ≫= λ score_a,
         lift (Enhanced.composite_score metrics_b) ≫= λ score_b,
         let '(winner, winner_details) :=
           Enhanced.pick_winner (enhanced_model_a job) (enhanced_model_b job)
             score_a score_b in
         (if database_connected
          then Enhanced.save_benchmark_results env (enhanced_model_a job)
                 (enhanced_model_b job) metrics_a metrics_b
                 (Enhanced.mkTestConfig
                    (Some (String.append (enhanced_model_a job)
                             (String.append " vs "
                                (String.append (enhanced_model_b job)
                                   " Comparison"))))
                    (Some (length (d0 :: rest))))
               ≫= λ _, ret tt
          else ret tt)
         ≫= λ _,
         ret (Enhanced.Completed winner winner_details
                (enhanced_model_a job) metrics_a
                (enhanced_model_b job) metrics_b (length (d0 :: rest))))
        (λ e, ret (Enhanced.Failed (str e) true)) w).
  { unfold Enhanced.handler. cbv zeta.
    fold (enhanced_images_data job) (enhanced_model_a job) (enhanced_model_b job).
    rewrite Himgs. reflexivity. }
  rewrite Hunfold. clear Hunfold. unfold try_except.
  rewrite (st_bind_ok _ _ _ _ _ Hconn).
  destruct (Enhanced.benchmark_model env (enhanced_model_a job) (d0 :: rest) w1)
    as [[ma|e] w2] eqn:Hruna.
  2:{ rewrite (st_bind_raise _ _ _ _ _ Hruna). reflexivity. }
  rewrite (st_bind_ok _ _ _ _ _ Hruna).
  destruct (Enhanced.benchmark_model env (enhanced_model_b job) (d0 :: rest) w2)
    as [[mb|e] w3] eqn:Hrunb.
  2:{ rewrite (st_bind_raise _ _ _ _ _ Hrunb). reflexivity. }
  rewrite (st_bind_ok _ _ _ _ _ Hrunb).
  destruct (composite_score_value ma) as (sa & Hsa & _).
  destruct (composite_score_value mb) as (sb & Hsb & _).
  exists sa, sb. split; [exact Hsa|]. split; [exact Hsb|].
  rewrite (st_bind_lift _ _ _ _ Hsa), (st_bind_lift _ _ _ _ Hsb).
  destruct (Enhanced.pick_winner (enhanced_model_a job) (enhanced_model_b job) sa sb)
    as [winner details].
  cbn [fst snd].
  destruct (db_connect_ok env).
  - unfold saved_test_config. rewrite Himgs.
    destruct (save_benchmark_results_returns env (enhanced_model_a job)
                (enhanced_model_b job) ma mb
                (Enhanced.mkTestConfig
                   (Some (String.append (enhanced_model_a job)
                            (String.append " vs "
                               (String.append (enhanced_model_b job) " Comparison"))))
                   (Some (length (d0 :: rest)))) w3)
      as (saved & w4 & Hsave & _).
    unfold mbind, St_bind, bindM. rewrite Hsave. reflexivity.
  - reflexivity.
Qed.

Lemma benchmark_model_frame
    (env : Env) (name : string) (images : list Enhanced.ImageData)
    (w : Enhanced.World) :
  let w' := (Enhanced.benchmark_model env name images w).2 in
  Enhanced.db_rows w' = Enhanced.db_rows w /\
  Enhanced.db_connection w' = Enhanced.db_connection w /\
  (Enhanced.constructions w <= Enhanced.constructions w'
   <= S (Enhanced.constructions w))%nat /\
  (forall n model, Enhanced.model_cache w !! n = Some model ->
     Enhanced.model_cache w' !! n = Some model) /\
  (cache_within_registry w -> cache_within_registry w') /\
  (forall model, Enhanced.model_cache w !! name = Some model ->
     Enhanced.model_cache w' = Enhanced.model_cache w /\
     Enhanced.constructions w' = Enhanced.constructions w) /\
  Enhanced.monitoring w' = false.
Proof.
  cbv zeta.
  destruct (benchmark_model_decompose env name images w)
    as (w2 & (Hcache & Hcons & Hrows & Hconn) & -> & _).
  pose proof (start_monitoring_steady w) as (Sc & Sn & Sr & Sd).
  pose proof (load_model_keeps_cache_within_registry env name
                (Enhanced.start_monitoring w).2) as Lreg.
  set (w0 := (Enhanced.start_monitoring w).2) in *.
  destruct (load_model_effect env name w0) as (Lother & Lsame & Lkeep & Lcons).
  destruct (load_model_leaves_database env name w0) as (Lrows & Lconn & _).
  set (w1 := (Enhanced.load_model env name w0).2) in *.
  pose proof (stop_monitoring_steady w2) as (Tc & Tn & Tr & Td).
  split; [congruence|]. split; [congruence|]. split; [lia|].
  split; [|split; [|split; [|reflexivity]]].
  - intros n model Hm. rewrite Tc, Hcache. rewrite <- Sc in Hm.
    destruct (decide (n = name)) as [->|Hne].
    + now apply Lkeep.
    + now rewrite (Lother n Hne).
  - unfold cache_within_registry in *. rewrite Tc, Hcache.
    intros Hw. apply Lreg. now rewrite Sc.
  - intros model Hm. rewrite <- Sc in Hm.
    rewrite Tc, Tn, Hcache, Hcons.
    assert (E : w1 = w0) by (unfold w1; eapply Lsame; exact Hm).
    rewrite E. split; [exact Sc | exact Sn].
Qed.

(** ** The job handler never raises *)

(** Both handlers catch everything: for every job, every state of the
    process and every behaviour of the frameworks, the handler returns a
    result record (a comparison or an error record) and raises nothing. *)
Theorem handlers_never_raise (env : Env) :
  (forall (job : Enhanced.Job) (w : Enhanced.World),
     exists r w', Enhanced.handler env job w = (Ok r, w')) /\
  (forall (job : Legacy.Job) (w : Legacy.World),
     exists r w', Legacy.handler env job w = (Ok r, w')).
Proof.
  split; intros job w.
  - destruct (enhanced_images_data job) as [|d0 rest] eqn:Himgs.
    + unfold Enhanced.handler, enhanced_images_data in *. cbv zeta.
      unfold try_except. rewrite Himgs. eexists. eexists. reflexivity.
    + assert (Hne : enhanced_images_data job <> []) by congruence.
      pose proof (handler_steps env job w Hne) as H. cbv zeta in H.
      destruct (Enhanced.benchmark_model env (enhanced_model_a job)
                  (enhanced_images_data job) (Enhanced.connect env w).2)
        as [[ma|e] w2]; [|eexists; eexists; exact H].
      destruct (Enhanced.benchmark_model env (enhanced_model_b job)
                  (enhanced_images_data job) w2)
        as [[mb|e] w3]; [|eexists; eexists; exact H].
      destruct H as (sa & sb & _ & _ & H). eexists. eexists. exact H.
  - unfold Legacy.handler. cbv zeta. unfold try_except.
    match goal with
    | |- context [match ?c w with _ => _ end] => destruct (c w) as [[r|e] w']
    end; eexists; eexists; reflexivity.
Qed.

(** The world a job leaves: that of run A if it raised, else that of
    run B, else that of the save. *)
Lemma handler_world (env : Env) (job : Enhanced.Job) (w : Enhanced.World) :
  enhanced_images_data job <> [] ->
  let images := enhanced_images_data job in
  let a := enhanced_model_a job in
  let b := enhanced_model_b job in
  let w1 := (Enhanced.connect env w).2 in
  let w2 := (Enhanced.benchmark_model env a images w1).2 in
  let w3 := (Enhanced.benchmark_model env b images w2).2 in
  (exists msg, Enhanced.handler env job w = (Ok (Enhanced.Failed msg true), w2)) \/
  (exists msg, Enhanced.handler env job w = (Ok (Enhanced.Failed msg true), w3)) \/
  (exists winner details ma mb,
     (Enhanced.benchmark_model env a images w1).1 = Ok ma /\
     (Enhanced.benchmark_model env b images w2).1 = Ok mb /\
     (winner = a \/ winner = b \/ winner = "Tie") /\
     Enhanced.handler env job w
     = (Ok (Enhanced.Completed winner details a ma b mb (length images)),
        if db_connect_ok env
        then (Enhanced.save_benchmark_results env a b ma mb
                (saved_test_config job) w3).2
        else w3)).
Proof.
  intros Hne. cbv zeta.
  pose proof (handler_steps env job w Hne) as H. cbv zeta in H.
  destruct (Enhanced.benchmark_model env (enhanced_model_a job)
              (enhanced_images_data job) (Enhanced.connect env w).2)
    as [[ma|e] w2]; cbn [fst snd]; [|left; eexists; exact H].
  destruct (Enhanced.benchmark_model env (enhanced_model_b job)
              (enhanced_images_data job) w2)
    as [[mb|e] w3]; cbn [fst snd]; [|right; left; eexists; exact H].
  destruct H as (sa & sb & _ & _ & H).
  right. right. do 4 eexists. split; [reflexivity|]. split; [reflexivity|].
  split; [|exact H].
  destruct (pick_winner_cases (enhanced_model_a job) (enhanced_model_b job) sa sb)
    as [[_ E]|[[_ E]|[_ E]]]; rewrite E; cbn [fst]; auto.
Qed.

(** ** What a job leaves in the database *)

(** A job that fails writes nothing.  A job that completes reports the
    size of its batch and writes at most one row; if the connection was
    made and the insert goes through, it writes exactly one, carrying the
    same two names and the same two metrics records as the returned
    result, the test name "A vs B Comparison", the batch size and the
    winner by accuracy; if the connection or the insert fails, the result
    is returned all the same and no row is written. *)
Theorem saved_row_agrees_with_result
    (env : Env) (job : Enhanced.Job) (w w' : Enhanced.World)
    (r : Enhanced.JobResult) :
  Enhanced.handler env job w = (Ok r, w') ->
  match r with
  | Enhanced.Failed _ _ => Enhanced.db_rows w' = Enhanced.db_rows w
  | Enhanced.Completed winner details a ma b mb n =>
      let row :=
        Enhanced.mkRow
          (String.append a (String.append " vs " (String.append b " Comparison")))
          a b ma mb (Enhanced.persisted_winner ma mb)
          (Qabs (Enhanced.accuracy ma - Enhanced.accuracy mb) * 100)%Q n in
      n = length (enhanced_images_data job) /\
      a = enhanced_model_a job /\ b = enhanced_model_b job /\
      (Enhanced.db_rows w' = Enhanced.db_rows w \/
       Enhanced.db_rows w' = Enhanced.db_rows w ++ [row]) /\
      (db_connect_ok env = true -> db_execute_fails env = None ->
       Enhanced.db_rows w' = Enhanced.db_rows w ++ [row]) /\
      (db_connect_ok env = false \/ db_execute_fails env <> None ->
       Enhanced.db_rows w' = Enhanced.db_rows w)
  end.
Proof.
  intros Hrun.
  destruct (enhanced_images_data job) as [|d0 rest] eqn:Himgs.
  { unfold Enhanced.handler, enhanced_images_data in *. cbv zeta in Hrun.
    unfold try_except in Hrun. rewrite Himgs in Hrun.
    injection Hrun as <- <-. reflexivity. }
  assert (Hne : enhanced_images_data job <> []) by congruence.
  pose proof (handler_world env job w Hne) as H. cbv zeta in H.
  destruct (connect_effect env w) as (w1 & Hconn & _ & _ & _ & Crows & Cdb).
  rewrite Hconn in H. cbn [snd] in H.
  destruct (benchmark_model_frame env (enhanced_model_a job)
              (enhanced_images_data job) w1) as (Arows & Aconn & _).
  set (w2 := (Enhanced.benchmark_model env (enhanced_model_a job)
                (enhanced_images_data job) w1).2) in *.
  destruct (benchmark_model_frame env (enhanced_model_b job)
              (enhanced_images_data job) w2) as (Brows & Bconn & _).
  set (w3 := (Enhanced.benchmark_model env (enhanced_model_b job)
                (enhanced_images_data job) w2).2) in *.
  destruct H as [(msg & H)|[(msg & H)|(winner & details & ma & mb & _ & _ & _ & H)]];
    rewrite Hrun in H; injection H as -> ->.
  - congruence.
  - congruence.
  - cbv zeta. rewrite Himgs. split; [reflexivity|].
    split; [reflexivity|]. split; [reflexivity|].
    assert (E3 : Enhanced.db_rows w3 = Enhanced.db_rows w) by congruence.
    destruct (db_connect_ok env) eqn:Hok.
    + assert (Hdb : Enhanced.db_connection w3 = true)
        by (rewrite Bconn, Aconn; now apply Cdb).
      destruct (save_benchmark_results_returns env (enhanced_model_a job)
                  (enhanced_model_b job) ma mb (saved_test_config job) w3)
        as (saved & w4 & Hsave & _ & _ & _ & _ & Hrows).
      rewrite Hsave. cbn [snd].
      unfold saved_test_config in Hrows. rewrite Himgs in Hrows.
      cbn [default Enhanced.tc_test_name Enhanced.tc_image_count] in Hrows.
      rewrite E3 in Hrows.
      destruct Hrows as [(_ & Hsame)|(_ & _ & Hexec & Hrow)].
      * split; [left; exact Hsame|]. split.
        -- intros _ Hexec.
           destruct (save_benchmark_results_row env (enhanced_model_a job)
                       (enhanced_model_b job) ma mb (saved_test_config job)
                       w3 Hdb Hexec)
             as (row & w5 & Hsave' & Hrows' & _).
           rewrite Hsave in Hsave'. injection Hsave' as _ <-.
           rewrite Hsame, E3 in Hrows'.
           apply (f_equal (@length _)) in Hrows'.
           rewrite length_app in Hrows'. cbn in Hrows'. lia.
        -- intros _. exact Hsame.
      * split; [right; exact Hrow|]. split.
        -- intros _ _. exact Hrow.
        -- intros [Hno|Hfail]; [discriminate | contradiction].
    + split; [left; exact E3|]. split.
      * intros Hno. discriminate.
      * intros _. exact E3.
Qed.

Lemma saved_row_agrees_with_result_witness :
  exists winner details a ma b mb n w',
    Enhanced.handler lab_env
      (job_of "efficientnet_b0" "Trained_yolov5" [picture "street_1.jpg" 2])
      Enhanced.initial_world
    = (Ok (Enhanced.Completed winner details a ma b mb n), w') /\
    Enhanced.db_rows w'
    = [Enhanced.mkRow
         (String.append a (String.append " vs " (String.append b " Comparison")))
         a b ma mb (Enhanced.persisted_winner ma mb)
         (Qabs (Enhanced.accuracy ma - Enhanced.accuracy mb) * 100)%Q n].
Proof.
  destruct (Enhanced.handler lab_env
              (job_of "efficientnet_b0" "Trained_yolov5" [picture "street_1.jpg" 2])
              Enhanced.initial_world) as [[r|e] w'] eqn:Hrun;
    [|vm_compute in Hrun; discriminate].
  pose proof (saved_row_agrees_with_result lab_env _ _ w' r Hrun) as H.
  destruct r as [winner details a ma b mb n|msg ts];
    [|vm_compute in Hrun; discriminate].
  destruct H as (_ & _ & _ & _ & Hrow & _).
  exists winner, details, a, ma, b, mb, n, w'. split; [reflexivity|].
  apply Hrow; reflexivity.
Defined.

(** ** One job, two runs *)

(** On a non-empty batch the handler connects, benchmarks model A and
    then model B on the same images.  If run A raises, the job fails with
    that exception's text and ends in the state run A left, so model B is
    neither loaded nor run; if run B raises, the job fails with its text;
    otherwise the job completes with exactly the two metrics records the
    runs returned, the batch size, and as winner one of the two names or
    "Tie". *)
Theorem job_result_reflects_runs
    (env : Env) (job : Enhanced.Job) (w : Enhanced.World) :
  enhanced_images_data job <> [] ->
  let images := enhanced_images_data job in
  let a := enhanced_model_a job in
  let b := enhanced_model_b job in
  match Enhanced.benchmark_model env a images (Enhanced.connect env w).2 with
  | (Raise e, w2) =>
      Enhanced.handler env job w = (Ok (Enhanced.Failed (str e) true), w2)
  | (Ok ma, w2) =>
      match Enhanced.benchmark_model env b images w2 with
      | (Raise e, w3) =>
          Enhanced.handler env job w = (Ok (Enhanced.Failed (str e) true), w3)
      | (Ok mb, _) =>
          exists winner details,
            (Enhanced.handler env job w).1
            = Ok (Enhanced.Completed winner details a ma b mb (length images)) /\
            (winner = a \/ winner = b \/ winner = "Tie")
      end
  end.
Proof.
  intros Hne. cbv zeta.
  pose proof (handler_steps env job w Hne) as H. cbv zeta in H.
  destruct (Enhanced.benchmark_model env (enhanced_model_a job)
              (enhanced_images_data job) (Enhanced.connect env w).2)
    as [[ma|e] w2]; [|exact H].
  destruct (Enhanced.benchmark_model env (enhanced_model_b job)
              (enhanced_images_data job) w2)
    as [[mb|e] w3]; [|exact H].
  destruct H as (sa & sb & _ & _ & H).
  do 2 eexists. rewrite H. cbn [fst]. split; [reflexivity|].
  destruct (pick_winner_cases (enhanced_model_a job) (enhanced_model_b job) sa sb)
    as [[_ E]|[[_ E]|[_ E]]]; rewrite E; cbn [fst]; auto.
Qed.

Lemma job_result_reflects_runs_witness :
  Enhanced.handler lab_env
    (job_of "resnet50" "Trained_yolov5" [picture "street_1.jpg" 2])
    Enhanced.initial_world
  = (Ok (Enhanced.Failed "Unsupported model: resnet50" true),
     (Enhanced.benchmark_model lab_env "resnet50" [picture "street_1.jpg" 2]
        (Enhanced.connect lab_env Enhanced.initial_world).2).2).
Proof.
  pose proof (job_result_reflects_runs lab_env
                (job_of "resnet50" "Trained_yolov5" [picture "street_1.jpg" 2])
                Enhanced.initial_world) as H.
  cbv zeta in H.
  change (enhanced_images_data
            (job_of "resnet50" "Trained_yolov5" [picture "street_1.jpg" 2]))
    with [picture "street_1.jpg" 2] in H.
  change (enhanced_model_a
            (job_of "resnet50" "Trained_yolov5" [picture "street_1.jpg" 2]))
    with "resnet50" in H.
  destruct (Enhanced.benchmark_model lab_env "resnet50" [picture "street_1.jpg" 2]
              (Enhanced.connect lab_env Enhanced.initial_world).2)
    as [[ma|e] w2] eqn:Hrun.
  - vm_compute in Hrun. discriminate.
  - assert (He : e = ValueError "Unsupported model: resnet50")
      by (vm_compute in Hrun; congruence).
    rewrite He in H. apply H. discriminate.
Defined.

(** ** What a job does to the models *)

(** A job constructs at most two models, and none at all when both of
    its models are already cached, in which case the cache is left as it
    was; it never evicts or replaces a cached handle; it keeps the cache
    inside the registry; and it leaves the monitor stopped. *)
Theorem job_reuses_cached_models
    (env : Env) (job : Enhanced.Job) (w : Enhanced.World) :
  let w' := (Enhanced.handler env job w).2 in
  (Enhanced.constructions w <= Enhanced.constructions w'
   <= 2 + Enhanced.constructions w)%nat /\
  (forall name model, Enhanced.model_cache w !! name = Some model ->
     Enhanced.model_cache w' !! name = Some model) /\
  (cache_within_registry w -> cache_within_registry w') /\
  (is_Some (Enhanced.model_cache w !! enhanced_model_a job) ->
   is_Some (Enhanced.model_cache w !! enhanced_model_b job) ->
   Enhanced.constructions w' = Enhanced.constructions w /\
   Enhanced.model_cache w' = Enhanced.model_cache w) /\
  (enhanced_images_data job <> [] -> Enhanced.monitoring w' = false).
Proof.
  cbv zeta.
  destruct (enhanced_images_data job) as [|d0 rest] eqn:Himgs.
  { assert (E : Enhanced.handler env job w
                = (Ok (Enhanced.Failed "No images provided for benchmarking" false), w)).
    { unfold Enhanced.handler, enhanced_images_data in *. cbv zeta.
      unfold try_except. now rewrite Himgs. }
    rewrite E. cbn [snd]. repeat split; try lia; auto. congruence. }
  assert (Hne : enhanced_images_data job <> []) by congruence.
  pose proof (handler_world env job w Hne) as H. cbv zeta in H.
  rewrite Himgs in H.
  destruct (connect_effect env w) as (w1 & Hconn & Ccache & Ccons & _ & _ & _).
  rewrite Hconn in H. cbn [snd] in H.
  destruct (benchmark_model_frame env (enhanced_model_a job) (d0 :: rest) w1)
    as (_ & _ & Acons & Akeep & Areg & Asame & Amon).
  set (w2 := (Enhanced.benchmark_model env (enhanced_model_a job)
                (d0 :: rest) w1).2) in *.
  destruct (benchmark_model_frame env (enhanced_model_b job) (d0 :: rest) w2)
    as (_ & _ & Bcons & Bkeep & Breg & Bsame & Bmon).
  set (w3 := (Enhanced.benchmark_model env (enhanced_model_b job)
                (d0 :: rest) w2).2) in *.
  assert (Creg : cache_within_registry w -> cache_within_registry w1)
    by (unfold cache_within_registry; now rewrite Ccache).
  assert (Hcached2 :
    is_Some (Enhanced.model_cache w !! enhanced_model_a job) ->
    Enhanced.constructions w2 = Enhanced.constructions w /\
    Enhanced.model_cache w2 = Enhanced.model_cache w).
  { intros [m Hm]. rewrite <- Ccache in Hm.
    destruct (Asame m Hm) as (E1 & E2). split; congruence. }
  assert (Hcached3 :
    is_Some (Enhanced.model_cache w !! enhanced_model_a job) ->
    is_Some (Enhanced.model_cache w !! enhanced_model_b job) ->
    Enhanced.constructions w3 = Enhanced.constructions w /\
    Enhanced.model_cache w3 = Enhanced.model_cache w).
  { intros Ha [m Hm]. destruct (Hcached2 Ha) as (E1 & E2).
    rewrite <- E2 in Hm. destruct (Bsame m Hm) as (E3 & E4).
    split; congruence. }
  destruct H as [(msg & H)|[(msg & H)|(winner & details & ma & mb & _ & _ & _ & H)]];
    rewrite H; cbn [snd].
  - split; [lia|]. split; [intros n m Hm; apply Akeep; now rewrite Ccache|].
    split; [auto|]. split; [intros Ha _; now apply Hcached2 | intros _; exact Amon].
  - split; [lia|].
    split; [intros n m Hm; apply Bkeep, Akeep; now rewrite Ccache|].
    split; [auto|]. split; [exact Hcached3 | intros _; exact Bmon].
  - assert (Hfinal :
      exists w4,
        (if db_connect_ok env
         then (Enhanced.save_benchmark_results env (enhanced_model_a job)
                 (enhanced_model_b job) ma mb (saved_test_config job) w3).2
         else w3) = w4 /\
        Enhanced.model_cache w4 = Enhanced.model_cache w3 /\
        Enhanced.constructions w4 = Enhanced.constructions w3 /\
        Enhanced.monitoring w4 = Enhanced.monitoring w3).
    { destruct (db_connect_ok env).
      - destruct (save_benchmark_results_returns env (enhanced_model_a job)
                    (enhanced_model_b job) ma mb (saved_test_config job) w3)
          as (saved & w4 & Hsave & Sc & Sn & Sm & _).
        exists w4. rewrite Hsave. cbn [snd]. repeat split; assumption.
      - exists w3. repeat split. }
    destruct Hfinal as (w4 & -> & Fc & Fn & Fm).
    unfold cache_within_registry in *. rewrite Fc, Fn, Fm.
    split; [lia|].
    split; [intros n m Hm; apply Bkeep, Akeep; now rewrite Ccache|].
    split; [auto|]. split; [exact Hcached3 | intros _; exact Bmon].
Qed.

(** ** What [detect_cars] lets through *)

Lemma confident_cars_only (bs : list Box) :
  Forall (fun d => Enhanced.det_class d = "car" /\
                   (dec 5 10 < Enhanced.det_confidence d)%Q)
         (map Enhanced.car_of (List.filter Enhanced.is_confident_car bs)) /\
  (length (map Enhanced.car_of (List.filter Enhanced.is_confident_car bs))
   <= length bs)%nat.
Proof.
  induction bs as [|b bs [IH1 IH2]]; [split; [constructor | reflexivity]|].
  cbn [List.filter].
  destruct (Enhanced.is_confident_car b) eqn:E.
  - cbn [map length]. split; [|lia].
    constructor; [|exact IH1].
    unfold Enhanced.is_confident_car in E.
    apply andb_true_iff in E as [_ E]. apply ltb_lt in E.
    split; [reflexivity | exact E].
  - split; [exact IH1 | cbn [length]; lia].
Qed.

(** [detect_cars] of the enhanced worker never raises, whatever the
    model call does.  Everything it returns is labelled "car" with a
    confidence above 0.3, and above 0.5 when the name reads as a detector;
    a classifier yields at most one detection; a name that reads as
    neither detector nor classifier yields none, and then the model is
    not called at all.  At most one model call is made. *)
Theorem detections_are_confident_cars
    (env : Env) (model : Model) (img : Image) (name : string)
    (w : Enhanced.World) :
  exists ds w',
    Enhanced.detect_cars env model img name w = (Ok ds, w') /\
    Forall (fun d => Enhanced.det_class d = "car" /\
                     (dec 3 10 < Enhanced.det_confidence d)%Q) ds /\
    ((contains "yolo" (lower name)
      || (contains "detectron2" (lower name) && DETECTRON2_AVAILABLE env))%bool = true ->
     Forall (fun d => (dec 5 10 < Enhanced.det_confidence d)%Q) ds) /\
    ((contains "yolo" (lower name)
      || (contains "detectron2" (lower name) && DETECTRON2_AVAILABLE env))%bool = false ->
     (length ds <= 1)%nat) /\
    (looks_like_vision env name = false -> ds = [] /\ w' = w) /\
    (w' = w \/ w' = Enhanced.record_event (EvModelCall model) w).
Proof.
  assert (Hweaken : forall ds,
    Forall (fun d => Enhanced.det_class d = "car" /\
                     (dec 5 10 < Enhanced.det_confidence d)%Q) ds ->
    Forall (fun d => Enhanced.det_class d = "car" /\
                     (dec 3 10 < Enhanced.det_confidence d)%Q) ds /\
    Forall (fun d => (dec 5 10 < Enhanced.det_confidence d)%Q) ds).
  { intros ds H. split; eapply Forall_impl; try exact H.
    - intros d [Hc Hq]. split; [exact Hc|]. unfold dec in *. lra.
    - intros d [_ Hq]. exact Hq. }
  unfold looks_like_vision, Enhanced.detect_cars, Enhanced.emit. st_unfold.
  destruct (contains "yolo" (lower name)) eqn:Hy; cbn [orb].
  { destruct (model_call env model img) as [[bs|p]|e];
      eexists; eexists; (split; [reflexivity|]);
      try (destruct (Hweaken _ (proj1 (confident_cars_only bs))) as [H3 H5];
           split; [exact H3|]; split; [intros _; exact H5|]);
      try (split; [constructor|]; split; [intros _; constructor|]);
      (split; [discriminate|]); (split; [discriminate|]); right; reflexivity. }
  destruct (contains "detectron2" (lower name) && DETECTRON2_AVAILABLE env)%bool
    eqn:Hd; cbn [orb].
  { destruct (model_call env model img) as [[bs|p]|e];
      eexists; eexists; (split; [reflexivity|]);
      try (destruct (Hweaken _ (proj1 (confident_cars_only bs))) as [H3 H5];
           split; [exact H3|]; split; [intros _; exact H5|]);
      try (split; [constructor|]; split; [intros _; constructor|]);
      (split; [discriminate|]); (split; [discriminate|]); right; reflexivity. }
  destruct (contains "efficientnet" (lower name)) eqn:He.
  { destruct (model_call env model img) as [[bs|p]|e];
      try (eexists; eexists; (split; [reflexivity|]);
           (split; [constructor|]); (split; [discriminate|]);
           (split; [intros _; cbn; lia|]); (split; [discriminate|]);
           right; reflexivity).
    destruct (ltb (dec 3 10) p) eqn:Hp;
      eexists; eexists; (split; [reflexivity|]).
    - apply ltb_lt in Hp.
      split; [constructor; [split; [reflexivity | exact Hp] | constructor]|].
      split; [discriminate|]. split; [intros _; cbn; lia|].
      split; [discriminate | right; reflexivity].
    - split; [constructor|]. split; [discriminate|].
      split; [intros _; cbn; lia|].
      split; [discriminate | right; reflexivity]. }
  eexists. eexists. split; [reflexivity|].
  split; [constructor|]. split; [discriminate|].
  split; [intros _; cbn; lia|]. split; [intros _; split; reflexivity|].
  left. reflexivity.
Qed.

(** In the legacy worker the classifier branch does not look at the
    model: for a name that reads as a classifier and not as a detector,
    [detect_cars] returns one whole-image car of confidence 0.8 for every
    image and calls nothing; and a detector's boxes of class 2 are all
    kept, whatever their confidence. *)
Theorem legacy_detection_ignores_confidence
    (env : Env) (model : Model) (img : Image) (name : string)
    (w : Legacy.World) :
  (contains "yolo" (lower name) = false ->
   (contains "detectron2" (lower name) && DETECTRON2_AVAILABLE env)%bool = false ->
   contains "efficientnet" (lower name) = true ->
   Legacy.detect_cars env model img name w
   = (Ok [Enhanced.mkDetection "car" (dec 8 10) [0%Q; 0%Q; 224%Q; 224%Q]], w)) /\
  (contains "yolo" (lower name) = true ->
   forall bs, model_call env model img = Ok (Boxes bs) ->
   exists ds w',
     Legacy.detect_cars env model img name w = (Ok ds, w') /\
     length ds = length (List.filter (fun b => box_cls b =? 2) bs) /\
     map Enhanced.det_confidence ds
     = map box_conf (List.filter (fun b => box_cls b =? 2) bs)).
Proof.
  split.
  - intros Hy Hd He. unfold Legacy.detect_cars. now rewrite Hy, Hd, He.
  - intros Hy bs Hcall. unfold Legacy.detect_cars, Legacy.emit. rewrite Hy.
    st_unfold. rewrite Hcall.
    eexists. eexists. split; [reflexivity|].
    split; [now rewrite length_map|].
    rewrite map_map. reflexivity.
Qed.

Lemma legacy_detection_ignores_confidence_witness :
  Legacy.detect_cars lab_env (mkModel (TimmCreateModel "efficientnet_b0") 0)
    (mkImage 0 Normalized224) "efficientnet_b0" Legacy.initial_world
  = (Ok [Enhanced.mkDetection "car" (dec 8 10) [0%Q; 0%Q; 224%Q; 224%Q]],
     Legacy.initial_world).
Proof.
  apply (proj1 (legacy_detection_ignores_confidence lab_env
                  (mkModel (TimmCreateModel "efficientnet_b0") 0)
                  (mkImage 0 Normalized224) "efficientnet_b0"
                  Legacy.initial_world)); reflexivity.
Defined.

(** ** The monitor of the enhanced worker *)

Lemma py_max_ge_l (a b : Q) : (a <= Py.max a b)%Q.
Proof. rewrite py_max_Qmax. apply Q.le_max_l. Qed.

Lemma py_max_ge_r (a b : Q) : (b <= Py.max a b)%Q.
Proof. rewrite py_max_Qmax. apply Q.le_max_r. Qed.

Lemma fold_max_ge_acc (l : list Q) (acc : Q) : (acc <= fold_left Py.max l acc)%Q.
Proof.
  revert acc. induction l as [|x l IH]; intros acc; cbn [fold_left]; [lra|].
  eapply Qle_trans; [apply (py_max_ge_l acc x) | apply IH].
Qed.

Lemma fold_max_ge_elem (l : list Q) (acc x : Q) :
  In x l -> (x <= fold_left Py.max l acc)%Q.
Proof.
  revert acc. induction l as [|y l IH]; intros acc Hin; [destruct Hin|].
  cbn [fold_left]. destruct Hin as [->|Hin].
  - eapply Qle_trans; [apply (py_max_ge_r acc x) | apply fold_max_ge_acc].
  - now apply IH.
Qed.

Lemma np_max_upper (l : list Q) (x : Q) : In x l -> (x <= np_max l)%Q.
Proof.
  destruct l as [|y l]; [intros []|]. cbn [np_max]. intros [->|Hin].
  - apply fold_max_ge_acc.
  - now apply fold_max_ge_elem.
Qed.

Lemma fold_sum_bound (l : list Q) (acc bound : Q) :
  (forall x, In x l -> (x <= bound)%Q) ->
  (fold_left Qplus l acc <= acc + inject_Z (Z.of_nat (length l)) * bound)%Q.
Proof.
  revert acc. induction l as [|y l IH]; intros acc H.
  - cbn [fold_left length]. change (inject_Z (Z.of_nat 0)) with 0%Q. lra.
  - cbn [fold_left length]. rewrite Nat2Z.inj_succ, <- Z.add_1_r, inject_Z_plus.
    assert (Hy : (y <= bound)%Q) by (apply H; now left).
    assert (IH' := IH (acc + y)%Q (fun x Hx => H x (or_intror Hx))).
    change (inject_Z 1) with 1%Q. lra.
Qed.

Lemma mean_le_max (l : list Q) : l <> [] -> (Py.mean l <= np_max l)%Q.
Proof.
  intros Hne. unfold Py.mean, Py.sum.
  assert (Hlen : (0 < inject_Z (Z.of_nat (length l)))%Q).
  { apply inject_nat_pos. destruct l; [congruence | cbn; lia]. }
  apply Qle_shift_div_r; [exact Hlen|].
  pose proof (fold_sum_bound l 0 (np_max l) (np_max_upper l)) as H.
  lra.
Qed.

Lemma tick_effect (s : Sample) (st : AdvancedSystemMonitor.State) :
  let st' := (AdvancedSystemMonitor.tick s st).1 in
  AdvancedSystemMonitor.monitoring st' = AdvancedSystemMonitor.monitoring st /\
  AdvancedSystemMonitor.initial_memory st'
  = AdvancedSystemMonitor.initial_memory st /\
  (AdvancedSystemMonitor.peak_memory st
   <= AdvancedSystemMonitor.peak_memory st')%Q /\
  (exists more,
     AdvancedSystemMonitor.cpu_readings st'
     = AdvancedSystemMonitor.cpu_readings st ++ more) /\
  (exists more,
     AdvancedSystemMonitor.gpu_memory_readings st'
     = AdvancedSystemMonitor.gpu_memory_readings st ++ more) /\
  (healthy s ->
   (AdvancedSystemMonitor.tick s st).2 = true /\
   (forall m, rss_mb s = Ok m -> (m <= AdvancedSystemMonitor.peak_memory st')%Q) /\
   length (AdvancedSystemMonitor.cpu_readings st')
   = S (length (AdvancedSystemMonitor.cpu_readings st))).
Proof.
  cbv zeta. unfold AdvancedSystemMonitor.tick.
  destruct (rss_mb s) as [m|e] eqn:Hm.
  2:{ cbn [fst snd]. split; [reflexivity|]. split; [reflexivity|].
      split; [apply Qle_refl|].
      split; [exists []; now rewrite app_nil_r|].
      split; [exists []; now rewrite app_nil_r|].
      intros [[m Hm'] _]. congruence. }
  destruct (cpu_percent s) as [c|e] eqn:Hc.
  2:{ cbn [fst snd AdvancedSystemMonitor.monitoring
           AdvancedSystemMonitor.initial_memory AdvancedSystemMonitor.peak_memory
           AdvancedSystemMonitor.cpu_readings
           AdvancedSystemMonitor.gpu_memory_readings].
      split; [reflexivity|]. split; [reflexivity|].
      split; [apply py_max_ge_l|].
      split; [exists []; now rewrite app_nil_r|].
      split; [exists []; now rewrite app_nil_r|].
      intros [_ [c Hc']]. congruence. }
  cbn [fst snd AdvancedSystemMonitor.monitoring AdvancedSystemMonitor.initial_memory
       AdvancedSystemMonitor.peak_memory AdvancedSystemMonitor.cpu_readings
       AdvancedSystemMonitor.gpu_memory_readings].
  split; [reflexivity|]. split; [reflexivity|]. split; [apply py_max_ge_l|].
  split; [eexists; reflexivity|].
  split.
  { destruct (gpu_allocated_mb s) as [[g|e]|];
      [eexists; reflexivity | exists []; now rewrite app_nil_r
       | exists []; now rewrite app_nil_r]. }
  intros _. split; [reflexivity|]. split.
  - intros m' Hm'. injection Hm' as <-. apply py_max_ge_r.
  - rewrite length_app. cbn. lia.
Qed.

Lemma monitor_loop_effect (samples : list Sample) :
  forall st : AdvancedSystemMonitor.State,
    let st' := AdvancedSystemMonitor.monitor_loop samples st in
    AdvancedSystemMonitor.monitoring st' = AdvancedSystemMonitor.monitoring st /\
    AdvancedSystemMonitor.initial_memory st'
    = AdvancedSystemMonitor.initial_memory st /\
    (AdvancedSystemMonitor.peak_memory st
     <= AdvancedSystemMonitor.peak_memory st')%Q /\
    (exists more,
       AdvancedSystemMonitor.cpu_readings st'
       = AdvancedSystemMonitor.cpu_readings st ++ more) /\
    (exists more,
       AdvancedSystemMonitor.gpu_memory_readings st'
       = AdvancedSystemMonitor.gpu_memory_readings st ++ more) /\
    (AdvancedSystemMonitor.monitoring st = true -> Forall healthy samples ->
     (forall s m, In s samples -> rss_mb s = Ok m ->
        (m <= AdvancedSystemMonitor.peak_memory st')%Q) /\
     length (AdvancedSystemMonitor.cpu_readings st')
     = (length (AdvancedSystemMonitor.cpu_readings st) + length samples)%nat).
Proof.
  induction samples as [|s rest IH]; intros st; cbv zeta.
  { cbn [AdvancedSystemMonitor.monitor_loop].
    split; [reflexivity|]. split; [reflexivity|]. split; [apply Qle_refl|].
    split; [exists []; now rewrite app_nil_r|].
    split; [exists []; now rewrite app_nil_r|].
    intros _ _. split; [intros s m [] | cbn [length]; lia]. }
  cbn [AdvancedSystemMonitor.monitor_loop].
  destruct (AdvancedSystemMonitor.monitoring st) eqn:Hmon.
  2:{ split; [exact Hmon|]. split; [reflexivity|]. split; [apply Qle_refl|].
      split; [exists []; now rewrite app_nil_r|].
      split; [exists []; now rewrite app_nil_r|].
      discriminate. }
  pose proof (tick_effect s st) as (Tm & Ti & Tp & (c1 & Tc) & (g1 & Tg) & Th).
  destruct (AdvancedSystemMonitor.tick s st) as [st1 continue] eqn:Htick.
  cbn [fst snd] in *.
  destruct continue.
  - specialize (IH st1). cbv zeta in IH.
    destruct IH as (Im & Ii & Ip & (c2 & Ic) & (g2 & Ig) & Ih).
    split; [congruence|]. split; [congruence|]. split; [lra|].
    split; [exists (c1 ++ c2); rewrite Ic, Tc; now rewrite app_assoc|].
    split; [exists (g1 ++ g2); rewrite Ig, Tg; now rewrite app_assoc|].
    intros _ Hall. inversion Hall as [|? ? Hs Hrest]; subst.
    destruct (Th Hs) as (_ & Hrss & Hlen).
    destruct Ih as (Irss & Ilen); [congruence | exact Hrest |].
    split.
    + intros s' m [<-|Hin] Hm.
      * eapply Qle_trans; [apply (Hrss m Hm) | exact Ip].
      * now apply (Irss s' m).
    + rewrite Ilen, Hlen. cbn [length]. lia.
  - split; [congruence|]. split; [congruence|]. split; [exact Tp|].
    split; [exists c1; exact Tc|]. split; [exists g1; exact Tg|].
    intros _ Hall. inversion Hall as [|? ? Hs Hrest]; subst.
    destruct (Th Hs) as (Hcont & _). discriminate.
Qed.

(** The monitor of the enhanced worker is never reset.  After any
    monitored run (from any earlier state) the flag is down, the peak
    memory is at least what it was, and the CPU and GPU readings of
    earlier runs are still there, with the new ones appended; so over two
    runs in a row, as in one job, the peak reported for the second model
    is never below the one reported for the first.  The averages it
    reports are never above the maxima, and all four are 0 when nothing
    was sampled.  When every query succeeds, each memory sample is at
    most the peak and each sampling adds one CPU reading. *)
Theorem monitor_accumulates_across_runs
    (first second : list Sample) (st : AdvancedSystemMonitor.State) :
  let st1 := AdvancedSystemMonitor.run first st in
  let st2 := AdvancedSystemMonitor.run second st1 in
  let r1 := AdvancedSystemMonitor.get_metrics st1 in
  let r2 := AdvancedSystemMonitor.get_metrics st2 in
  AdvancedSystemMonitor.monitoring st1 = false /\
  (AdvancedSystemMonitor.peak_memory st
   <= AdvancedSystemMonitor.peak_memory_mb r1)%Q /\
  (AdvancedSystemMonitor.peak_memory_mb r1
   <= AdvancedSystemMonitor.peak_memory_mb r2)%Q /\
  (exists more,
     AdvancedSystemMonitor.cpu_readings st2
     = AdvancedSystemMonitor.cpu_readings st1 ++ more) /\
  (AdvancedSystemMonitor.avg_cpu_percent r1
   <= AdvancedSystemMonitor.max_cpu_percent r1)%Q /\
  (AdvancedSystemMonitor.avg_gpu_memory_mb r1
   <= AdvancedSystemMonitor.max_gpu_memory_mb r1)%Q /\
  (AdvancedSystemMonitor.cpu_readings st1 = [] ->
   AdvancedSystemMonitor.avg_cpu_percent r1 = 0%Q /\
   AdvancedSystemMonitor.max_cpu_percent r1 = 0%Q) /\
  (AdvancedSystemMonitor.gpu_memory_readings st1 = [] ->
   AdvancedSystemMonitor.avg_gpu_memory_mb r1 = 0%Q /\
   AdvancedSystemMonitor.max_gpu_memory_mb r1 = 0%Q) /\
  (Forall healthy first ->
   (forall s m, In s first -> rss_mb s = Ok m ->
      (m <= AdvancedSystemMonitor.peak_memory_mb r1)%Q) /\
   length (AdvancedSystemMonitor.cpu_readings st1)
   = (length (AdvancedSystemMonitor.cpu_readings st) + length first)%nat).
Proof.
  cbv zeta. unfold AdvancedSystemMonitor.run.
  pose proof (monitor_loop_effect first (AdvancedSystemMonitor.start_monitoring st))
    as (_ & _ & P1 & _ & _ & H1).
  cbv zeta in P1, H1.
  set (l1 := AdvancedSystemMonitor.monitor_loop first
               (AdvancedSystemMonitor.start_monitoring st)) in *.
  pose proof (monitor_loop_effect second
                (AdvancedSystemMonitor.start_monitoring
                   (AdvancedSystemMonitor.stop_monitoring l1)))
    as (_ & _ & P2 & C2 & _ & _).
  cbv zeta in P2, C2.
  cbn [AdvancedSystemMonitor.get_metrics AdvancedSystemMonitor.stop_monitoring
       AdvancedSystemMonitor.start_monitoring
       AdvancedSystemMonitor.monitoring AdvancedSystemMonitor.peak_memory
       AdvancedSystemMonitor.cpu_readings AdvancedSystemMonitor.gpu_memory_readings
       AdvancedSystemMonitor.peak_memory_mb AdvancedSystemMonitor.avg_cpu_percent
       AdvancedSystemMonitor.max_cpu_percent AdvancedSystemMonitor.avg_gpu_memory_mb
       AdvancedSystemMonitor.max_gpu_memory_mb] in *.
  split; [reflexivity|]. split; [exact P1|]. split; [exact P2|].
  split; [exact C2|].
  split.
  { destruct (AdvancedSystemMonitor.cpu_readings l1) as [|x l] eqn:E; [lra|].
    apply mean_le_max. discriminate. }
  split.
  { destruct (AdvancedSystemMonitor.gpu_memory_readings l1) as [|x l] eqn:E; [lra|].
    apply mean_le_max. discriminate. }
  split; [intros ->; split; reflexivity|].
  split; [intros ->; split; reflexivity|].
  intros Hall. apply H1; [reflexivity | exact Hall].
Qed.

Lemma monitor_accumulates_across_runs_witness :
  let first := [mkSample (Ok 300%Q) (Ok 40%Q) None; mkSample (Ok 900%Q) (Ok 60%Q) None] in
  let st1 := AdvancedSystemMonitor.run first (AdvancedSystemMonitor.init 200) in
  (forall s m, In s first -> rss_mb s = Ok m ->
     (m <= AdvancedSystemMonitor.peak_memory_mb (AdvancedSystemMonitor.get_metrics st1))%Q) /\
  length (AdvancedSystemMonitor.cpu_readings st1) = 2%nat.
Proof.
  cbv zeta.
  apply (monitor_accumulates_across_runs
           [mkSample (Ok 300%Q) (Ok 40%Q) None; mkSample (Ok 900%Q) (Ok 60%Q) None]
           [] (AdvancedSystemMonitor.init 200)).
  repeat constructor; eexists; reflexivity.
Defined.

(** ** Model sizes *)

Lemma table_size_nonneg (sizes : list (string * Q)) (name : string) :
  (forall k s, In (k, s) sizes -> (0 <= s)%Q) ->
  (0 <= ModelSize.table_size sizes name)%Q.
Proof.
  induction sizes as [|[k s] rest IH]; intros H; cbn [ModelSize.table_size]; [lra|].
  destruct (contains k (lower name)).
  - apply (H k s). now left.
  - apply IH. intros k' s' Hin. apply (H k' s'). now right.
Qed.

Lemma table_size_default (sizes : list (string * Q)) (name : string) :
  (forall k s, In (k, s) sizes -> contains k (lower name) = false) ->
  ModelSize.table_size sizes name = 50%Q.
Proof.
  induction sizes as [|[k s] rest IH]; intros H; cbn [ModelSize.table_size];
    [reflexivity|].
  rewrite (H k s) by now left.
  apply IH. intros k' s' Hin. apply (H k' s'). now right.
Qed.

(** [get_model_size] always yields a non-negative size: the byte count of
    a torch model, else the first table entry whose key occurs in the
    lower-cased name, else 50.  Every name of the enhanced registry has an
    entry in the table of the enhanced worker, so that a model without
    parameters (the mock of a non-vision model) is reported with its table
    size, never the default; the table of the legacy worker has no entry
    for the non-vision names of its registry, which get 50. *)
Theorem size_table_covers_registry :
  (forall sizes shape name,
     (forall k s, In (k, s) sizes -> (0 <= s)%Q) ->
     (0 <= ModelSize.get_model_size sizes shape name)%Q) /\
  (forall sizes name,
     (forall k s, In (k, s) sizes -> contains k (lower name) = false) ->
     ModelSize.get_model_size sizes ModelSize.Plain name = 50%Q) /\
  (forall name info,
     Enhanced.SUPPORTED_MODELS !! name = Some info ->
     exists key size,
       In (key, size) ModelSize.enhanced_model_sizes /\
       contains key (lower name) = true /\
       ModelSize.get_model_size ModelSize.enhanced_model_sizes ModelSize.Plain name
       = size) /\
  (forall name,
     Legacy.SUPPORTED_MODELS !! name = Some None ->
     ModelSize.get_model_size ModelSize.legacy_model_sizes ModelSize.Plain name
     = 50%Q).
Proof.
  split; [|split; [|split]].
  - intros sizes shape name H. destruct shape; cbn [ModelSize.get_model_size].
    + unfold ModelSize.mb. repeat apply Qdiv_nonneg; try lra.
      apply inject_nat_nonneg.
    + unfold ModelSize.mb. repeat apply Qdiv_nonneg; try lra.
      apply inject_nat_nonneg.
    + now apply table_size_nonneg.
    + lra.
  - intros sizes name H. now apply table_size_default.
  - intros name info H. unfold Enhanced.SUPPORTED_MODELS in H.
    apply elem_of_list_to_map_2 in H.
    repeat (apply elem_of_cons in H as [H|H];
            [injection H as -> _;
             eexists; eexists;
             (split; [|split; [|vm_compute; reflexivity]]);
             [cbn; tauto | vm_compute; reflexivity]|]).
    now apply elem_of_nil in H.
  - intros name H. unfold Legacy.SUPPORTED_MODELS in H.
    apply elem_of_list_to_map_2 in H.
    repeat (apply elem_of_cons in H as [H|H];
            [first [discriminate H
                   | injection H as ->; vm_compute; reflexivity]|]).
    now apply elem_of_nil in H.
Qed.

(** ** The two loaders on names they do not serve *)

(** The legacy loader decides by substrings of the name, not by its
    registry.  A name that is not cached and reads as none of yolov5,
    yolov8, efficientnet or (available) detectron2 is refused with
    "Unsupported vision model"; a name that reads as one of them but is no
    registry key raises [KeyError]; in both cases nothing is constructed
    and nothing changes.  In particular the legacy loader refuses the
    non-vision names of its registry, which the enhanced loader always
    serves with a mock object. *)
Theorem legacy_loader_refuses_unservable_names (env : Env) (name : string) :
  (forall w : Legacy.World,
     Legacy.models_cache w !! name = None ->
     (contains "yolov5" (lower name) = false ->
      contains "yolov8" (lower name) = false ->
      contains "efficientnet" (lower name) = false ->
      (contains "detectron2" (lower name) && DETECTRON2_AVAILABLE env)%bool = false ->
      Legacy.load_model env name w
      = (Raise (ValueError (String.append "Unsupported vision model: " name)), w)) /\
     ((contains "yolov5" (lower name)
       || contains "yolov8" (lower name)
       || contains "efficientnet" (lower name)
       || (contains "detectron2" (lower name) && DETECTRON2_AVAILABLE env))%bool = true ->
      Legacy.SUPPORTED_MODELS !! name = None ->
      Legacy.load_model env name w = (Raise (KeyError name), w))) /\
  (Legacy.SUPPORTED_MODELS !! name = Some None ->
   (forall w : Legacy.World,
      Legacy.models_cache w !! name = None ->
      Legacy.load_model env name w
      = (Raise (ValueError (String.append "Unsupported vision model: " name)), w)) /\
   (forall w : Enhanced.World,
      exists model w', Enhanced.load_model env name w = (Ok model, w'))).
Proof.
  split.
  - intros w Hc. split.
    + intros H5 H8 He Hd.
      rewrite (legacy_load_fresh env name w Hc). cbv zeta.
      unfold legacy_plan. now rewrite H5, H8, He, Hd.
    + intros Hany Hs.
      rewrite (legacy_load_fresh env name w Hc). cbv zeta.
      unfold legacy_plan. rewrite Hs.
      destruct (contains "yolov5" (lower name)); [reflexivity|].
      destruct (contains "yolov8" (lower name)); [reflexivity|].
      destruct (contains "efficientnet" (lower name)); [reflexivity|].
      destruct (contains "detectron2" (lower name) && DETECTRON2_AVAILABLE env)%bool;
        [reflexivity | discriminate].
  - intros Hs.
    assert (Hcases : name = "llama2_70b" \/ name = "opus_mt" \/
                     name = "roberta_base" \/ name = "wav2vec2").
    { unfold Legacy.SUPPORTED_MODELS in Hs.
      apply elem_of_list_to_map_2 in Hs.
      repeat (apply elem_of_cons in Hs as [Hs|Hs];
              [first [discriminate Hs | injection Hs as ->; tauto]|]).
      now apply elem_of_nil in Hs. }
    split.
    + intros w Hc. rewrite (legacy_load_fresh env name w Hc). cbv zeta.
      destruct Hcases as [-> | [-> | [-> | ->]]]; reflexivity.
    + intros w.
      destruct Hcases as [-> | [-> | [-> | ->]]];
        eapply load_mock_model_returns; reflexivity.
Qed.

Lemma legacy_loader_refuses_unservable_names_witness :
  Legacy.load_model lab_env "my_yolov5" Legacy.initial_world
  = (Raise (KeyError "my_yolov5"), Legacy.initial_world) /\
  Legacy.load_model lab_env "roberta_base" Legacy.initial_world
  = (Raise (ValueError "Unsupported vision model: roberta_base"),
     Legacy.initial_world) /\
  (exists model w',
     Enhanced.load_model lab_env "roberta_base" Enhanced.initial_world
     = (Ok model, w')).
Proof.
  split; [|split].
  - apply (proj1 (legacy_loader_refuses_unservable_names lab_env "my_yolov5"));
      reflexivity.
  - apply (proj2 (legacy_loader_refuses_unservable_names lab_env "roberta_base"));
      reflexivity.
  - apply (proj2 (legacy_loader_refuses_unservable_names lab_env "roberta_base")).
    reflexivity.
Defined.

(** ** The verdict of the legacy handler *)

(** The legacy handler has no tie: whenever it returns a comparison, the
    winner is "Model A" if A's F1 is strictly larger and "Model B"
    otherwise, so equal F1 scores (two runs of the same model, say) make
    model B the winner; each per-metric winner is decided the same way,
    B taking every draw; and the comparison is over the job's batch and
    names. *)
Theorem legacy_winner_breaks_ties_for_b
    (env : Env) (job : Legacy.Job) (w w' : Legacy.World)
    (a b : string) (ma mb : Legacy.Metrics)
    (winner accuracy_winner speed_winner efficiency_winner f1_winner : string) :
  Legacy.handler env job w
  = (Ok (Legacy.Comparison a b ma mb winner accuracy_winner speed_winner
           efficiency_winner f1_winner), w') ->
  legacy_images_data job <> [] /\
  ((Legacy.f1_score mb < Legacy.f1_score ma)%Q /\ winner = "Model A" /\ f1_winner = "A"
   \/ (Legacy.f1_score ma <= Legacy.f1_score mb)%Q /\ winner = "Model B"
      /\ f1_winner = "B") /\
  ((Legacy.accuracy mb < Legacy.accuracy ma)%Q /\ accuracy_winner = "A"
   \/ (Legacy.accuracy ma <= Legacy.accuracy mb)%Q /\ accuracy_winner = "B") /\
  ((Legacy.speed_ms ma < Legacy.speed_ms mb)%Q /\ speed_winner = "A"
   \/ (Legacy.speed_ms mb <= Legacy.speed_ms ma)%Q /\ speed_winner = "B") /\
  ((Legacy.green_score mb < Legacy.green_score ma)%Q /\ efficiency_winner = "A"
   \/ (Legacy.green_score ma <= Legacy.green_score mb)%Q /\ efficiency_winner = "B").
Proof.
  unfold Legacy.handler, legacy_images_data. cbv zeta. unfold try_except.
  destruct (default [] (Legacy.ji_images_data
              (default (Legacy.mkJobInput None None None) (Legacy.job_input job))))
    as [|d0 rest]; [discriminate|].
  unfold mbind, St_bind, bindM.
  match goal with
  | |- context [Legacy.benchmark_model env ?x ?i w] =>
      destruct (Legacy.benchmark_model env x i w) as [[ma0|e] w1]; [|discriminate]
  end.
  match goal with
  | |- context [Legacy.benchmark_model env ?x ?i w1] =>
      destruct (Legacy.benchmark_model env x i w1) as [[mb0|e] w2]; [|discriminate]
  end.
  unfold ret. intros H. injection H as <- <- <- <- <- <- <- <- <- <-.
  split; [discriminate|].
  repeat split;
    match goal with
    | |- context [ltb ?x ?y] =>
        destruct (ltb x y) eqn:E;
        [apply ltb_lt in E; left | apply ltb_ge in E; right]
    end; repeat split; assumption.
Qed.

Lemma legacy_winner_breaks_ties_for_b_witness :
  exists a b ma mb w',
    Legacy.handler lab_env
      (Legacy.mkJob
         (Some (Legacy.mkJobInput (Some "Trained_yolov5") (Some "Trained_yolov5")
                  (Some [Legacy.mkImageData (Some (Path "street_1.jpg")) (Some 2)]))))
      Legacy.initial_world
    = (Ok (Legacy.Comparison a b ma mb "Model B" "B" "B" "B" "B"), w') /\
    (Legacy.f1_score ma <= Legacy.f1_score mb)%Q.
Proof.
  destruct (Legacy.handler lab_env
      (Legacy.mkJob
         (Some (Legacy.mkJobInput (Some "Trained_yolov5") (Some "Trained_yolov5")
                  (Some [Legacy.mkImageData (Some (Path "street_1.jpg")) (Some 2)]))))
      Legacy.initial_world) as [[r|e] w'] eqn:Hrun;
    [|vm_compute in Hrun; discriminate].
  destruct r as [a b ma mb wn aw sw ew fw|msg];
    [|vm_compute in Hrun; discriminate].
  pose proof (legacy_winner_breaks_ties_for_b lab_env _ _ _ _ _ _ _ _ _ _ _ _ Hrun)
    as (_ & [(Hlt & _)|(Hle & _)] & _).
  - exfalso. vm_compute in Hrun. injection Hrun as <- <- <- <-.
    vm_compute in Hlt. discriminate.
  - exists a, b, ma, mb, w'. split; [|exact Hle].
    vm_compute in Hrun. injection Hrun as <- <- <- <- <- <- <- <- <- <-.
    reflexivity.
Defined.

(** ** The monitor of the legacy worker *)

Lemma legacy_update_effect (s : Sample) (st st' : SystemMonitor.State) :
  SystemMonitor.update_metrics s st = Ok st' ->
  exists m c,
    rss_mb s = Ok m /\ cpu_percent s = Ok c /\
    SystemMonitor.initial_memory st' = SystemMonitor.initial_memory st /\
    SystemMonitor.peak_memory st' = Py.max (SystemMonitor.peak_memory st) m /\
    SystemMonitor.cpu_readings st' = SystemMonitor.cpu_readings st ++ [c] /\
    (gpu_allocated_mb s = None ->
     SystemMonitor.gpu_memory_readings st' = SystemMonitor.gpu_memory_readings st).
Proof.
  unfold SystemMonitor.update_metrics.
  destruct (rss_mb s) as [m|e]; [|discriminate].
  destruct (cpu_percent s) as [c|e]; [|discriminate].
  cbn [mbind result_bind Py.bind].
  destruct (gpu_allocated_mb s) as [[g|e]|]; cbn [mbind result_bind Py.bind];
    try discriminate; intros H; injection H as <-;
    exists m, c; repeat split; discriminate.
Qed.

(** Unlike the enhanced one, the legacy monitor starts every run afresh
    and guards no query.  If all updates of a run go through, the CPU
    readings are exactly one per update, none left from earlier runs; the
    peak is at least the memory at start and at least every sample; and
    without a CUDA device the reported GPU memory is 0.  If a memory or
    CPU query fails, the update raises. *)
Theorem legacy_monitor_starts_afresh
    (rss : Q) (earlier st' : SystemMonitor.State) (samples : list Sample) :
  SystemMonitor.update_all samples (SystemMonitor.start_monitoring rss earlier)
  = Ok st' ->
  SystemMonitor.initial_memory st' = rss /\
  (rss <= SystemMonitor.peak_memory st')%Q /\
  (forall s m, In s samples -> rss_mb s = Ok m ->
     (m <= SystemMonitor.peak_memory st')%Q) /\
  map cpu_percent samples = map Ok (SystemMonitor.cpu_readings st') /\
  Forall healthy samples /\
  (Forall (fun s => gpu_allocated_mb s = None) samples ->
   SystemMonitor.gpu_memory_mb (SystemMonitor.get_metrics st') = 0%Q).
Proof.
  assert (Hgen : forall samples st st',
    SystemMonitor.update_all samples st = Ok st' ->
    SystemMonitor.initial_memory st' = SystemMonitor.initial_memory st /\
    (SystemMonitor.peak_memory st <= SystemMonitor.peak_memory st')%Q /\
    (forall s m, In s samples -> rss_mb s = Ok m ->
       (m <= SystemMonitor.peak_memory st')%Q) /\
    map Ok (SystemMonitor.cpu_readings st')
    = map Ok (SystemMonitor.cpu_readings st) ++ map cpu_percent samples /\
    Forall healthy samples /\
    (Forall (fun s => gpu_allocated_mb s = None) samples ->
     SystemMonitor.gpu_memory_readings st' = SystemMonitor.gpu_memory_readings st)).
  { clear. induction samples as [|s rest IH]; intros st st' H.
    - cbn in H. injection H as <-.
      split; [reflexivity|]. split; [apply Qle_refl|].
      split; [intros s m []|]. split; [now rewrite app_nil_r|].
      split; [constructor | reflexivity].
    - cbn [SystemMonitor.update_all] in H.
      destruct (SystemMonitor.update_metrics s st) as [st1|e] eqn:Hup;
        [|discriminate].
      cbn [mbind result_bind Py.bind] in H.
      destruct (legacy_update_effect s st st1 Hup)
        as (m & c & Hm & Hc & Ui & Up & Uc & Ug).
      destruct (IH st1 st' H) as (Ii & Ip & Irss & Icpu & Ih & Ig).
      assert (Hpk : (SystemMonitor.peak_memory st <= SystemMonitor.peak_memory st1)%Q)
        by (rewrite Up; apply py_max_ge_l).
      split; [congruence|]. split; [lra|].
      split.
      { intros s' m' [<-|Hin] Hm'.
        - rewrite Hm in Hm'. injection Hm' as <-.
          eapply Qle_trans; [|exact Ip]. rewrite Up. apply py_max_ge_r.
        - now apply (Irss s' m'). }
      split.
      { rewrite Icpu, Uc, map_app. cbn [map]. rewrite Hc, <- app_assoc.
        reflexivity. }
      split.
      { constructor; [split; eauto | exact Ih]. }
      intros Hall. inversion Hall as [|? ? Hs Hrest]; subst.
      rewrite (Ig Hrest). now apply Ug. }
  intros H. destruct (Hgen samples _ st' H) as (Hi & Hp & Hrss & Hcpu & Hh & Hg).
  cbn [SystemMonitor.start_monitoring SystemMonitor.initial_memory
       SystemMonitor.peak_memory SystemMonitor.cpu_readings
       SystemMonitor.gpu_memory_readings map app] in *.
  split; [exact Hi|]. split; [exact Hp|]. split; [exact Hrss|].
  split; [now rewrite Hcpu|]. split; [exact Hh|].
  intros Hall. unfold SystemMonitor.get_metrics.
  cbn [SystemMonitor.gpu_memory_mb]. now rewrite (Hg Hall).
Qed.

Lemma legacy_monitor_starts_afresh_witness :
  exists st',
    SystemMonitor.update_all
      [mkSample (Ok 300%Q) (Ok 40%Q) None; mkSample (Ok 900%Q) (Ok 60%Q) None]
      (SystemMonitor.start_monitoring 200
         (SystemMonitor.mkState 100 5000 [99%Q; 98%Q] [7%Q])) = Ok st' /\
    SystemMonitor.initial_memory st' = 200%Q /\
    (200 <= SystemMonitor.peak_memory st')%Q.
Proof.
  destruct (SystemMonitor.update_all
      [mkSample (Ok 300%Q) (Ok 40%Q) None; mkSample (Ok 900%Q) (Ok 60%Q) None]
      (SystemMonitor.start_monitoring 200
         (SystemMonitor.mkState 100 5000 [99%Q; 98%Q] [7%Q]))) as [st'|e] eqn:Hrun;
    [|vm_compute in Hrun; discriminate].
  exists st'. split; [reflexivity|].
  pose proof (legacy_monitor_starts_afresh 200 _ st' _ Hrun) as (Hi & Hp & _).
  split; [exact Hi | exact Hp].
Defined.

(** ** Instances *)

Lemma benchmark_run_cleans_up_witness :
  Enhanced.monitoring
    (Enhanced.benchmark_model flaky_env "Trained_yolov8"
       [picture "street_1.jpg" 2] Enhanced.initial_world).2 = false.
Proof.
  apply (benchmark_run_cleans_up flaky_env "Trained_yolov8"
           [picture "street_1.jpg" 2] Enhanced.initial_world).
Defined.

Lemma job_reuses_cached_models_witness :
  Enhanced.monitoring
    (Enhanced.handler lab_env
       (job_of "Trained_yolov5" "efficientnet_b0" [picture "street_1.jpg" 2])
       Enhanced.initial_world).2 = false.
Proof.
  apply (job_reuses_cached_models lab_env
           (job_of "Trained_yolov5" "efficientnet_b0" [picture "street_1.jpg" 2])
           Enhanced.initial_world).
  discriminate.
Defined.

Lemma size_table_covers_registry_witness :
  ModelSize.get_model_size ModelSize.legacy_model_sizes ModelSize.Plain "wav2vec2"
  = 50%Q.
Proof.
  apply (proj2 (proj2 (proj2 size_table_covers_registry)) "wav2vec2").
  reflexivity.
Defined.
